(** * plex-mcp-server: the tool handlers, the Plex client and the mock client

    A shallow embedding of the TypeScript sources

      - [plex-mcp-server-ts.ts]  (start-up, tool registry and the SSE endpoints),
      - [PlexClient.ts]          (the client with pagination, devices and playback),
      - [mocks/MockPlexClient.ts] (the fixture client),
      - [mocks/mcp-sdk.ts]       (the MCPServer of the test support),
      - [Logger.ts]              (the logger),

    followed by the properties the specification states about them.

    Conventions of the embedding.

      - A JavaScript value of type [any] is a [jsval]; objects are finite maps
        from property names to values ([gmap string jsval]).  Every value the
        program handles comes from [JSON.parse], from the SDK or from an object
        literal, so values are trees: no two items share a mutable part, and
        the in-place update [item.Media = ...] is modelled by a functional
        update of the item.  Inherited (prototype) properties are not
        modelled; none of the property names the program reads is one.
      - A string is a sequence of code units, here of type [ascii]: the model
        covers the strings whose code units are below 256.  The numeric
        parameters of the tools ([type], [start], [size]) are integers.
      - An [async] function is a computation in the monad [M]: it either
        returns or throws, and it appends the calls it makes to the outside
        world (logger, SDK, [fetch], client methods) to a trace.  [await] is
        sequencing; a rejected promise is a thrown exception.
      - Time stamps and the text of log lines are not recorded.  In [log],
        which the client and the handlers of [Section Tools] use, the write
        of a log line ([fs.appendFileSync]) succeeds; [Module Logged] has
        the handlers over the logger of [Logger.ts], whose write may throw,
        and they are the former when every write succeeds.
      - The JSON middleware ([express.json()]) and the SDK are library code:
        the middleware is modelled by what it does to a request
        ([Http.express_json]), the SDK and [fetch] by the answers of the
        media server ([Upstream]). *)

From Stdlib Require Import ZArith QArith String Ascii List Lia DecimalString.
From stdpp Require Import gmap strings list fin_maps.

Close Scope Q_scope.
Local Open Scope string_scope.
Local Set Warnings "-register-all".

(** ** JavaScript values *)

Inductive jsval : Type :=
| VUndefined
| VNull
| VBool (b : bool)
| VNum (q : Q)
| VStr (s : string)
| VArr (l : list jsval)
| VObj (o : gmap string jsval).

(** An exception is either an instance of [Error] (a [TypeError] raised by the
    engine included) with its [message], or any other thrown value. *)
Inductive exn : Type :=
| ErrorObj (message : string)
| NonError (v : jsval).

Inductive outcome (A : Type) : Type :=
| Ret (a : A)
| Throw (e : exn).
Arguments Ret {A} a.
Arguments Throw {A} e.

(** [error instanceof Error ? error.message : 'Unknown error'] *)
Definition error_message (e : exn) : string :=
  match e with
  | ErrorObj m => m
  | NonError _ => "Unknown error"
  end.

Definition num_of_nat (n : nat) : jsval := VNum (inject_Z (Z.of_nat n)).

(** ToBoolean.  A [VNum] is never NaN. *)
Definition truthy (v : jsval) : bool :=
  match v with
  | VUndefined | VNull => false
  | VBool b => b
  | VNum q => negb (Qeq_bool q 0)
  | VStr s => negb (String.eqb s "")
  | VArr _ | VObj _ => true
  end.

(** [a || b] *)
Definition js_or (a b : jsval) : jsval := if truthy a then a else b.

Definition nullish (v : jsval) : bool :=
  match v with
  | VUndefined | VNull => true
  | _ => false
  end.

(** [v === 'literal'] *)
Definition strict_eq_str (v : jsval) (lit : string) : bool :=
  match v with
  | VStr s => String.eqb s lit
  | _ => false
  end.

(** [v !== undefined] *)
Definition is_defined (v : jsval) : bool :=
  match v with
  | VUndefined => false
  | _ => true
  end.

(** Array indices as property names: the canonical decimal numerals. *)
Definition index_key (i : nat) : string := NilZero.string_of_uint (Nat.to_uint i).

Definition parse_index (k : string) : option nat :=
  match NilZero.uint_of_string k with
  | Some u =>
      let i := Nat.of_uint u in
      if String.eqb (index_key i) k then Some i else None
  | None => None
  end.

Fixpoint string_chars (s : string) : list jsval :=
  match s with
  | EmptyString => []
  | String c s' => VStr (String c EmptyString) :: string_chars s'
  end.

(** Own properties of an array-like list of elements: [length] and the indices. *)
Definition indexed_prop (l : list jsval) (k : string) : jsval :=
  if String.eqb k "length" then num_of_nat (length l)
  else match parse_index k with
       | Some i => default VUndefined (l !! i)
       | None => VUndefined
       end.

Definition type_error_read (what k : string) : exn :=
  ErrorObj ("Cannot read properties of " +:+ what +:+ " (reading '" +:+ k +:+ "')").

(** [v.k]: reading a property throws a [TypeError] on [null] and [undefined],
    and yields [undefined] for a property the value does not have. *)
Definition get_prop (v : jsval) (k : string) : outcome jsval :=
  match v with
  | VUndefined => Throw (type_error_read "undefined" k)
  | VNull => Throw (type_error_read "null" k)
  | VBool _ | VNum _ => Ret VUndefined
  | VStr s => Ret (indexed_prop (string_chars s) k)
  | VArr l => Ret (indexed_prop l k)
  | VObj o => Ret (default VUndefined (o !! k))
  end.

(** [o.k] for a value known to be an object. *)
Definition prop (o : gmap string jsval) (k : string) : jsval :=
  default VUndefined (o !! k).

(** [{...v}]: the own enumerable properties copied by a spread. *)
Definition spread (v : jsval) : gmap string jsval :=
  match v with
  | VObj o => o
  | VArr l => list_to_map (imap (fun i x => (index_key i, x)) l)
  | VStr s => list_to_map (imap (fun i x => (index_key i, x)) (string_chars s))
  | _ => ∅
  end.

Definition type_error_set (what k : string) : exn :=
  ErrorObj ("Cannot set properties of " +:+ what +:+ " (setting '" +:+ k +:+ "')").

Definition type_error_create (k : string) : exn :=
  ErrorObj ("Cannot create property '" +:+ k +:+ "' on a primitive value").

(** [v.k = x] in strict mode (the sources are ES modules).  A named property
    stored on an array is neither serialised by [JSON.stringify] nor read
    back by the program: the array is left as it is. *)
Definition set_prop (v : jsval) (k : string) (x : jsval) : outcome jsval :=
  match v with
  | VUndefined => Throw (type_error_set "undefined" k)
  | VNull => Throw (type_error_set "null" k)
  | VBool _ | VNum _ | VStr _ => Throw (type_error_create k)
  | VArr l => Ret (VArr l)
  | VObj o => Ret (VObj (<[k := x]> o))
  end.

(** ** Strings: white space, [trim], [toLowerCase], [parseInt] *)

(** WhiteSpace and LineTerminator of ECMAScript among the code units below
    256: TAB, LF, VT, FF, CR, SP and NBSP. *)
Definition is_whitespace (c : ascii) : bool :=
  let n := nat_of_ascii c in
  (((9 <=? n) && (n <=? 13)) || (n =? 32) || (n =? 160))%nat.

Fixpoint trim_start (s : string) : string :=
  match s with
  | EmptyString => EmptyString
  | String c s' => if is_whitespace c then trim_start s' else s
  end.

(** Removes the trailing white space: a character is kept when it is not
    white space or when something is kept after it. *)
Fixpoint trim_end (s : string) : string :=
  match s with
  | EmptyString => EmptyString
  | String c s' =>
      match trim_end s' with
      | EmptyString => if is_whitespace c then EmptyString else String c EmptyString
      | r => String c r
      end
  end.

(** [s.trim()] *)
Definition trim (s : string) : string := trim_end (trim_start s).

Definition lower_char (c : ascii) : ascii :=
  let n := nat_of_ascii c in
  if (((65 <=? n) && (n <=? 90)) || ((192 <=? n) && (n <=? 222) && negb (n =? 215)))%nat
  then ascii_of_nat (n + 32) else c.

(** [s.toLowerCase()] *)
Fixpoint toLowerCase (s : string) : string :=
  match s with
  | EmptyString => EmptyString
  | String c s' => String (lower_char c) (toLowerCase s')
  end.

Definition digit_value (c : ascii) : option Z :=
  let n := nat_of_ascii c in
  if ((48 <=? n) && (n <=? 57))%nat then Some (Z.of_nat (n - 48)) else None.

(** The value of the longest prefix of decimal digits, [None] when there is
    no digit. *)
Fixpoint digits_prefix (s : string) (acc : option Z) : option Z :=
  match s with
  | EmptyString => acc
  | String c s' =>
      match digit_value c with
      | Some d => digits_prefix s' (Some (10 * default 0%Z acc + d)%Z)
      | None => acc
      end
  end.

(** [parseInt(s, 10)] on a string; [None] is NaN.  Integers are exact (the
    rounding of a double beyond 2^53 is not modelled). *)
Definition parseInt_string (s : string) : option Z :=
  match trim_start s with
  | String "-" s' => Z.opp <$> digits_prefix s' None
  | String "+" s' => digits_prefix s' None
  | s' => digits_prefix s' None
  end.

Definition Qtruncate (q : Q) : Z := Z.quot (Qnum q) (Z.pos (Qden q)).

(** [parseInt(v, 10)] on any value, through its string conversion: a number
    in plain decimal notation parses to its integer part, the string of an
    array starts with the string of its first element followed by a comma,
    and the strings of the other values carry no digit. *)
Fixpoint parseInt (v : jsval) : option Z :=
  match v with
  | VStr s => parseInt_string s
  | VNum q => Some (Qtruncate q)
  | VArr (x :: _) => parseInt x
  | _ => None
  end.

(** ** The outside world: log lines, SDK calls, HTTP requests *)

(** The [Tag] enumeration of the plexjs SDK, as far as the program names
    its members; [Tag.Newest] has the value ["newest"]. *)
Module Tag.
Inductive t : Type :=
| Newest
| RecentlyAdded
| RecentlyViewed
| OnDeck
| Unwatched
| Collection.
End Tag.

Inductive level : Type := Info | Warn | Error.

(** The operations of the plexjs SDK the client calls, with their arguments;
    a number obtained from [parseInt] is [None] when it is NaN. *)
Module Sdk.
Inductive call : Type :=
| getAllLibraries
| getLibraryItems (sectionKey : option Z) (type : Z) (tag : Tag.t)
| getMetadataChildren (ratingKey : option Z)
| getSearchResults (query : string)
| getWatchList (filter : option string)
| getDevices.
End Sdk.

(** The two URLs requested with [fetch], by their variable parts:
    [/library/sections/<numericId>/all?type=..&X-Plex-Container-Start=..&X-Plex-Container-Size=..]
    and [/player/playback/playMedia?..machineIdentifier=..&key=..]. *)
Inductive fetch_request : Type :=
| FetchLibraryAll (numericId : option Z) (type start size : Z)
| FetchPlayMedia (machineIdentifier key : string).

Record fetch_response : Type := {
  ok : bool;
  statusText : string;
  json : outcome jsval
}.

(** The methods of [IPlexClient] as the tool handlers call them. *)
Inductive client_call : Type :=
| CallGetLibraries
| CallGetLibraryContents (libraryId : jsval) (type : Z) (tag : Tag.t) (start size : Z)
| CallGetMovies
| CallGetSeasons (showId : string)
| CallGetEpisodes (seasonId : string)
| CallSearch (query : string)
| CallGetWatchList (filter : option string)
| CallGetDevices.

Inductive event : Type :=
| EvLog (lvl : level)
| EvConsole
| EvInvoke (c : client_call)
| EvSdk (c : Sdk.call)
| EvFetch (r : fetch_request).

(** What the media server answers: the environment of the client. *)
Record Upstream : Type := {
  sdk : Sdk.call -> outcome jsval;
  fetch : fetch_request -> outcome fetch_response
}.

(** ** The monad of asynchronous computations *)

Definition M (A : Type) : Type := list event -> outcome A * list event.

Definition ret {A} (a : A) : M A := fun tr => (Ret a, tr).

Definition bind {A B} (m : M A) (f : A -> M B) : M B :=
  fun tr =>
    match m tr with
    | (Ret a, tr') => f a tr'
    | (Throw e, tr') => (Throw e, tr')
    end.

Definition throw {A} (e : exn) : M A := fun tr => (Throw e, tr).

(** [try { body } catch (error) { handler }] *)
Definition try_catch {A} (body : M A) (handler : exn -> M A) : M A :=
  fun tr =>
    match body tr with
    | (Ret a, tr') => (Ret a, tr')
    | (Throw e, tr') => handler e tr'
    end.

Definition emit (ev : event) : M unit := fun tr => (Ret tt, (tr ++ [ev])%list).

Definition lift {A} (o : outcome A) : M A := fun tr => (o, tr).

Declare Scope js_scope.
Delimit Scope js_scope with js.
Notation "x <- m ;; k" := (bind m (fun x => k))
  (at level 100, m at next level, right associativity) : js_scope.
Notation "m ;;; k" := (bind m (fun _ => k))
  (at level 100, right associativity) : js_scope.
Local Open Scope js_scope.

(** [logger.info], [logger.warn], [logger.error] *)
Definition log (lvl : level) : M unit := emit (EvLog lvl).

(** [console.log] *)
Definition console_log : M unit := emit EvConsole.

(** [await plexClient.method(args)] from a tool handler. *)
Definition invoke {A} (c : client_call) (op : M A) : M A :=
  emit (EvInvoke c) ;;; op.

(** ** Array methods with callbacks that may throw *)

Definition obind {A B} (o : outcome A) (f : A -> outcome B) : outcome B :=
  match o with
  | Ret a => f a
  | Throw e => Throw e
  end.

Fixpoint map_outcome {A B} (f : A -> outcome B) (l : list A) : outcome (list B) :=
  match l with
  | [] => Ret []
  | x :: l' =>
      obind (f x) (fun y => obind (map_outcome f l') (fun ys => Ret (y :: ys)))
  end.

Fixpoint filter_outcome {A} (p : A -> outcome bool) (l : list A) : outcome (list A) :=
  match l with
  | [] => Ret []
  | x :: l' =>
      obind (p x) (fun b =>
        obind (filter_outcome p l') (fun ys => Ret (if b then x :: ys else ys)))
  end.

(** [l.find(p)]: the first element satisfying [p], [undefined] without one. *)
Fixpoint find_outcome (p : jsval -> outcome bool) (l : list jsval) : outcome jsval :=
  match l with
  | [] => Ret VUndefined
  | x :: l' => obind (p x) (fun b => if b then Ret x else find_outcome p l')
  end.

(** The receiver of [v.method(...)] for an array method: only arrays have
    [map], [filter], [find] and [flatMap]. *)
Definition array_receiver (v : jsval) (method : string) : outcome (list jsval) :=
  match v with
  | VArr l => Ret l
  | VUndefined => Throw (type_error_read "undefined" method)
  | VNull => Throw (type_error_read "null" method)
  | _ => Throw (ErrorObj (method +:+ " is not a function"))
  end.

(** One level of flattening, as [flatMap] does with the callback's result. *)
Definition flatten_one (v : jsval) : list jsval :=
  match v with
  | VArr l => l
  | _ => [v]
  end.

(** [v?.k] *)
Definition opt_chain (v : jsval) (k : string) : outcome jsval :=
  if nullish v then Ret VUndefined else get_prop v k.

(** [await Promise.all(ps)]: the computations are independent of each other;
    the model runs them in list order, all of them, and reports the first
    rejection in that order. *)
Fixpoint promise_all {A} (ps : list (M A)) : M (list A) :=
  match ps with
  | [] => ret []
  | p :: ps' =>
      fun tr =>
        let '(o, tr1) := p tr in
        let '(os, tr2) := promise_all ps' tr1 in
        (obind o (fun a => obind os (fun l => Ret (a :: l))), tr2)
  end.

(** ** The client interface used by the tool handlers *)

(** [{ items, totalSize }] *)
Record LibraryContents : Type := {
  items : jsval;
  totalSize : jsval
}.

(** [type IPlexClient = PlexClient | MockPlexClient]: the methods the tool
    handlers call. *)
Module Interface.
Record IPlexClient : Type := {
  getLibraries : M jsval;
  getLibraryContents : jsval -> Z -> Tag.t -> Z -> Z -> M LibraryContents;
  getMovies : M jsval;
  getSeasons : string -> M jsval;
  getEpisodes : string -> M jsval;
  search : string -> M jsval;
  getWatchList : option string -> M jsval;
  getDevices : M jsval
}.
End Interface.
Abbreviation IPlexClient := Interface.IPlexClient.

(** ** PlexClient *)

Module PlexClient.
Section WithUpstream.

Variable up : Upstream.

Definition sdk_call (c : Sdk.call) : M jsval :=
  emit (EvSdk c) ;;; lift (sdk up c).

Definition do_fetch (r : fetch_request) : M fetch_response :=
  emit (EvFetch r) ;;; lift (fetch up r).

(** The [catch] block of every method: log the error and throw it again. *)
Definition rethrow {A} (e : exn) : M A := log Error ;;; throw e.

Definition getLibraries : M jsval :=
  try_catch
    (response <- sdk_call Sdk.getAllLibraries ;;
     object <- lift (get_prop response "object") ;;
     directory <- lift (if nullish object then Ret VUndefined
                        else obind (get_prop object "mediaContainer")
                               (fun mc => get_prop mc "directory")) ;;
     ret (js_or directory (VArr [])))
    rethrow.

Definition getLibraryContents (libraryId : jsval) (type : Z) (tag : Tag.t)
    (start size : Z) : M LibraryContents :=
  try_catch
    (let numericId := parseInt libraryId in
     response <- do_fetch (FetchLibraryAll numericId type start size) ;;
     if negb (ok response) then
       throw (ErrorObj ("Failed to fetch library contents: " +:+ statusText response))
     else
       data <- lift (json response) ;;
       container <- lift (get_prop data "MediaContainer") ;;
       metadata <- lift (opt_chain container "Metadata") ;;
       let items := js_or metadata (VArr []) in
       reported <- lift (opt_chain container "totalSize") ;;
       totalSize <- lift (if truthy reported then Ret reported
                          else get_prop items "length") ;;
       ret {| items := items; totalSize := totalSize |})
    rethrow.

Definition is_movie (item : jsval) : outcome bool :=
  obind (get_prop item "type") (fun t => Ret (strict_eq_str t "movie")).

(** [lib.key] is read for each movie library as its request starts; the
    read returns, since the library passed [is_movie]. *)
Definition getMovies : M jsval :=
  try_catch
    (libraries <- getLibraries ;;
     libs <- lift (array_receiver libraries "filter") ;;
     movieLibraries <- lift (filter_outcome is_movie libs) ;;
     if (length movieLibraries =? 0)%nat then
       log Warn ;;; ret (VArr [])
     else
       keys <- lift (map_outcome (fun lib => get_prop lib "key") movieLibraries) ;;
       movieResults <- promise_all
         (map (fun key => getLibraryContents key 1 Tag.Newest 0 20) keys) ;;
       let flat := concat (map (fun result => flatten_one (items result)) movieResults) in
       allMovies <- lift (filter_outcome is_movie flat) ;;
       ret (VArr allMovies))
    rethrow.

(** [response.object?.mediaContainer?.metadata || []] and its like. *)
Definition container_list (response : jsval) (field : string) : outcome jsval :=
  obind (get_prop response "object") (fun object =>
  obind (opt_chain object "mediaContainer") (fun mediaContainer =>
  obind (opt_chain mediaContainer field) (fun l =>
  Ret (js_or l (VArr []))))).

Definition getSeasons (showId : string) : M jsval :=
  try_catch
    (let numericId := parseInt_string showId in
     response <- sdk_call (Sdk.getMetadataChildren numericId) ;;
     lift (container_list response "metadata"))
    rethrow.

Definition getEpisodes (seasonId : string) : M jsval :=
  try_catch
    (let numericId := parseInt_string seasonId in
     response <- sdk_call (Sdk.getMetadataChildren numericId) ;;
     lift (container_list response "metadata"))
    rethrow.

Definition search (query : string) : M jsval :=
  try_catch
    (response <- sdk_call (Sdk.getSearchResults query) ;;
     lift (container_list response "metadata"))
    rethrow.

Definition getWatchList (filter : option string) : M jsval :=
  log Info ;;;
  try_catch
    (response <- sdk_call (Sdk.getWatchList filter) ;;
     log Info ;;;
     responseObj <- lift (get_prop response "object") ;;
     if negb (truthy responseObj) then ret (VArr [])
     else
       metadata <- lift (get_prop responseObj "metadata") ;;
       ret (js_or metadata (VArr [])))
    rethrow.

Definition getDevices : M jsval :=
  try_catch
    (response <- sdk_call Sdk.getDevices ;;
     lift (container_list response "device"))
    rethrow.

Definition has_client_identifier (deviceId : string) (device : jsval) : outcome bool :=
  obind (get_prop device "clientIdentifier") (fun ci => Ret (strict_eq_str ci deviceId)).

(** [response.object?.mediaContainer?.metadata?.[0]] *)
Definition first_metadata (response : jsval) : outcome jsval :=
  obind (get_prop response "object") (fun object =>
  obind (opt_chain object "mediaContainer") (fun mediaContainer =>
  obind (opt_chain mediaContainer "metadata") (fun metadata =>
  opt_chain metadata "0"))).

Definition playMedia (mediaId deviceId : string) : M unit :=
  try_catch
    (let numericId := parseInt_string mediaId in
     devices <- getDevices ;;
     devs <- lift (array_receiver devices "find") ;;
     targetDevice <- lift (find_outcome (has_client_identifier deviceId) devs) ;;
     if negb (truthy targetDevice) then
       throw (ErrorObj ("Device with ID " +:+ deviceId +:+ " not found"))
     else
       response <- sdk_call (Sdk.getLibraryItems numericId 1 Tag.Newest) ;;
       first <- lift (first_metadata response) ;;
       if negb (truthy first) then
         throw (ErrorObj ("Media item with ID " +:+ mediaId +:+ " not found"))
       else
         playResponse <- do_fetch
           (FetchPlayMedia deviceId ("/library/metadata/" +:+ mediaId)) ;;
         if negb (ok playResponse) then
           throw (ErrorObj ("Failed to start playback: " +:+ statusText playResponse))
         else
           log Info)
    rethrow.

Definition client : IPlexClient := {|
  Interface.getLibraries := getLibraries;
  Interface.getLibraryContents := getLibraryContents;
  Interface.getMovies := getMovies;
  Interface.getSeasons := getSeasons;
  Interface.getEpisodes := getEpisodes;
  Interface.search := search;
  Interface.getWatchList := getWatchList;
  Interface.getDevices := getDevices
|}.

End WithUpstream.
End PlexClient.

(** ** MockPlexClient *)

Definition num (z : Z) : jsval := VNum (inject_Z z).

(** A decimal literal with one digit after the point, in tenths. *)
Definition tenths (z : Z) : jsval := VNum (z # 10).

(** The index an argument of [slice] stands for in an array of [len]
    elements: counted from the end when negative, clamped to the array. *)
Definition relative_index (len i : Z) : Z :=
  if (i <? 0)%Z then Z.max (len + i) 0 else Z.min i len.

(** [l.slice(from, to)] with integer arguments. *)
Definition slice {A} (l : list A) (from to : Z) : list A :=
  let len := Z.of_nat (length l) in
  let k := relative_index len from in
  let final := relative_index len to in
  take (Z.to_nat (Z.max (final - k) 0)) (drop (Z.to_nat k) l).

Fixpoint starts_with (p s : string) : bool :=
  match p, s with
  | EmptyString, _ => true
  | String a p', String b s' => Ascii.eqb a b && starts_with p' s'
  | String _ _, EmptyString => false
  end.

(** [s.includes(q)] *)
Fixpoint includes (s q : string) : bool :=
  starts_with q s ||
  match s with
  | EmptyString => false
  | String _ s' => includes s' q
  end.

(** [v.toLowerCase()] on a value of type [any]: only strings have the
    method. *)
Definition lower_case_of (v : jsval) : outcome string :=
  match v with
  | VStr s => Ret (toLowerCase s)
  | VUndefined => Throw (type_error_read "undefined" "toLowerCase")
  | VNull => Throw (type_error_read "null" "toLowerCase")
  | _ => Throw (ErrorObj "toLowerCase is not a function")
  end.

Module MockPlexClient.

Definition optimized : jsval := VArr [VObj {[ "optimizedForStreaming" := num 1 ]}].

Definition movie (ratingKey title : string) (year duration rating : Z)
    (summary : string) : jsval :=
  VObj {[ "ratingKey" := VStr ratingKey; "title" := VStr title; "year" := num year;
          "type" := VStr "movie"; "duration" := num duration;
          "rating" := tenths rating; "summary" := VStr summary;
          "Media" := optimized ]}.

Definition show (ratingKey title : string) (year childCount : Z)
    (summary : string) : jsval :=
  VObj {[ "ratingKey" := VStr ratingKey; "title" := VStr title; "year" := num year;
          "type" := VStr "show"; "childCount" := num childCount;
          "summary" := VStr summary; "Media" := optimized ]}.

Definition libraries : list jsval :=
  [ VObj {[ "key" := VStr "1"; "title" := VStr "Movies"; "type" := VStr "movie" ]};
    VObj {[ "key" := VStr "2"; "title" := VStr "TV Shows"; "type" := VStr "show" ]} ].

Definition getLibraries : M jsval :=
  console_log ;;; ret (VArr libraries).

Definition the_matrix : jsval :=
  movie "101" "The Matrix" 1999 136 87
    "A computer hacker learns about the true nature of reality.".
Definition inception : jsval :=
  movie "102" "Inception" 2010 148 88
    "A thief who steals corporate secrets through the use of dream-sharing technology.".
Definition breaking_bad : jsval :=
  show "103" "Breaking Bad" 2008 5
    "A high school chemistry teacher turned methamphetamine manufacturer.".
Definition shawshank : jsval :=
  movie "104" "The Shawshank Redemption" 1994 142 93
    "Two imprisoned men bond over a number of years, finding solace and eventual redemption through acts of common decency.".
Definition dark_knight : jsval :=
  movie "105" "The Dark Knight" 2008 152 90
    "When the menace known as the Joker wreaks havoc and chaos on the people of Gotham, Batman must accept one of the greatest psychological and physical tests of his ability to fight injustice.".
Definition lethal_weapon : jsval :=
  movie "301" "Lethal Weapon" 1987 110 76
    "A veteran cop reluctantly teams with a reckless partner.".
Definition lethal_weapon_2 : jsval :=
  movie "302" "Lethal Weapon 2" 1989 114 72
    "Riggs and Murtaugh protect a federal witness.".

Definition contents : list jsval :=
  [ the_matrix; inception; breaking_bad; shawshank; dark_knight;
    lethal_weapon; lethal_weapon_2 ].

Definition getLibraryContents (libraryId : jsval) (type : Z) (tag : Tag.t)
    (start size : Z) : M LibraryContents :=
  console_log ;;;
  let paginatedContents := slice contents start (start + size) in
  ret {| items := VArr paginatedContents;
         totalSize := num_of_nat (length contents) |}.

Definition movies : list jsval :=
  [ the_matrix; inception; shawshank; dark_knight ].

Definition getMovies : M jsval :=
  console_log ;;; ret (VArr movies).

Definition season (ratingKey title : string) (index leafCount : Z) : jsval :=
  VObj {[ "ratingKey" := VStr ratingKey; "title" := VStr title; "index" := num index;
          "leafCount" := num leafCount; "type" := VStr "season" ]}.

Definition getSeasons (showId : string) : M jsval :=
  console_log ;;;
  ret (VArr [ season "201" "Season 1" 1 10; season "202" "Season 2" 2 12 ]).

Definition episode (ratingKey title : string) (parentIndex index duration : Z)
    (summary : string) : jsval :=
  VObj {[ "ratingKey" := VStr ratingKey; "title" := VStr title;
          "parentIndex" := num parentIndex; "index" := num index;
          "duration" := num duration; "summary" := VStr summary;
          "type" := VStr "episode" ]}.

Definition getEpisodes (seasonId : string) : M jsval :=
  console_log ;;;
  ret (VArr [ episode "301" "Pilot" 1 1 45 "First episode.";
              episode "302" "Second Episode" 1 2 43 "Second episode." ]).

Definition search_result (ratingKey title : string) (year : Z)
    (type originallyAvailableAt : string) : jsval :=
  VObj {[ "ratingKey" := VStr ratingKey; "title" := VStr title; "year" := num year;
          "type" := VStr type; "Media" := optimized;
          "originallyAvailableAt" := VStr originallyAvailableAt ]}.

Definition results : list jsval :=
  [ search_result "101" "The Matrix" 1999 "movie" "1999-03-31";
    search_result "201" "Breaking Bad" 2008 "show" "2008-01-20";
    search_result "301" "Lethal Weapon" 1987 "movie" "1987-03-06";
    search_result "302" "Lethal Weapon 2" 1989 "movie" "1989-07-07" ].

(** [item.title.toLowerCase().includes(query.toLowerCase())] *)
Definition title_includes (query : string) (item : jsval) : outcome bool :=
  obind (get_prop item "title") (fun title =>
  obind (lower_case_of title) (fun t => Ret (includes t (toLowerCase query)))).

Definition search (query : string) : M jsval :=
  console_log ;;;
  if negb (String.eqb query "") then
    found <- lift (filter_outcome (title_includes query) results) ;;
    ret (VArr found)
  else ret (VArr results).

Definition watchlist : list jsval :=
  [ VObj {[ "ratingKey" := VStr "501"; "title" := VStr "Dune"; "year" := num 2021;
            "type" := VStr "movie"; "duration" := num 155; "rating" := tenths 80;
            "summary" := VStr "A noble family becomes embroiled in a war for control over the galaxy's most valuable asset." ]};
    VObj {[ "ratingKey" := VStr "502"; "title" := VStr "The Last of Us";
            "year" := num 2023; "type" := VStr "show"; "childCount" := num 1;
            "summary" := VStr "After a global pandemic destroys civilization, a hardened survivor takes charge of a 14-year-old girl who may be humanity's last hope." ]};
    VObj {[ "ratingKey" := VStr "503"; "title" := VStr "Oppenheimer";
            "year" := num 2023; "type" := VStr "movie"; "duration" := num 180;
            "rating" := tenths 85;
            "summary" := VStr "The story of American scientist J. Robert Oppenheimer and his role in the development of the atomic bomb." ]} ].

(** [item.ratingKey === '501' || item.ratingKey === '503'] *)
Definition is_available (item : jsval) : outcome bool :=
  obind (get_prop item "ratingKey") (fun ratingKey =>
  Ret (strict_eq_str ratingKey "501" || strict_eq_str ratingKey "503")).

(** [filter?.toLowerCase() === 'available'] *)
Definition wants_available (filter : option string) : bool :=
  match filter with
  | Some f => String.eqb (toLowerCase f) "available"
  | None => false
  end.

Definition getWatchList (filter : option string) : M jsval :=
  console_log ;;;
  if wants_available filter then
    available <- lift (filter_outcome is_available watchlist) ;;
    ret (VArr available)
  else ret (VArr watchlist).

Definition device (id : Z) (name platform clientIdentifier : string) (createdAt : Z)
    (product productVersion platformVersion device model vendor : string)
    (provides : list string) (lastSeenAt : Z) (publicAddress : string) : jsval :=
  VObj (list_to_map
    [ ("id", num id); ("name", VStr name); ("platform", VStr platform);
      ("clientIdentifier", VStr clientIdentifier); ("createdAt", num createdAt);
      ("product", VStr product); ("productVersion", VStr productVersion);
      ("platformVersion", VStr platformVersion); ("device", VStr device);
      ("model", VStr model); ("vendor", VStr vendor);
      ("provides", VArr (map VStr provides)); ("owned", VBool true);
      ("lastSeenAt", num lastSeenAt); ("publicAddress", VStr publicAddress) ]).

(** [now] is the value of [new Date().getTime()] when the method runs. *)
Definition getDevices (now : Z) : M jsval :=
  console_log ;;;
  ret (VArr
    [ device 1 "Mock iPhone" "iOS" "mock-iphone-1" 1654131230 "Plex for iOS" "8.0"
        "17.0" "iPhone" "iPhone 14" "Apple" ["player"; "controller"] now
        "192.168.1.100";
      device 2 "Mock Android TV" "Android" "mock-android-tv-1" 1654131240
        "Plex for Android TV" "9.0" "12.0" "Android TV" "SHIELD Android TV" "NVIDIA"
        ["player"] now "192.168.1.101" ]).

Definition client (now : Z) : IPlexClient := {|
  Interface.getLibraries := getLibraries;
  Interface.getLibraryContents := getLibraryContents;
  Interface.getMovies := getMovies;
  Interface.getSeasons := getSeasons;
  Interface.getEpisodes := getEpisodes;
  Interface.search := search;
  Interface.getWatchList := getWatchList;
  Interface.getDevices := getDevices now
|}.

End MockPlexClient.

(** ** The tool registry *)

(** The [text] of the one content entry of a tool result: an error message,
    or [JSON.stringify(v, null, 2)] for the value [v]. *)
Inductive content_text : Type :=
| Message (s : string)
| Stringify (v : jsval).

(** [{ content: [{ type: "text", text }], isError }]; a result without
    [isError] has [isError = false]. *)
Record CallToolResult : Type := {
  text : content_text;
  isError : bool
}.

Definition success (v : jsval) : CallToolResult :=
  {| text := Stringify v; isError := false |}.

Definition failure (s : string) : CallToolResult :=
  {| text := Message s; isError := true |}.

(** [{ ...o, target: v.source, ... }]: the properties are read and stored
    from left to right. *)
Fixpoint extend (o : gmap string jsval) (fields : list (string * string))
    (v : jsval) : outcome (gmap string jsval) :=
  match fields with
  | [] => Ret o
  | (target, source) :: rest =>
      obind (get_prop v source) (fun x => extend (<[target := x]> o) rest v)
  end.

(** [{ target: v.source, ... }] *)
Definition project (fields : list (string * string)) (v : jsval) : outcome jsval :=
  obind (extend ∅ fields v) (fun o => Ret (VObj o)).

(** The callback of [result.items.map] in get-library-contents, and of
    [watchlist.map] in get-watchlist. *)
Definition reshape_item (item : jsval) : outcome jsval :=
  obind (extend ∅ [("id", "ratingKey"); ("title", "title"); ("year", "year");
                   ("type", "type")] item) (fun baseInfo =>
  obind (get_prop item "type") (fun type =>
  if strict_eq_str type "movie" then
    obind (extend baseInfo [("duration", "duration"); ("rating", "rating");
                            ("summary", "summary")] item) (fun o => Ret (VObj o))
  else
  obind (get_prop item "type") (fun type' =>
  if strict_eq_str type' "show" then
    obind (extend baseInfo [("seasons", "childCount"); ("summary", "summary")] item)
      (fun o => Ret (VObj o))
  else Ret (VObj baseInfo)))).

(** [{ ...mediaItem, optimizedForStreaming:
        mediaItem.optimizedForStreaming !== undefined ?
          mediaItem.optimizedForStreaming : 1 }] *)
Definition with_streaming_flag (mediaItem : jsval) : outcome jsval :=
  let copied := spread mediaItem in
  obind (get_prop mediaItem "optimizedForStreaming") (fun flag =>
  if is_defined flag then
    obind (get_prop mediaItem "optimizedForStreaming") (fun flag' =>
    Ret (VObj (<["optimizedForStreaming" := flag']> copied)))
  else Ret (VObj (<["optimizedForStreaming" := num 1]> copied))).

(** The callback that builds [MediaContainer.Metadata]: it makes sure every
    entry of [item.Media] has [optimizedForStreaming], updates the item and
    returns it. *)
Definition normalize_item (item : jsval) : outcome jsval :=
  obind (get_prop item "Media") (fun media =>
  match media with
  | VArr entries =>
      obind (map_outcome with_streaming_flag entries) (fun entries' =>
      set_prop item "Media" (VArr entries'))
  | _ =>
      if negb (truthy media) then
        set_prop item "Media" (VArr [VObj {[ "optimizedForStreaming" := num 1 ]}])
      else Ret item
  end).

(** [tag === 'newest' ? Tag.Newest : ... : Tag.Newest] *)
Definition tagEnum (tag : string) : Tag.t :=
  if String.eqb tag "newest" then Tag.Newest
  else if String.eqb tag "recentlyAdded" then Tag.RecentlyAdded
  else if String.eqb tag "recentlyViewed" then Tag.RecentlyViewed
  else if String.eqb tag "onDeck" then Tag.OnDeck
  else if String.eqb tag "unwatched" then Tag.Unwatched
  else if String.eqb tag "collection" then Tag.Collection
  else Tag.Newest.

Section Tools.

Variable plexClient : IPlexClient.

(** The [catch] block of a tool handler. *)
Definition report (what : string) (e : exn) : M CallToolResult :=
  log Error ;;; ret (failure (what +:+ error_message e)).

(** [v.map(f)] on the result of a client call. *)
Definition map_items (f : jsval -> outcome jsval) (v : jsval) : outcome jsval :=
  obind (array_receiver v "map") (fun l =>
  obind (map_outcome f l) (fun l' => Ret (VArr l'))).

Definition get_libraries : M CallToolResult :=
  log Info ;;;
  try_catch
    (libraries <- invoke CallGetLibraries (Interface.getLibraries plexClient) ;;
     log Info ;;;
     mapped <- lift (map_items
       (project [("id", "key"); ("title", "title"); ("type", "type")]) libraries) ;;
     ret (success (VObj {[ "libraries" := mapped ]})))
    (report "Error getting libraries: ").

Definition get_library_contents (libraryId : string) (type : option Z)
    (tag : option string) (start size : option Z) : M CallToolResult :=
  let type := default 1%Z type in
  let tag := default "newest" tag in
  let start := default 0%Z start in
  let size := default 20%Z size in
  try_catch
    (log Info ;;;
     result <- invoke (CallGetLibraryContents (VStr libraryId) type (tagEnum tag) start size)
       (Interface.getLibraryContents plexClient (VStr libraryId) type (tagEnum tag)
          start size) ;;
     mediaItems <- lift (map_items reshape_item (items result)) ;;
     metadata <- lift (map_items normalize_item (items result)) ;;
     let responseObject :=
       VObj {[ "MediaContainer" :=
         VObj {[ "content" := VStr "library items";
                 "totalSize" := totalSize result;
                 "Metadata" := metadata ]} ]} in
     ret (success (VObj {[ "media" := mediaItems;
                           "totalSize" := totalSize result;
                           "object" := responseObject ]})))
    (report "Error getting library contents: ").

Definition get_movies : M CallToolResult :=
  try_catch
    (log Info ;;;
     movies <- invoke CallGetMovies (Interface.getMovies plexClient) ;;
     movieItems <- lift (map_items
       (project [("id", "ratingKey"); ("title", "title"); ("year", "year");
                 ("duration", "duration"); ("rating", "rating");
                 ("summary", "summary")]) movies) ;;
     metadata <- lift (map_items normalize_item movies) ;;
     let responseObject :=
       VObj {[ "MediaContainer" :=
         VObj {[ "content" := VStr "movies"; "Metadata" := metadata ]} ]} in
     ret (success (VObj {[ "movies" := movieItems; "object" := responseObject ]})))
    (report "Error getting movies: ").

Definition get_seasons (showId : string) : M CallToolResult :=
  try_catch
    (log Info ;;;
     seasons <- invoke (CallGetSeasons showId) (Interface.getSeasons plexClient showId) ;;
     mapped <- lift (map_items
       (project [("id", "ratingKey"); ("title", "title"); ("seasonNumber", "index");
                 ("episodeCount", "leafCount")]) seasons) ;;
     ret (success (VObj {[ "seasons" := mapped ]})))
    (report "Error getting seasons: ").

Definition get_episodes (seasonId : string) : M CallToolResult :=
  try_catch
    (log Info ;;;
     episodes <- invoke (CallGetEpisodes seasonId)
       (Interface.getEpisodes plexClient seasonId) ;;
     mapped <- lift (map_items
       (project [("id", "ratingKey"); ("title", "title");
                 ("seasonNumber", "parentIndex"); ("episodeNumber", "index");
                 ("duration", "duration"); ("summary", "summary")]) episodes) ;;
     ret (success (VObj {[ "episodes" := mapped ]})))
    (report "Error getting episodes: ").

(** [!query || query.trim() === ''] *)
Definition query_missing (query : string) : bool :=
  String.eqb query "" || String.eqb (trim query) "".

Definition search (query : string) : M CallToolResult :=
  try_catch
    (if query_missing query then
       ret (failure "Error: Search query is required")
     else
       log Info ;;;
       results <- invoke (CallSearch query) (Interface.search plexClient query) ;;
       metadata <- lift (map_items normalize_item results) ;;
       let responseObject :=
         VObj {[ "MediaContainer" :=
           VObj {[ "content" := VStr "search results"; "Metadata" := metadata ]} ]} in
       mapped <- lift (map_items
         (project [("id", "ratingKey"); ("title", "title"); ("type", "type");
                   ("year", "year")]) results) ;;
       ret (success (VObj {[ "results" := mapped; "object" := responseObject ]})))
    (report "Error searching: ").

Definition get_watchlist (filter : option string) : M CallToolResult :=
  try_catch
    (log Info ;;;
     watchlist <- invoke (CallGetWatchList filter)
       (Interface.getWatchList plexClient filter) ;;
     mapped <- lift (map_items reshape_item watchlist) ;;
     ret (success (VObj {[ "watchlist" := mapped ]})))
    (report "Error getting watchlist: ").

Definition get_devices : M CallToolResult :=
  try_catch
    (log Info ;;;
     devices <- invoke CallGetDevices (Interface.getDevices plexClient) ;;
     mapped <- lift (map_items
       (project [("id", "clientIdentifier"); ("name", "name"); ("product", "product");
                 ("productVersion", "productVersion"); ("platform", "platform");
                 ("platformVersion", "platformVersion"); ("device", "device");
                 ("model", "model"); ("vendor", "vendor"); ("provides", "provides");
                 ("owned", "owned"); ("lastSeenAt", "lastSeenAt");
                 ("publicAddress", "publicAddress")]) devices) ;;
     ret (success (VObj {[ "devices" := mapped ]})))
    (report "Error getting devices: ").

(** A call of a registered tool, with arguments that passed the schema of
    the tool. *)
Inductive tool_call : Type :=
| GetLibraries
| GetLibraryContents (libraryId : string) (type : option Z) (tag : option string)
    (start size : option Z)
| GetMovies
| GetSeasons (showId : string)
| GetEpisodes (seasonId : string)
| Search (query : string)
| GetWatchlist (filter : option string)
| GetDevices.

Definition tool_name (c : tool_call) : string :=
  match c with
  | GetLibraries => "get-libraries"
  | GetLibraryContents _ _ _ _ _ => "get-library-contents"
  | GetMovies => "get-movies"
  | GetSeasons _ => "get-seasons"
  | GetEpisodes _ => "get-episodes"
  | Search _ => "search"
  | GetWatchlist _ => "get-watchlist"
  | GetDevices => "get-devices"
  end.

(** The handler registered under the name of the tool. *)
Definition handler (c : tool_call) : M CallToolResult :=
  match c with
  | GetLibraries => get_libraries
  | GetLibraryContents libraryId type tag start size =>
      get_library_contents libraryId type tag start size
  | GetMovies => get_movies
  | GetSeasons showId => get_seasons showId
  | GetEpisodes seasonId => get_episodes seasonId
  | Search query => search query
  | GetWatchlist filter => get_watchlist filter
  | GetDevices => get_devices
  end.

End Tools.

(** ** The logger ([Logger.ts]) and the handlers over it *)

Module Logger.

(** [fs.appendFileSync(this.logFile, logEntry)]: whether the write succeeds
    is up to the file system at that moment; it is given here as a function
    of what has happened so far.  A failed write throws. *)
Definition FileSystem : Type := list event -> outcome unit.

(** The body the three methods share: the line is formatted (that cannot
    fail) and appended to the log file. *)
Definition write (fs : FileSystem) (lvl : level) : M unit :=
  fun tr =>
    match fs tr with
    | Ret _ => (Ret tt, (tr ++ [EvLog lvl])%list)
    | Throw e => (Throw e, tr)
    end.

Definition error (fs : FileSystem) : M unit := write fs Error.
Definition info (fs : FileSystem) : M unit := write fs Info.
Definition warn (fs : FileSystem) : M unit := write fs Warn.

(** A file system on which every write succeeds. *)
Definition reliable : FileSystem := fun _ => Ret tt.

End Logger.

(** The tool handlers again, with the logger of [Logger.ts] in the place of
    [log]: a write to the log file may throw.  On [Logger.reliable] they
    are the handlers above. *)
Module Logged.
Section Tools.

Variable fs : Logger.FileSystem.
Variable plexClient : IPlexClient.

(** The [catch] block of a tool handler. *)
Definition report (what : string) (e : exn) : M CallToolResult :=
  Logger.error fs ;;; ret (failure (what +:+ error_message e)).

Definition get_libraries : M CallToolResult :=
  Logger.info fs ;;;
  try_catch
    (libraries <- invoke CallGetLibraries (Interface.getLibraries plexClient) ;;
     Logger.info fs ;;;
     mapped <- lift (map_items
       (project [("id", "key"); ("title", "title"); ("type", "type")]) libraries) ;;
     ret (success (VObj {[ "libraries" := mapped ]})))
    (report "Error getting libraries: ").

Definition get_library_contents (libraryId : string) (type : option Z)
    (tag : option string) (start size : option Z) : M CallToolResult :=
  let type := default 1%Z type in
  let tag := default "newest" tag in
  let start := default 0%Z start in
  let size := default 20%Z size in
  try_catch
    (Logger.info fs ;;;
     result <- invoke (CallGetLibraryContents (VStr libraryId) type (tagEnum tag) start size)
       (Interface.getLibraryContents plexClient (VStr libraryId) type (tagEnum tag)
          start size) ;;
     mediaItems <- lift (map_items reshape_item (items result)) ;;
     metadata <- lift (map_items normalize_item (items result)) ;;
     let responseObject :=
       VObj {[ "MediaContainer" :=
         VObj {[ "content" := VStr "library items";
                 "totalSize" := totalSize result;
                 "Metadata" := metadata ]} ]} in
     ret (success (VObj {[ "media" := mediaItems;
                           "totalSize" := totalSize result;
                           "object" := responseObject ]})))
    (report "Error getting library contents: ").

Definition get_movies : M CallToolResult :=
  try_catch
    (Logger.info fs ;;;
     movies <- invoke CallGetMovies (Interface.getMovies plexClient) ;;
     movieItems <- lift (map_items
       (project [("id", "ratingKey"); ("title", "title"); ("year", "year");
                 ("duration", "duration"); ("rating", "rating");
                 ("summary", "summary")]) movies) ;;
     metadata <- lift (map_items normalize_item movies) ;;
     let responseObject :=
       VObj {[ "MediaContainer" :=
         VObj {[ "content" := VStr "movies"; "Metadata" := metadata ]} ]} in
     ret (success (VObj {[ "movies" := movieItems; "object" := responseObject ]})))
    (report "Error getting movies: ").

Definition get_seasons (showId : string) : M CallToolResult :=
  try_catch
    (Logger.info fs ;;;
     seasons <- invoke (CallGetSeasons showId) (Interface.getSeasons plexClient showId) ;;
     mapped <- lift (map_items
       (project [("id", "ratingKey"); ("title", "title"); ("seasonNumber", "index");
                 ("episodeCount", "leafCount")]) seasons) ;;
     ret (success (VObj {[ "seasons" := mapped ]})))
    (report "Error getting seasons: ").

Definition get_episodes (seasonId : string) : M CallToolResult :=
  try_catch
    (Logger.info fs ;;;
     episodes <- invoke (CallGetEpisodes seasonId)
       (Interface.getEpisodes plexClient seasonId) ;;
     mapped <- lift (map_items
       (project [("id", "ratingKey"); ("title", "title");
                 ("seasonNumber", "parentIndex"); ("episodeNumber", "index");
                 ("duration", "duration"); ("summary", "summary")]) episodes) ;;
     ret (success (VObj {[ "episodes" := mapped ]})))
    (report "Error getting episodes: ").

Definition search (query : string) : M CallToolResult :=
  try_catch
    (if query_missing query then
       ret (failure "Error: Search query is required")
     else
       Logger.info fs ;;;
       results <- invoke (CallSearch query) (Interface.search plexClient query) ;;
       metadata <- lift (map_items normalize_item results) ;;
       let responseObject :=
         VObj {[ "MediaContainer" :=
           VObj {[ "content" := VStr "search results"; "Metadata" := metadata ]} ]} in
       mapped <- lift (map_items
         (project [("id", "ratingKey"); ("title", "title"); ("type", "type");
                   ("year", "year")]) results) ;;
       ret (success (VObj {[ "results" := mapped; "object" := responseObject ]})))
    (report "Error searching: ").

Definition get_watchlist (filter : option string) : M CallToolResult :=
  try_catch
    (Logger.info fs ;;;
     watchlist <- invoke (CallGetWatchList filter)
       (Interface.getWatchList plexClient filter) ;;
     mapped <- lift (map_items reshape_item watchlist) ;;
     ret (success (VObj {[ "watchlist" := mapped ]})))
    (report "Error getting watchlist: ").

Definition get_devices : M CallToolResult :=
  try_catch
    (Logger.info fs ;;;
     devices <- invoke CallGetDevices (Interface.getDevices plexClient) ;;
     mapped <- lift (map_items
       (project [("id", "clientIdentifier"); ("name", "name"); ("product", "product");
                 ("productVersion", "productVersion"); ("platform", "platform");
                 ("platformVersion", "platformVersion"); ("device", "device");
                 ("model", "model"); ("vendor", "vendor"); ("provides", "provides");
                 ("owned", "owned"); ("lastSeenAt", "lastSeenAt");
                 ("publicAddress", "publicAddress")]) devices) ;;
     ret (success (VObj {[ "devices" := mapped ]})))
    (report "Error getting devices: ").

(** The handler registered under the name of the tool. *)
Definition handler (c : tool_call) : M CallToolResult :=
  match c with
  | GetLibraries => get_libraries
  | GetLibraryContents libraryId type tag start size =>
      get_library_contents libraryId type tag start size
  | GetMovies => get_movies
  | GetSeasons showId => get_seasons showId
  | GetEpisodes seasonId => get_episodes seasonId
  | Search query => search query
  | GetWatchlist filter => get_watchlist filter
  | GetDevices => get_devices
  end.

End Tools.
End Logged.

(** ** The HTTP endpoints of the SSE transport *)

Module Http.

(** What a request carries, as the JSON middleware sees it. *)
Inductive payload : Type :=
| NoJson
    (* no body, or a body that is not declared as [application/json] *)
| Json (v : jsval)
    (* the JSON text of the value [v], declared as [application/json] *)
| Unreadable (status : Z).
    (* a body the middleware cannot take: text that is not JSON (400), a
       body over the size limit (413), an unsupported charset or encoding
       (415) *)

(** A GET to [/sse] (it has no body) or a POST to [/messages]. *)
Inductive request : Type :=
| GetSse
| PostMessages (body : payload).

(** What [app.use(express.json())] makes of a request before its route
    runs: [req.body], or the error it answers with itself.  With its
    default options the middleware is strict: of the JSON values it takes
    objects and arrays only; a request without a JSON body goes on with
    [req.body] equal to [{}]. *)
Inductive parsed : Type :=
| Body (v : jsval)
| Refused (status : Z).

Definition express_json (p : payload) : parsed :=
  match p with
  | NoJson => Body (VObj ∅)
  | Json (VObj o) => Body (VObj o)
  | Json (VArr l) => Body (VArr l)
  | Json _ => Refused 400
  | Unreadable status => Refused status
  end.

(** What handling a request does, in order.  A transport is identified by
    the number of the [GET /sse] request that created it. *)
Inductive effect : Type :=
| Connect (transport : nat)
| HandlePostMessage (transport : nat) (body : jsval)
| Respond (status : Z) (body : jsval)
    (* [res.status(status).json(body)] *)
| RespondError (status : Z).
    (* the error page of the middleware; it is not JSON *)

(** [let sseTransport: SSEServerTransport | null = null] and the number of
    transports created so far. *)
Record state : Type := {
  sseTransport : option nat;
  created : nat
}.

Definition initial : state := {| sseTransport := None; created := 0 |}.

(** [app.use(express.json())], then [app.get('/sse', ...)] and
    [app.post('/messages', ...)] *)
Definition handle (st : state) (req : request) : state * list effect :=
  match req with
  | GetSse =>
      let transport := created st in
      ({| sseTransport := Some transport; created := S transport |},
       [Connect transport])
  | PostMessages p =>
      match express_json p with
      | Refused status => (st, [RespondError status])
      | Body body =>
          match sseTransport st with
          | None =>
              (st, [Respond 400 (VObj {[ "error" := VStr "No active SSE connection" ]})])
          | Some transport => (st, [HandlePostMessage transport body])
          end
      end
  end.

(** The state after a sequence of requests, and everything done for them. *)
Fixpoint serve (st : state) (reqs : list request) : state * list effect :=
  match reqs with
  | [] => (st, [])
  | req :: reqs' =>
      let '(st1, done1) := handle st req in
      let '(st2, done2) := serve st1 reqs' in
      (st2, (done1 ++ done2)%list)
  end.

Definition is_get_sse (req : request) : bool :=
  match req with
  | GetSse => true
  | PostMessages _ => false
  end.

Definition is_dispatch (e : effect) : bool :=
  match e with
  | HandlePostMessage _ _ => true
  | _ => false
  end.

End Http.

(** ** Start-up: the constructor of PlexClient and the choice of the client *)

(** The variables of [process.env] the program reads; [None] is an unset
    variable. *)
Record Env : Type := {
  PLEX_TOKEN : option string;
  PLEX_URL : option string;
  USE_MOCK_PLEX : option string;
  PORT : option string
}.

(** [a || b] for an optional string [a]: an unset or empty [a] gives [b]. *)
Definition or_else (a : option string) (b : string) : string :=
  match a with
  | Some s => if String.eqb s "" then b else s
  | None => b
  end.

(** [{ baseUrl?: string; token?: string }] *)
Record ClientOptions : Type := {
  baseUrl : option string;
  token : option string
}.

(** The fields a constructed [PlexClient] holds. *)
Record ClientConfig : Type := {
  accessToken : string;
  serverUrl : string
}.

(** [new PlexClient(options)] *)
Definition new_PlexClient (options : ClientOptions) (env : Env) : outcome ClientConfig :=
  let accessToken := or_else (token options) (or_else (PLEX_TOKEN env) "") in
  let serverUrl :=
    or_else (baseUrl options) (or_else (PLEX_URL env) "http://localhost:32400") in
  if String.eqb accessToken "" then
    Throw (ErrorObj "Plex token is required. Set it in the constructor options or as PLEX_TOKEN in your .env file.")
  else Ret {| accessToken := accessToken; serverUrl := serverUrl |}.

Inductive selected_client : Type :=
| UseMockPlexClient
| UsePlexClient (config : ClientConfig).

(** The first part of [main]: the client is the mock when [USE_MOCK_PLEX] is
    ['true'], and a [PlexClient] built from the environment otherwise.  The
    [catch] block throws the error again at once; the statements after that
    [throw] are never reached. *)
Definition select_client (env : Env) : M selected_client :=
  if match USE_MOCK_PLEX env with
     | Some v => String.eqb v "true"
     | None => false
     end
  then log Info ;;; ret UseMockPlexClient
  else
    try_catch
      (config <- lift (new_PlexClient
                         {| token := PLEX_TOKEN env; baseUrl := PLEX_URL env |} env) ;;
       log Info ;;;
       ret (UsePlexClient config))
      (fun error => throw error).

(** [parseInt(process.env.PORT || '3000', 10)] *)
Definition listen_port (env : Env) : option Z :=
  parseInt_string (or_else (PORT env) "3000").

(** ** The MCPServer of the test support ([mocks/mcp-sdk.ts]) *)

Module MCPServer.

(** The [res] a handler receives: [res.status(code).json(data)] is
    [{ status: code, body: data }]. *)
Definition res (code : Z) (data : jsval) : jsval :=
  VObj {[ "status" := num code; "body" := data ]}.

(** A handler registered with [implement], called with [req] and [res]. *)
Definition endpoint_handler : Type := jsval -> (Z -> jsval -> jsval) -> M jsval.

(** The fields of the server that its methods use: the declared endpoints
    and the map of handlers. *)
Record t : Type := {
  endpoints : list jsval;
  handlers : gmap string endpoint_handler
}.




(** [{ method, params?, query?, body? }]; an absent field is [undefined]. *)
Record TestEndpointOptions : Type := {
  method : string;
  params : jsval;
  query : jsval;
  body : jsval
}.

Definition testEndpoint (server : t) (path : string) (options : TestEndpointOptions)
    : M jsval :=
  match handlers server !! path with
  | None =>
      ret (VObj {[ "status" := num 404;
                   "body" := VObj {[ "error" := VStr "Endpoint not found" ]} ]})
  | Some handler =>
      try_catch
        (let req := VObj {[ "params" := js_or (params options) (VObj ∅);
                            "query" := js_or (query options) (VObj ∅);
                            "body" := js_or (body options) (VObj ∅) ]} in
         result <- handler req res ;;
         ret (js_or result (VObj {[ "status" := num 200; "body" := VObj ∅ ]})))
        (fun error =>
           ret (VObj {[ "status" := num 500;
                        "body" := VObj {[ "error" := VStr (error_message error) ]} ]}))
  end.

End MCPServer.

(** * The vocabulary of the properties *)

(** ** For the reshaping of items *)

(** What get-library-contents (and get-watchlist) makes of a raw item: the
    result has [id] equal to the item's [ratingKey] and the item's [title],
    [year] and [type]; it has [duration], [rating] and [summary], read from
    the item, exactly when the type is ['movie'], it has [seasons], read
    from [childCount], and [summary] exactly when the type is ['show'], and
    for any other type it has the four base fields and nothing else. *)
Definition reshaped (item out : gmap string jsval) : Prop :=
  out !! "id" = Some (prop item "ratingKey") /\
  out !! "title" = Some (prop item "title") /\
  out !! "year" = Some (prop item "year") /\
  out !! "type" = Some (prop item "type") /\
  (prop item "type" = VStr "movie" ->
     out !! "duration" = Some (prop item "duration") /\
     out !! "rating" = Some (prop item "rating") /\
     out !! "summary" = Some (prop item "summary") /\
     dom out = {[ "id"; "title"; "year"; "type"; "duration"; "rating"; "summary" ]}) /\
  (prop item "type" = VStr "show" ->
     out !! "seasons" = Some (prop item "childCount") /\
     out !! "summary" = Some (prop item "summary") /\
     dom out = {[ "id"; "title"; "year"; "type"; "seasons"; "summary" ]}) /\
  (prop item "type" <> VStr "movie" -> prop item "type" <> VStr "show" ->
     dom out = {[ "id"; "title"; "year"; "type" ]}) /\
  ("duration" ∈ dom out <-> prop item "type" = VStr "movie") /\
  ("rating" ∈ dom out <-> prop item "type" = VStr "movie") /\
  ("seasons" ∈ dom out <-> prop item "type" = VStr "show") /\
  ("summary" ∈ dom out <->
     prop item "type" = VStr "movie" \/ prop item "type" = VStr "show").

(** The item objects among some values. *)
Definition objects (l : list jsval) : list (gmap string jsval) :=
  omap (fun v => match v with VObj o => Some o | _ => None end) l.

(** ** For the normalisation of the Media entries *)

(** A client whose library has the items [l], all on one page. *)
Definition client_with_items (l : list jsval) : IPlexClient := {|
  Interface.getLibraries := ret (VArr []);
  Interface.getLibraryContents := fun _ _ _ _ _ =>
    ret {| items := VArr l; totalSize := num_of_nat (length l) |};
  Interface.getMovies := ret (VArr l);
  Interface.getSeasons := fun _ => ret (VArr []);
  Interface.getEpisodes := fun _ => ret (VArr []);
  Interface.search := fun _ => ret (VArr l);
  Interface.getWatchList := fun _ => ret (VArr l);
  Interface.getDevices := ret (VArr [])
|}.

(** The [optimizedForStreaming] an entry of a Media array comes with;
    [undefined] when it has none. *)
Definition streaming_flag (mediaItem : jsval) : jsval :=
  match get_prop mediaItem "optimizedForStreaming" with
  | Ret flag => flag
  | Throw _ => VUndefined
  end.

(** What the normalisation makes of such an entry: an object with the
    properties of the entry, and with [optimizedForStreaming] equal to the
    entry's own when it is defined and to 1 otherwise. *)
Definition flagged (mediaItem mediaItem' : jsval) : Prop :=
  exists o : gmap string jsval,
    mediaItem' = VObj o /\
    o !! "optimizedForStreaming" =
      Some (if is_defined (streaming_flag mediaItem) then streaming_flag mediaItem
            else num 1) /\
    forall k, k <> "optimizedForStreaming" -> o !! k = spread mediaItem !! k.

Definition has_streaming_flag (mediaItem' : jsval) : Prop :=
  exists (o : gmap string jsval) (flag : jsval),
    mediaItem' = VObj o /\ o !! "optimizedForStreaming" = Some flag /\
    flag <> VUndefined.

(** An item of [Metadata] next to the raw item it was made from.  For an
    item object: the output is an object with the same properties apart
    from [Media]; a Media array of the raw item is there entry by entry,
    each entry flagged; a raw item without Media (or with a falsy one) has
    the single default entry; any other Media is left as it is.  An item
    that is an array is handed on as it is (see [set_prop]).  No other item
    gets through the callback. *)
Definition media_normalized (item item' : jsval) : Prop :=
  match item with
  | VObj o =>
      exists o' : gmap string jsval,
        item' = VObj o' /\
        (forall k, k <> "Media" -> o' !! k = o !! k) /\
        match prop o "Media" with
        | VArr entries =>
            exists entries',
              o' !! "Media" = Some (VArr entries') /\ Forall2 flagged entries entries'
        | media =>
            if truthy media then o' !! "Media" = o !! "Media"
            else o' !! "Media" = Some (VArr [VObj {[ "optimizedForStreaming" := num 1 ]}])
        end
  | VArr _ => item' = item
  | _ => False
  end.

(** ** For pagination *)

(** The claim of the specification about a [getLibraryContents] that serves
    a library of [count] items: a page requested with size [n] has at most
    [n] items, and [totalSize] is [count]. *)
Definition pagination_claim
    (getLibraryContents : jsval -> Z -> Tag.t -> Z -> Z -> M LibraryContents)
    (count : nat) : Prop :=
  forall libraryId type tag start n tr result tr',
    (0 <= n)%Z ->
    getLibraryContents libraryId type tag start n tr = (Ret result, tr') ->
    exists page, items result = VArr page /\
      (Z.of_nat (length page) <= n)%Z /\
      totalSize result = num_of_nat count.

(** A media server with the library [library], which answers a request for
    a page with that page but does not report [totalSize] (the field is
    optional in [PlexResponse]). *)
Definition server_without_total (library : list jsval) : Upstream := {|
  sdk := fun _ => Throw (ErrorObj "not available");
  fetch := fun r =>
    match r with
    | FetchLibraryAll _ _ start size =>
        Ret {| ok := true; statusText := "OK";
               json := Ret (VObj {[ "MediaContainer" :=
                 VObj {[ "Metadata" := VArr (slice library start (start + size)) ]} ]}) |}
    | FetchPlayMedia _ _ => Throw (ErrorObj "not available")
    end
|}.

(** ** For errors at the tool boundary *)

(** The client call a tool delegates to. *)
Definition client_call_of (c : tool_call) : client_call :=
  match c with
  | GetLibraries => CallGetLibraries
  | GetLibraryContents libraryId type tag start size =>
      CallGetLibraryContents (VStr libraryId) (default 1%Z type)
        (tagEnum (default "newest" tag)) (default 0%Z start) (default 20%Z size)
  | GetMovies => CallGetMovies
  | GetSeasons showId => CallGetSeasons showId
  | GetEpisodes seasonId => CallGetEpisodes seasonId
  | Search query => CallSearch query
  | GetWatchlist filter => CallGetWatchList filter
  | GetDevices => CallGetDevices
  end.

(** The client call of the tool, started after the events [tr], throws [e]
    and leaves the events [tr1]. *)
Definition client_fails (plexClient : IPlexClient) (c : tool_call) (e : exn)
    (tr tr1 : list event) : Prop :=
  match c with
  | GetLibraries => Interface.getLibraries plexClient tr = (Throw e, tr1)
  | GetLibraryContents libraryId type tag start size =>
      Interface.getLibraryContents plexClient (VStr libraryId) (default 1%Z type)
        (tagEnum (default "newest" tag)) (default 0%Z start) (default 20%Z size) tr
      = (Throw e, tr1)
  | GetMovies => Interface.getMovies plexClient tr = (Throw e, tr1)
  | GetSeasons showId => Interface.getSeasons plexClient showId tr = (Throw e, tr1)
  | GetEpisodes seasonId => Interface.getEpisodes plexClient seasonId tr = (Throw e, tr1)
  | Search query => Interface.search plexClient query tr = (Throw e, tr1)
  | GetWatchlist filter => Interface.getWatchList plexClient filter tr = (Throw e, tr1)
  | GetDevices => Interface.getDevices plexClient tr = (Throw e, tr1)
  end.

(** The words an error message of the tool starts with. *)
Definition error_prefix (c : tool_call) : string :=
  match c with
  | GetLibraries => "Error getting libraries: "
  | GetLibraryContents _ _ _ _ _ => "Error getting library contents: "
  | GetMovies => "Error getting movies: "
  | GetSeasons _ => "Error getting seasons: "
  | GetEpisodes _ => "Error getting episodes: "
  | Search _ => "Error searching: "
  | GetWatchlist _ => "Error getting watchlist: "
  | GetDevices => "Error getting devices: "
  end.

(** The search tool called without a query: it answers before any call. *)
Definition refused (c : tool_call) : bool :=
  match c with
  | Search query => query_missing query
  | _ => false
  end.

(** A client none of whose methods succeeds. *)
Definition failing_client (e : exn) : IPlexClient := {|
  Interface.getLibraries := throw e;
  Interface.getLibraryContents := fun _ _ _ _ _ => throw e;
  Interface.getMovies := throw e;
  Interface.getSeasons := fun _ => throw e;
  Interface.getEpisodes := fun _ => throw e;
  Interface.search := fun _ => throw e;
  Interface.getWatchList := fun _ => throw e;
  Interface.getDevices := throw e
|}.

(** The claim of the specification about the tool boundary: no call of a
    registered tool lets an exception escape. *)
Definition tool_boundary_claim : Prop :=
  forall (fs : Logger.FileSystem) (plexClient : IPlexClient) (c : tool_call) tr,
    exists res tr', Logged.handler fs plexClient c tr = (Ret res, tr').

Definition is_invoke (ev : event) : bool :=
  match ev with
  | EvInvoke _ => true
  | _ => false
  end.

(** A file system that takes the writes made before a client call has
    started and none after: the disk fills up during the call. *)
Definition full_after_call : Logger.FileSystem :=
  fun tr =>
    if existsb is_invoke tr then Throw (ErrorObj "ENOSPC: no space left on device, write")
    else Ret tt.

(** ** For the search tool without a query *)

(** The string is empty or has white space only. *)
Fixpoint all_whitespace (s : string) : bool :=
  match s with
  | EmptyString => true
  | String c s' => is_whitespace c && all_whitespace s'
  end.

(** ** For unknown tags *)

Definition known_tags : list string :=
  ["newest"; "recentlyAdded"; "recentlyViewed"; "onDeck"; "unwatched"; "collection"].

(** ** For the watchlist of the mock client *)

(** The rating keys of the items of a list. *)
Definition rating_key_list (l : list jsval) : list string :=
  omap (fun item =>
    match get_prop item "ratingKey" with
    | Ret (VStr key) => Some key
    | _ => None
    end) l.

Definition rating_keys (v : jsval) : gset string :=
  match v with
  | VArr l => list_to_set (rating_key_list l)
  | _ => ∅
  end.

(** ** For movies without a movie library *)

(** A library, as an object, that is not a movie library. *)
Definition not_a_movie_library (lib : jsval) : Prop :=
  exists o : gmap string jsval, lib = VObj o /\ o !! "type" <> Some (VStr "movie").

(** The libraries of the test "should return empty array when no movie
    libraries found". *)
Definition shows_only : Upstream := {|
  sdk := fun c =>
    match c with
    | Sdk.getAllLibraries =>
        Ret (VObj {[ "object" := VObj {[ "mediaContainer" := VObj {[ "directory" :=
          VArr [VObj {[ "key" := VStr "2"; "title" := VStr "TV Shows";
                        "type" := VStr "show" ]}] ]} ]} ]})
    | _ => Throw (ErrorObj "not available")
    end;
  fetch := fun _ => Throw (ErrorObj "not available")
|}.

(** ** For playback *)



Definition the_tv : jsval :=
  VObj {[ "clientIdentifier" := VStr "tv-1"; "name" := VStr "TV" ]}.

Definition devices_response : jsval :=
  VObj {[ "object" := VObj {[ "mediaContainer" := VObj {[ "device" := VArr [the_tv] ]} ]} ]}.



(** ** For the results of the tools *)

(** The client call of the tool, started after the events [tr], returns the
    list [v] (for get-library-contents: as the [items] of its result) and
    leaves the events [tr1]. *)
Definition client_returns (plexClient : IPlexClient) (c : tool_call) (v : jsval)
    (tr tr1 : list event) : Prop :=
  match c with
  | GetLibraries => Interface.getLibraries plexClient tr = (Ret v, tr1)
  | GetLibraryContents libraryId type tag start size =>
      exists total,
        Interface.getLibraryContents plexClient (VStr libraryId) (default 1%Z type)
          (tagEnum (default "newest" tag)) (default 0%Z start) (default 20%Z size) tr
        = (Ret {| items := v; totalSize := total |}, tr1)
  | GetMovies => Interface.getMovies plexClient tr = (Ret v, tr1)
  | GetSeasons showId => Interface.getSeasons plexClient showId tr = (Ret v, tr1)
  | GetEpisodes seasonId => Interface.getEpisodes plexClient seasonId tr = (Ret v, tr1)
  | Search query => Interface.search plexClient query tr = (Ret v, tr1)
  | GetWatchlist filter => Interface.getWatchList plexClient filter tr = (Ret v, tr1)
  | GetDevices => Interface.getDevices plexClient tr = (Ret v, tr1)
  end.

(** The events a handler has appended when its client call starts. *)
Definition before_call (c : tool_call) : list event :=
  [EvLog Info; EvInvoke (client_call_of c)].

Definition is_array (v : jsval) : bool :=
  match v with
  | VArr _ => true
  | _ => false
  end.

(** The tools that answer with a plain projection of the client's items:
    the name of the list in the payload and, for each field of an output
    item, the property of the raw item it is read from. *)
Definition renaming (c : tool_call) : option (string * list (string * string)) :=
  match c with
  | GetLibraries =>
      Some ("libraries", [("id", "key"); ("title", "title"); ("type", "type")])
  | GetSeasons _ =>
      Some ("seasons", [("id", "ratingKey"); ("title", "title");
                        ("seasonNumber", "index"); ("episodeCount", "leafCount")])
  | GetEpisodes _ =>
      Some ("episodes", [("id", "ratingKey"); ("title", "title");
                         ("seasonNumber", "parentIndex"); ("episodeNumber", "index");
                         ("duration", "duration"); ("summary", "summary")])
  | GetDevices =>
      Some ("devices", [("id", "clientIdentifier"); ("name", "name");
                        ("product", "product"); ("productVersion", "productVersion");
                        ("platform", "platform"); ("platformVersion", "platformVersion");
                        ("device", "device"); ("model", "model"); ("vendor", "vendor");
                        ("provides", "provides"); ("owned", "owned");
                        ("lastSeenAt", "lastSeenAt"); ("publicAddress", "publicAddress")])
  | _ => None
  end.

(** An output item has the fields of the renaming, each with the value of
    its source property in the raw item, and no other field. *)
Definition renamed (fields : list (string * string)) (raw out : gmap string jsval) : Prop :=
  dom out = list_to_set (map fst fields) /\
  forall target source, (target, source) ∈ fields -> out !! target = Some (prop raw source).

(** ** For the answers of the media server *)

(** An SDK response without the list [field]: it has no [object], or its
    [object] has no [mediaContainer], or the container has no (or an empty
    or otherwise falsy) [field]. *)
Definition without_list (response : jsval) (field : string) : Prop :=
  exists r : gmap string jsval, response = VObj r /\
    (nullish (prop r "object") = true \/
     exists object : gmap string jsval, prop r "object" = VObj object /\
       (nullish (prop object "mediaContainer") = true \/
        exists container : gmap string jsval,
          prop object "mediaContainer" = VObj container /\
          truthy (prop container field) = false)).

(** A media server that cannot be reached: every call fails with [e]. *)
Definition unreachable_server (e : exn) : Upstream := {|
  sdk := fun _ => Throw e;
  fetch := fun _ => Throw e
|}.

(** A media server whose SDK calls all answer [response]. *)
Definition answering (response : jsval) : Upstream := {|
  sdk := fun _ => Ret response;
  fetch := fun _ => Throw (ErrorObj "fetch failed")
|}.

(** The HTTP requests among some events, in order. *)
Definition requests (evs : list event) : list fetch_request :=
  omap (fun ev => match ev with EvFetch r => Some r | _ => None end) evs.

(** [lib.type === 'movie'] for a library object. *)
Definition movie_library (lib : gmap string jsval) : bool :=
  strict_eq_str (prop lib "type") "movie".

(** A media server that answers every call: the libraries, contents and
    devices are the fixtures of the mock client. *)
Definition in_container (field : string) (l : list jsval) : jsval :=
  VObj {[ "object" := VObj {[ "mediaContainer" := VObj {[ field := VArr l ]} ]} ]}.

Definition home_server : Upstream := {|
  sdk := fun c =>
    match c with
    | Sdk.getAllLibraries => Ret (in_container "directory" MockPlexClient.libraries)
    | Sdk.getDevices => Ret devices_response
    | _ => Ret (in_container "metadata" [MockPlexClient.the_matrix])
    end;
  fetch := fun r =>
    match r with
    | FetchLibraryAll _ _ _ _ =>
        Ret {| ok := true; statusText := "OK";
               json := Ret (VObj {[ "MediaContainer" :=
                 VObj {[ "Metadata" := VArr MockPlexClient.contents ]} ]}) |}
    | FetchPlayMedia _ _ => Ret {| ok := true; statusText := "OK"; json := Ret VNull |}
    end
|}.

(** The two libraries of the fixtures, as objects. *)
Definition movies_library : gmap string jsval :=
  {[ "key" := VStr "1"; "title" := VStr "Movies"; "type" := VStr "movie" ]}.

Definition shows_library : gmap string jsval :=
  {[ "key" := VStr "2"; "title" := VStr "TV Shows"; "type" := VStr "show" ]}.

(** ** For the start-up *)

(** An optional string that [||] skips: unset or empty. *)
Definition missing (a : option string) : Prop := a = None \/ a = Some "".

Definition token_required : exn :=
  ErrorObj "Plex token is required. Set it in the constructor options or as PLEX_TOKEN in your .env file.".

(** ** For the search tool *)

(** The entries of the Media array of an item, when it has one, are neither
    [null] nor [undefined]. *)
Definition media_entries_defined (raw : gmap string jsval) : Prop :=
  forall entries, raw !! "Media" = Some (VArr entries) ->
    Forall (fun mediaItem => nullish mediaItem = false) entries.

(** The tools that answer with a projection of the client's items next to
    the normalised items: the name of the list in the payload, the [content]
    label of the container and the fields of an output item.  The search
    tool is one of them for a query that is not blank. *)
Definition listing (c : tool_call) : option (string * string * list (string * string)) :=
  match c with
  | GetMovies =>
      Some ("movies", "movies",
            [("id", "ratingKey"); ("title", "title"); ("year", "year");
             ("duration", "duration"); ("rating", "rating"); ("summary", "summary")])
  | Search query =>
      if all_whitespace query then None
      else Some ("results", "search results",
                 [("id", "ratingKey"); ("title", "title"); ("type", "type");
                  ("year", "year")])
  | _ => None
  end.

(** ** For the message endpoint *)

(** The claim of the specification about a POST to [/messages] that arrives
    before any GET to [/sse]: it is answered with status 400 and a JSON
    body, and nothing is handed to a transport. *)
Definition post_before_sse_claim : Prop :=
  forall (earlier : list Http.request) (body : Http.payload),
    Forall (fun req => Http.is_get_sse req = false) earlier ->
    exists done error,
      Http.serve Http.initial (earlier ++ [Http.PostMessages body]) =
        (Http.initial, (done ++ [Http.Respond 400 error])%list) /\
      Forall (fun e => Http.is_dispatch e = false) done.

(** ** For the media lookup of the playback *)

(** The items of the library section with the key [key]. *)
Definition section_items (sections : list (Z * list jsval)) (key : option Z)
    : option (list jsval) :=
  match key with
  | Some k => snd <$> List.find (fun s => Z.eqb (fst s) k) sections
  | None => None
  end.

(** A media server given by its library sections, each with its key and
    its items; the TV is its only device.  The items of a section are
    listed under the key of the section, and a playback request is
    accepted. *)
Definition library_server (sections : list (Z * list jsval)) : Upstream := {|
  sdk := fun c =>
    match c with
    | Sdk.getDevices => Ret (in_container "device" [the_tv])
    | Sdk.getLibraryItems sectionKey _ _ =>
        match section_items sections sectionKey with
        | Some l => Ret (in_container "metadata" l)
        | None => Throw (ErrorObj "API error occurred: Status 404")
        end
    | _ => Throw (ErrorObj "not available")
    end;
  fetch := fun r =>
    match r with
    | FetchPlayMedia _ _ => Ret {| ok := true; statusText := "OK"; json := Ret VNull |}
    | _ => Throw (ErrorObj "not available")
    end
|}.

(** The media items of the server whose rating key is [key]. *)
Definition items_with_key (sections : list (Z * list jsval)) (key : string) : list jsval :=
  List.filter
    (fun item =>
       match get_prop item "ratingKey" with
       | Ret v => strict_eq_str v key
       | Throw _ => false
       end)
    (concat (map snd sections)).

(** The Matrix (rating key 101) in section 1, and an empty section 101. *)
Definition matrix_and_an_empty_section : list (Z * list jsval) :=
  [ (1%Z, [MockPlexClient.the_matrix]); (101%Z, []) ].

(** * Properties *)

(** ** Reshaping of items *)

Lemma strict_eq_str_true v lit : strict_eq_str v lit = true <-> v = VStr lit.
Proof.
  destruct v; simpl; try (split; [discriminate | intros [=]]).
  rewrite String.eqb_eq. split; [intros -> | intros [=]]; congruence.
Qed.

Lemma strict_eq_str_false v lit : strict_eq_str v lit = false <-> v <> VStr lit.
Proof.
  rewrite <- strict_eq_str_true. destruct (strict_eq_str v lit); split; congruence.
Qed.

Lemma get_prop_obj o k : get_prop (VObj o) k = Ret (prop o k).
Proof. reflexivity. Qed.

Lemma extend_obj fields : forall o item,
  extend o fields (VObj item) =
  Ret (fold_left (fun acc f => <[fst f := prop item (snd f)]> acc) fields o).
Proof.
  induction fields as [|[target source] rest IH]; intros o item; simpl.
  - reflexivity.
  - apply IH.
Qed.

(** Membership in a set of property names written out as singletons. *)
Ltac keys :=
  try (apply set_eq; intros ?);
  rewrite ?elem_of_union, ?elem_of_singleton, ?elem_of_empty;
  intuition (try discriminate; try congruence).

(** Reads a field of a literal built by successive insertions. *)
Ltac read_field :=
  repeat (rewrite lookup_insert_ne by discriminate); apply lookup_insert_eq.

Lemma reshape_item_obj (item : gmap string jsval) :
  reshape_item (VObj item) =
  let baseInfo : gmap string jsval :=
    <["type" := prop item "type"]> (<["year" := prop item "year"]>
      (<["title" := prop item "title"]> (<["id" := prop item "ratingKey"]> ∅))) in
  if strict_eq_str (prop item "type") "movie" then
    Ret (VObj (<["summary" := prop item "summary"]> (<["rating" := prop item "rating"]>
      (<["duration" := prop item "duration"]> baseInfo))))
  else if strict_eq_str (prop item "type") "show" then
    Ret (VObj (<["summary" := prop item "summary"]>
      (<["seasons" := prop item "childCount"]> baseInfo)))
  else Ret (VObj baseInfo).
Proof.
  unfold reshape_item. rewrite !extend_obj, !get_prop_obj. reflexivity.
Qed.

(** The callback, on an item object. *)
Lemma reshape_item_reshapes (item : gmap string jsval) :
  exists out : gmap string jsval,
    reshape_item (VObj item) = Ret (VObj out) /\ reshaped item out.
Proof.
  unfold reshaped. rewrite reshape_item_obj. cbv zeta.
  destruct (strict_eq_str (prop item "type") "movie") eqn:Hmovie.
  - apply strict_eq_str_true in Hmovie. eexists. split; [reflexivity|].
    rewrite Hmovie, !dom_insert_L, dom_empty_L.
    repeat lazymatch goal with
           | |- _ /\ _ => split
           | |- _ !! _ = Some _ => read_field
           end.
    + intros _. split; [read_field|]. split; [read_field|].
      split; [read_field | keys].
    + discriminate.
    + congruence.
    + split; [done | keys].
    + split; [done | keys].
    + split; [keys | discriminate].
    + split; [by left | keys].
  - apply strict_eq_str_false in Hmovie.
    destruct (strict_eq_str (prop item "type") "show") eqn:Hshow.
    + apply strict_eq_str_true in Hshow. eexists. split; [reflexivity|].
      rewrite Hshow, !dom_insert_L, dom_empty_L.
      repeat lazymatch goal with
             | |- _ /\ _ => split
             | |- _ !! _ = Some _ => read_field
             end.
      * discriminate.
      * intros _. split; [read_field|]. split; [read_field | keys].
      * congruence.
      * split; [keys | discriminate].
      * split; [keys | discriminate].
      * split; [done | keys].
      * split; [by right | keys].
    + apply strict_eq_str_false in Hshow. eexists. split; [reflexivity|].
      rewrite !dom_insert_L, dom_empty_L.
      repeat lazymatch goal with
             | |- _ /\ _ => split
             | |- _ !! _ = Some _ => read_field
             end.
      * intros Heq. by destruct Hmovie.
      * intros Heq. by destruct Hshow.
      * intros _ _. keys.
      * split; [keys | intros Heq; by destruct Hmovie].
      * split; [keys | intros Heq; by destruct Hmovie].
      * split; [keys | intros Heq; by destruct Hshow].
      * split; [keys | intros [Heq|Heq]; [by destruct Hmovie | by destruct Hshow]].
Qed.

Example reshape_the_matrix :
  reshape_item MockPlexClient.the_matrix =
  Ret (VObj {[ "id" := VStr "101"; "title" := VStr "The Matrix"; "year" := num 1999;
               "type" := VStr "movie"; "duration" := num 136; "rating" := tenths 87;
               "summary" := VStr "A computer hacker learns about the true nature of reality." ]}).
Proof. vm_compute. reflexivity. Qed.

Example reshape_breaking_bad :
  reshape_item MockPlexClient.breaking_bad =
  Ret (VObj {[ "id" := VStr "103"; "title" := VStr "Breaking Bad"; "year" := num 2008;
               "type" := VStr "show"; "seasons" := num 5;
               "summary" := VStr "A high school chemistry teacher turned methamphetamine manufacturer." ]}).
Proof. vm_compute. reflexivity. Qed.

Example reshape_season :
  reshape_item (MockPlexClient.season "201" "Season 1" 1 10) =
  Ret (VObj {[ "id" := VStr "201"; "title" := VStr "Season 1"; "year" := VUndefined;
               "type" := VStr "season" ]}).
Proof. vm_compute. reflexivity. Qed.

(** ** Normalisation of the Media entries *)

Lemma with_streaming_flag_flagged mediaItem mediaItem' :
  with_streaming_flag mediaItem = Ret mediaItem' -> flagged mediaItem mediaItem'.
Proof.
  unfold with_streaming_flag, flagged, streaming_flag.
  destruct (get_prop mediaItem "optimizedForStreaming") as [flag|e]; simpl; [|discriminate].
  destruct (is_defined flag); intros [= <-]; eexists; split; try reflexivity;
    (split; [apply lookup_insert_eq | intros k Hk; by apply lookup_insert_ne]).
Qed.

Lemma flagged_has_flag mediaItem mediaItem' :
  flagged mediaItem mediaItem' -> has_streaming_flag mediaItem'.
Proof.
  intros (o & -> & Hflag & _). eexists o, _. split; [reflexivity|]. split; [exact Hflag|].
  destruct (is_defined (streaming_flag mediaItem)) eqn:Hdef.
  - intros Heq. rewrite Heq in Hdef. discriminate.
  - discriminate.
Qed.

Lemma map_outcome_Forall2 {A B} (f : A -> outcome B) l : forall l',
  map_outcome f l = Ret l' -> Forall2 (fun x y => f x = Ret y) l l'.
Proof.
  induction l as [|x l IH]; simpl; intros l'.
  - intros [= <-]. constructor.
  - destruct (f x) as [y|e] eqn:Hx; simpl; [|discriminate].
    destruct (map_outcome f l) as [ys|e]; simpl; [|discriminate].
    intros [= <-]. constructor; [exact Hx | by apply IH].
Qed.

Lemma map_outcome_total {A B} (f : A -> outcome B) l :
  Forall (fun x => exists y, f x = Ret y) l -> exists l', map_outcome f l = Ret l'.
Proof.
  induction 1 as [|x l [y Hy] _ [ys IH]]; simpl.
  - by eexists.
  - rewrite Hy, IH. simpl. by eexists.
Qed.

Lemma array_has_no_media l : get_prop (VArr l) "Media" = Ret VUndefined.
Proof. reflexivity. Qed.

(** What the callback returns, by the shape of the item and of its Media. *)
Lemma normalize_item_cases item item' :
  normalize_item item = Ret item' ->
  (exists l, item = VArr l /\ item' = VArr l) \/
  (exists o : gmap string jsval, item = VObj o /\
     ((exists entries entries',
         o !! "Media" = Some (VArr entries) /\
         map_outcome with_streaming_flag entries = Ret entries' /\
         item' = VObj (<["Media" := VArr entries']> o)) \/
      (truthy (prop o "Media") = false /\
       item' = VObj (<["Media" := VArr [VObj {[ "optimizedForStreaming" := num 1 ]}]]> o)) \/
      (truthy (prop o "Media") = true /\
       (forall l, prop o "Media" <> VArr l) /\ item' = VObj o))).
Proof.
  unfold normalize_item. destruct item as [| |b|q|s|l|o]; simpl; try discriminate.
  - intros [= <-]. left. by exists l.
  - intros Hnorm. right. exists o. split; [reflexivity|]. unfold prop.
    destruct (o !! "Media") as [media|] eqn:Hmedia; simpl in *.
    + destruct media as [| |b|q|s|entries|m]; simpl in *;
        try (injection Hnorm as <-; right; left; by split);
        try (destruct b; simpl in *; injection Hnorm as <-;
             [right; right; by repeat split | right; left; by split]);
        try (match type of Hnorm with
             | context [negb ?c] => destruct c eqn:Htruthy
             end; simpl in *; injection Hnorm as <-;
             [right; right; by repeat split | right; left; by split]);
        try (injection Hnorm as <-; right; right; by repeat split).
      destruct (map_outcome with_streaming_flag entries) as [entries'|e] eqn:Hmap;
        simpl in Hnorm; [|discriminate].
      injection Hnorm as <-. left. by exists entries, entries'.
    + injection Hnorm as <-. right. left. by split.
Qed.

Lemma normalize_item_media item item' :
  normalize_item item = Ret item' -> media_normalized item item'.
Proof.
  intros Hnorm.
  destruct (normalize_item_cases _ _ Hnorm)
    as [(l & -> & ->) | (o & -> & [(entries & entries' & Hmedia & Hmap & ->) |
                                   [[Hfalsy ->] | (Htruthy & Hshape & ->)]])]; simpl.
  - reflexivity.
  - eexists. split; [reflexivity|]. split; [intros k Hk; by rewrite lookup_insert_ne|].
    unfold prop. rewrite Hmedia. simpl. exists entries'.
    split; [apply lookup_insert_eq|].
    apply map_outcome_Forall2 in Hmap.
    eapply Forall2_impl; [exact Hmap|]. intros; by apply with_streaming_flag_flagged.
  - eexists. split; [reflexivity|]. split; [intros k Hk; by rewrite lookup_insert_ne|].
    clear Hnorm.
    destruct (prop o "Media") as [| |b|q|s|l|m]; simpl in Hfalsy |- *;
      try discriminate; try rewrite Hfalsy; apply lookup_insert_eq.
  - exists o. split; [reflexivity|]. split; [done|]. clear Hnorm.
    destruct (prop o "Media") as [| |b|q|s|l|m] eqn:Hmedia; simpl in Htruthy |- *;
      try discriminate; try (by rewrite Htruthy); try reflexivity.
    by destruct (Hshape l).
Qed.

(** Every entry of a Media array of a normalised item has the flag. *)
Lemma media_normalized_has_flags item item' entries' :
  media_normalized item item' ->
  get_prop item' "Media" = Ret (VArr entries') ->
  Forall has_streaming_flag entries'.
Proof.
  destruct item as [| |b|q|s|l|o]; simpl; try done.
  - intros -> Hmedia. rewrite array_has_no_media in Hmedia. discriminate.
  - intros (o' & -> & _ & Hnormal) Hmedia. simpl in Hmedia. injection Hmedia as Hmedia.
    unfold prop in Hnormal.
    destruct (default VUndefined (o !! "Media")) as [| |b|q|s|entries|m] eqn:Hraw;
      simpl in Hnormal;
      try match type of Hnormal with
          | if ?c then _ else _ => destruct c
          end;
      try first
        [ rewrite Hnormal, Hraw in Hmedia; discriminate
        | rewrite Hnormal in Hmedia; injection Hmedia as <-;
          constructor; [|constructor];
          eexists _, _; split; [reflexivity|]; split;
          [apply lookup_singleton_eq | discriminate] ].
    destruct Hnormal as (entries0 & Hentries0 & Hflagged).
    rewrite Hentries0 in Hmedia. injection Hmedia as <-.
    clear -Hflagged. induction Hflagged; constructor; eauto using flagged_has_flag.
Qed.

(** The normalisation returns for every item object whose Media, when it
    is an array, has no [null] or [undefined] entry. *)
Lemma with_streaming_flag_returns mediaItem :
  nullish mediaItem = false -> exists mediaItem', with_streaming_flag mediaItem = Ret mediaItem'.
Proof.
  intros Hdefined. unfold with_streaming_flag.
  destruct mediaItem; try discriminate; simpl;
    try match goal with
        | |- context [is_defined ?flag] => destruct (is_defined flag)
        end; by eexists.
Qed.

Lemma normalize_item_returns (item : gmap string jsval) :
  (forall entries, item !! "Media" = Some (VArr entries) ->
     Forall (fun mediaItem => nullish mediaItem = false) entries) ->
  exists item', normalize_item (VObj item) = Ret (VObj item').
Proof.
  intros Hentries. unfold normalize_item. simpl.
  destruct (item !! "Media") as [media|] eqn:Hmedia; simpl; [|by eexists].
  destruct media as [| |b|q|s|entries|o]; simpl;
    try (match goal with
         | |- context [if negb ?c then _ else _] => destruct c
         end; simpl; by eexists);
    try by eexists.
  destruct (map_outcome_total with_streaming_flag entries) as [entries' ->].
  - eapply Forall_impl; [exact (Hentries _ eq_refl)|].
    intros mediaItem. apply with_streaming_flag_returns.
  - simpl. by eexists.
Qed.

Example normalize_without_media :
  normalize_item (VObj {[ "ratingKey" := VStr "7" ]}) =
  Ret (VObj {[ "ratingKey" := VStr "7";
               "Media" := VArr [VObj {[ "optimizedForStreaming" := num 1 ]}] ]}).
Proof. vm_compute. reflexivity. Qed.

Example normalize_keeps_a_defined_flag :
  normalize_item
    (VObj {[ "Media" := VArr [VObj {[ "optimizedForStreaming" := VBool false ]};
                              VObj {[ "bitrate" := num 320 ]}] ]}) =
  Ret (VObj {[ "Media" :=
    VArr [VObj {[ "optimizedForStreaming" := VBool false ]};
          VObj {[ "bitrate" := num 320; "optimizedForStreaming" := num 1 ]}] ]}).
Proof. vm_compute. reflexivity. Qed.

(** A [null] entry makes the callback throw: the handler then answers with
    the error result. *)
Example normalize_null_entry :
  normalize_item (VObj {[ "Media" := VArr [VNull] ]}) =
  Throw (type_error_read "null" "optimizedForStreaming").
Proof. vm_compute. reflexivity. Qed.

(** ** Reasoning about computations *)

Lemma bind_returns {A B} (m : M A) (f : A -> M B) tr b tr' :
  bind m f tr = (Ret b, tr') ->
  exists a tr1, m tr = (Ret a, tr1) /\ f a tr1 = (Ret b, tr').
Proof.
  unfold bind. destruct (m tr) as [[a|e] tr1]; [eauto | discriminate].
Qed.

Lemma bind_continues {A B} (m : M A) (f : A -> M B) tr a tr1 :
  m tr = (Ret a, tr1) -> bind m f tr = f a tr1.
Proof. unfold bind. by intros ->. Qed.

Lemma try_catch_cases {A} (body : M A) (h : exn -> M A) tr :
  (exists a tr1, body tr = (Ret a, tr1) /\ try_catch body h tr = (Ret a, tr1)) \/
  (exists e tr1, body tr = (Throw e, tr1) /\ try_catch body h tr = h e tr1).
Proof.
  unfold try_catch. destruct (body tr) as [[a|e] tr1]; [left | right]; eauto.
Qed.

Lemma lift_returns {A} (o : outcome A) tr a tr' :
  lift o tr = (Ret a, tr') -> o = Ret a /\ tr' = tr.
Proof. unfold lift. by intros [= -> ->]. Qed.

Lemma emit_returns ev tr u tr' :
  emit ev tr = (Ret u, tr') -> tr' = (tr ++ [ev])%list.
Proof. unfold emit. by intros [= <-]. Qed.

Lemma report_fails what e tr :
  report what e tr = (Ret (failure (what +:+ error_message e)), (tr ++ [EvLog Error])%list).
Proof. reflexivity. Qed.

(** A handler that answers without the error flag answered from its [try]
    block. *)
Lemma try_report_success (body : M CallToolResult) what tr res tr' :
  try_catch body (report what) tr = (Ret res, tr') -> isError res = false ->
  body tr = (Ret res, tr').
Proof.
  intros Hrun Hok. destruct (try_catch_cases body (report what) tr)
    as [(a & tr1 & Hbody & Htry) | (e & tr1 & Hbody & Htry)].
  - congruence.
  - rewrite Htry, report_fails in Hrun. injection Hrun as <- <-. discriminate.
Qed.

Lemma map_items_returns f v v' :
  map_items f v = Ret v' ->
  exists l l', v = VArr l /\ v' = VArr l' /\ Forall2 (fun x y => f x = Ret y) l l'.
Proof.
  unfold map_items. destruct v; simpl; try discriminate.
  destruct (map_outcome f l) as [l'|e] eqn:Hmap; simpl; [|discriminate].
  intros [= <-]. exists l, l'. split; [reflexivity|]. split; [reflexivity|].
  by apply map_outcome_Forall2.
Qed.

Ltac step_bind H :=
  let a := fresh "a" in
  let tr1 := fresh "tr" in
  let H1 := fresh "Hstep" in
  apply bind_returns in H; destruct H as (a & tr1 & H1 & H).

(** C2.  When get-library-contents answers with its payload, the payload's
    [object.MediaContainer.Metadata] lists the items the client returned,
    in order, each normalised: an item object keeps its other properties,
    and its Media array is there entry by entry, each entry with its own
    properties and with [optimizedForStreaming], which has the entry's own
    value when the entry defined it and is 1 when it did not; an item
    without Media gets the single entry with 1.  So every entry of every
    Media array of the output has the flag. *)
Theorem metadata_entries_have_streaming_flag
    (plexClient : IPlexClient) libraryId type tag start size tr res tr' :
  get_library_contents plexClient libraryId type tag start size tr = (Ret res, tr') ->
  isError res = false ->
  exists (result : LibraryContents) (raw metadata : list jsval) (media : jsval) tr1,
    Interface.getLibraryContents plexClient (VStr libraryId) (default 1%Z type)
      (tagEnum (default "newest" tag)) (default 0%Z start) (default 20%Z size)
      (tr ++ [EvLog Info;
              EvInvoke (CallGetLibraryContents (VStr libraryId) (default 1%Z type)
                          (tagEnum (default "newest" tag)) (default 0%Z start)
                          (default 20%Z size))])%list
    = (Ret result, tr1) /\
    items result = VArr raw /\
    text res = Stringify (VObj
      {[ "media" := media;
         "totalSize" := totalSize result;
         "object" := VObj {[ "MediaContainer" :=
            VObj {[ "content" := VStr "library items";
                    "totalSize" := totalSize result;
                    "Metadata" := VArr metadata ]} ]} ]}) /\
    Forall2 media_normalized raw metadata /\
    forall item' entries', item' ∈ metadata ->
      get_prop item' "Media" = Ret (VArr entries') ->
      Forall has_streaming_flag entries'.
Proof.
  unfold get_library_contents. intros Hrun Hok.
  apply try_report_success in Hrun; [|exact Hok].
  step_bind Hrun. apply emit_returns in Hstep. subst.
  step_bind Hrun. unfold invoke in Hstep.
  step_bind Hstep. apply emit_returns in Hstep0. subst.
  step_bind Hrun. apply lift_returns in Hstep0 as [Hmedia ->].
  step_bind Hrun. apply lift_returns in Hstep0 as [Hmeta ->].
  injection Hrun as <- <-.
  apply map_items_returns in Hmeta as (raw & metadata & Hraw & -> & Hnorm).
  assert (Hall : Forall2 media_normalized raw metadata).
  { eapply Forall2_impl; [exact Hnorm|]. intros; by apply normalize_item_media. }
  rewrite <- app_assoc in Hstep. eexists _, raw, metadata, _, _.
  split; [exact Hstep|]. split; [exact Hraw|]. split; [reflexivity|].
  split; [exact Hall|].
  intros item' entries' Hin Hentries'.
  apply list_elem_of_lookup in Hin as [i Hi].
  destruct (Forall2_lookup_r _ _ _ _ _ Hall Hi) as (item & _ & Hitem).
  by apply (media_normalized_has_flags item item').
Qed.

Lemma metadata_entries_have_streaming_flag_witness :
  exists res (metadata : list jsval) (media : jsval),
    get_library_contents
      (client_with_items
         [VObj {[ "ratingKey" := VStr "7";
                  "Media" := VArr [VObj {[ "bitrate" := num 320 ]};
                                   VObj {[ "optimizedForStreaming" := VBool false ]}] ]};
          VObj {[ "ratingKey" := VStr "8" ]}])
      "1" None None None None []
      = (Ret res, [EvLog Info;
                   EvInvoke (CallGetLibraryContents (VStr "1") 1 Tag.Newest 0 20)]) /\
    isError res = false /\
    text res = Stringify (VObj
      {[ "media" := media;
         "totalSize" := num 2;
         "object" := VObj {[ "MediaContainer" :=
            VObj {[ "content" := VStr "library items";
                    "totalSize" := num 2;
                    "Metadata" := VArr metadata ]} ]} ]}) /\
    Forall2 media_normalized
      [VObj {[ "ratingKey" := VStr "7";
               "Media" := VArr [VObj {[ "bitrate" := num 320 ]};
                                VObj {[ "optimizedForStreaming" := VBool false ]}] ]};
       VObj {[ "ratingKey" := VStr "8" ]}]
      metadata.
Proof.
  set (plexClient := client_with_items
         [VObj {[ "ratingKey" := VStr "7";
                  "Media" := VArr [VObj {[ "bitrate" := num 320 ]};
                                   VObj {[ "optimizedForStreaming" := VBool false ]}] ]};
          VObj {[ "ratingKey" := VStr "8" ]}]).
  set (run := get_library_contents plexClient "1" None None None None []).
  set (res := match fst run with Ret r => r | Throw _ => failure "" end).
  assert (Hrun : run = (Ret res, [EvLog Info;
                   EvInvoke (CallGetLibraryContents (VStr "1") 1 Tag.Newest 0 20)]))
    by (vm_compute; reflexivity).
  assert (Hok : isError res = false) by (vm_compute; reflexivity).
  destruct (metadata_entries_have_streaming_flag _ _ _ _ _ _ _ _ _ Hrun Hok)
    as (result & raw & metadata & media & tr1 & Hcall & Hitems & Htext & Hall & _).
  injection Hcall as <- _. injection Hitems as <-.
  exists res, metadata, media. split; [exact Hrun|]. split; [exact Hok|].
  split; [exact Htext | exact Hall].
Defined.

(** ** Pagination *)

Lemma relative_index_window len start n :
  (0 <= n -> relative_index len (start + n) - relative_index len start <= n)%Z.
Proof.
  unfold relative_index. intros Hn.
  destruct (Z.ltb_spec (start + n) 0), (Z.ltb_spec start 0); lia.
Qed.

Lemma slice_length {A} (l : list A) start n :
  (0 <= n -> Z.of_nat (length (slice l start (start + n))) <= n)%Z.
Proof.
  intros Hn. unfold slice. rewrite length_take.
  pose proof (relative_index_window (Z.of_nat (length l)) start n Hn). lia.
Qed.

(** C3, as stated, fails on [PlexClient]: with a library of three items on a
    server that does not report [totalSize], a page of size 2 comes back
    with [totalSize] 2, the length of the page. *)
Lemma pagination_total_falls_back_to_page :
  ~ pagination_claim
      (PlexClient.getLibraryContents
         (server_without_total [VObj {[ "ratingKey" := VStr "1" ]};
                                VObj {[ "ratingKey" := VStr "2" ]};
                                VObj {[ "ratingKey" := VStr "3" ]}])) 3.
Proof.
  intros Hclaim.
  destruct (Hclaim (VStr "1") 1%Z Tag.Newest 0%Z 2%Z [] _ _ ltac:(lia) eq_refl)
    as (page & _ & _ & Htotal).
  vm_compute in Htotal. discriminate.
Qed.

(** C3, amended.  [MockPlexClient.getLibraryContents] returns the slice of
    its fixture from [start] to [start + n], which has at most [n] items
    for [n >= 0], and [totalSize] is the size of the whole fixture, 7.
    [PlexClient.getLibraryContents] requests the page with [start] and [n]
    and returns the server's [Metadata] as it is; its [totalSize] is the one
    the server reports when that is truthy, and the length of the returned
    page otherwise. *)
Theorem pagination_by_client :
  (forall libraryId type tag start n tr, (0 <= n)%Z ->
     exists page,
       MockPlexClient.getLibraryContents libraryId type tag start n tr =
         (Ret {| items := VArr page;
                 totalSize := num_of_nat (length MockPlexClient.contents) |},
          (tr ++ [EvConsole])%list) /\
       page = slice MockPlexClient.contents start (start + n) /\
       (Z.of_nat (length page) <= n)%Z /\
       length MockPlexClient.contents = 7) /\
  (forall up libraryId type tag start n tr response data
          (container : gmap string jsval) page,
     fetch up (FetchLibraryAll (parseInt libraryId) type start n) = Ret response ->
     ok response = true ->
     json response = Ret data ->
     get_prop data "MediaContainer" = Ret (VObj container) ->
     container !! "Metadata" = Some (VArr page) ->
     PlexClient.getLibraryContents up libraryId type tag start n tr =
       (Ret {| items := VArr page;
               totalSize := if truthy (prop container "totalSize")
                            then prop container "totalSize"
                            else num_of_nat (length page) |},
        (tr ++ [EvFetch (FetchLibraryAll (parseInt libraryId) type start n)])%list)).
Proof.
  split.
  - intros libraryId type tag start n tr Hn. eexists. split; [reflexivity|].
    split; [reflexivity|]. split; [by apply slice_length | reflexivity].
  - intros up libraryId type tag start n tr response data container page
      Hfetch Hok Hjson Hcontainer Hpage.
    unfold PlexClient.getLibraryContents, try_catch, bind, PlexClient.do_fetch,
      bind, emit, lift.
    rewrite Hfetch, Hok, Hjson, Hcontainer. simpl.
    unfold prop. rewrite Hpage. simpl.
    destruct (truthy (default VUndefined (container !! "totalSize"))); reflexivity.
Qed.

Lemma pagination_by_client_witness :
  (exists page,
     MockPlexClient.getLibraryContents (VStr "1") 1%Z Tag.Newest 5%Z 20%Z [] =
       (Ret {| items := VArr page; totalSize := num 7 |}, [EvConsole]) /\
     length page = 2) /\
  PlexClient.getLibraryContents
    (server_without_total [VObj {[ "ratingKey" := VStr "1" ]};
                           VObj {[ "ratingKey" := VStr "2" ]};
                           VObj {[ "ratingKey" := VStr "3" ]}])
    (VStr "1") 1%Z Tag.Newest 0%Z 2%Z [] =
  (Ret {| items := VArr [VObj {[ "ratingKey" := VStr "1" ]};
                         VObj {[ "ratingKey" := VStr "2" ]}];
          totalSize := num 2 |},
   [EvFetch (FetchLibraryAll (Some 1%Z) 1%Z 0%Z 2%Z)]).
Proof.
  destruct pagination_by_client as [Hmock Hplex]. split.
  - destruct (Hmock (VStr "1") 1%Z Tag.Newest 5%Z 20%Z [] ltac:(lia))
      as (page & Hrun & -> & _ & _).
    eexists. split; [exact Hrun | reflexivity].
  - exact (Hplex (server_without_total [VObj {[ "ratingKey" := VStr "1" ]};
                                        VObj {[ "ratingKey" := VStr "2" ]};
                                        VObj {[ "ratingKey" := VStr "3" ]}])
             (VStr "1") 1%Z Tag.Newest 0%Z 2%Z [] _ _ _ _
             eq_refl eq_refl eq_refl eq_refl eq_refl).
Defined.

(** ** Errors at the tool boundary *)

Lemma try_report_returns (body : M CallToolResult) what tr :
  exists res tr', try_catch body (report what) tr = (Ret res, tr').
Proof.
  destruct (try_catch_cases body (report what) tr)
    as [(a & tr1 & _ & ->) | (e & tr1 & _ & ->)]; [by eauto|].
  rewrite report_fails. by eauto.
Qed.

Lemma try_report_throws (body : M CallToolResult) what tr e tr1 :
  body tr = (Throw e, tr1) ->
  try_catch body (report what) tr =
  (Ret (failure (what +:+ error_message e)), (tr1 ++ [EvLog Error])%list).
Proof. unfold try_catch. intros ->. apply report_fails. Qed.

Lemma handler_returns (plexClient : IPlexClient) c tr :
  exists res tr', handler plexClient c tr = (Ret res, tr').
Proof.
  destruct c; simpl; apply try_report_returns.
Qed.

(** A handler body of the shape [log; x <- invoke c op; rest] throws what
    the client call throws. *)
Lemma delegation_throws {A B} c (op : M A) (rest : A -> M B) tr e tr1 :
  op (tr ++ [EvLog Info; EvInvoke c])%list = (Throw e, tr1) ->
  bind (log Info) (fun _ => bind (invoke c op) rest) tr = (Throw e, tr1).
Proof.
  intros Hop. unfold bind, log, invoke, emit, bind. simpl.
  rewrite <- app_assoc. simpl. rewrite Hop. reflexivity.
Qed.

(** *** With a logger that may fail *)

Lemma handler_on_reliable (plexClient : IPlexClient) c :
  Logged.handler Logger.reliable plexClient c = handler plexClient c.
Proof. destruct c; reflexivity. Qed.

Section LogWrites.

Variable fs : Logger.FileSystem.

Lemma write_escapes lvl tr e tr' :
  Logger.write fs lvl tr = (Throw e, tr') -> fs tr = Throw e.
Proof.
  unfold Logger.write. destruct (fs tr) as [[]|e0]; [discriminate|].
  by intros [= <- _].
Qed.

Lemma bind_throws_cases {A B} (m : M A) (f : A -> M B) tr e tr' :
  bind m f tr = (Throw e, tr') ->
  m tr = (Throw e, tr') \/ exists a tr1, m tr = (Ret a, tr1) /\ f a tr1 = (Throw e, tr').
Proof.
  unfold bind. destruct (m tr) as [[a|e0] tr1]; intros Hrun;
    [right; exists a, tr1; split; [reflexivity | exact Hrun] | left; by injection Hrun as -> ->].
Qed.

Lemma logged_report_escapes what e tr e' tr' :
  Logged.report fs what e tr = (Throw e', tr') -> fs tr = Throw e'.
Proof.
  unfold Logged.report. intros [Hwrite | (u & tr1 & _ & Hret)]%bind_throws_cases.
  - by eapply write_escapes.
  - discriminate.
Qed.

(** What escapes a [try] block with the [catch] block of the handlers was
    thrown by the logger. *)
Lemma logged_try_report_escapes (body : M CallToolResult) what tr e' tr' :
  try_catch body (Logged.report fs what) tr = (Throw e', tr') ->
  exists tr0, fs tr0 = Throw e'.
Proof.
  unfold try_catch. destruct (body tr) as [[a|e] tr1]; [discriminate|].
  intros Hreport. eexists. by eapply logged_report_escapes.
Qed.

Hypothesis writes_succeed : forall tr, fs tr = Ret tt.

Lemma write_ok lvl tr : Logger.write fs lvl tr = (Ret tt, (tr ++ [EvLog lvl])%list).
Proof. unfold Logger.write. by rewrite writes_succeed. Qed.

Lemma logged_report_ok what e tr :
  Logged.report fs what e tr =
  (Ret (failure (what +:+ error_message e)), (tr ++ [EvLog Error])%list).
Proof.
  unfold Logged.report. by rewrite (bind_continues _ _ _ _ _ (write_ok Error tr)).
Qed.

Lemma logged_try_report_returns (body : M CallToolResult) what tr :
  exists res tr', try_catch body (Logged.report fs what) tr = (Ret res, tr').
Proof.
  unfold try_catch. destruct (body tr) as [[a|e] tr1]; [by eauto|].
  rewrite logged_report_ok. by eauto.
Qed.

Lemma logged_try_report_throws (body : M CallToolResult) what tr e tr1 :
  body tr = (Throw e, tr1) ->
  try_catch body (Logged.report fs what) tr =
  (Ret (failure (what +:+ error_message e)), (tr1 ++ [EvLog Error])%list).
Proof. unfold try_catch. intros ->. apply logged_report_ok. Qed.

Lemma invoke_throws {A B} c (op : M A) (rest : A -> M B) tr e tr1 :
  op (tr ++ [EvLog Info; EvInvoke c])%list = (Throw e, tr1) ->
  bind (invoke c op) rest (tr ++ [EvLog Info])%list = (Throw e, tr1).
Proof.
  intros Hop. unfold bind, invoke, emit, bind. rewrite <- app_assoc. simpl.
  by rewrite Hop.
Qed.

Lemma logged_delegation_throws {A B} c (op : M A) (rest : A -> M B) tr e tr1 :
  op (tr ++ [EvLog Info; EvInvoke c])%list = (Throw e, tr1) ->
  bind (Logger.info fs) (fun _ => bind (invoke c op) rest) tr = (Throw e, tr1).
Proof.
  intros Hop. rewrite (bind_continues _ _ _ _ _ (write_ok Info tr)).
  by apply invoke_throws.
Qed.

End LogWrites.

(** C4, as stated, fails on the handlers with the logger of [Logger.ts]:
    when the disk fills up during a client call that fails, the write of
    [logger.error] in the [catch] block throws, and the exception escapes
    get-movies. *)
Lemma tool_handler_throws_when_the_log_fails : ~ tool_boundary_claim.
Proof.
  intros Hclaim.
  destruct (Hclaim full_after_call (failing_client (ErrorObj "connect ECONNREFUSED"))
              GetMovies []) as (res & tr' & Hrun).
  vm_compute in Hrun. discriminate.
Qed.

Example get_movies_with_a_full_disk :
  Logged.handler full_after_call (failing_client (ErrorObj "connect ECONNREFUSED"))
    GetMovies [] =
  (Throw (ErrorObj "ENOSPC: no space left on device, write"),
   [EvLog Info; EvInvoke CallGetMovies]).
Proof. reflexivity. Qed.

(** [logger.info] of get-libraries comes before its [try]: a failure of
    that write escapes at once. *)
Example get_libraries_without_a_disk :
  Logged.handler (fun _ => Throw (ErrorObj "EACCES: permission denied, open"))
    (MockPlexClient.client 0) GetLibraries [] =
  (Throw (ErrorObj "EACCES: permission denied, open"), []).
Proof. reflexivity. Qed.

(** C4, amended.  Only the logger makes a tool handler throw: an exception
    that escapes a handler was thrown by a write to the log file.  When
    the writes to the log file succeed, every call of a registered tool
    returns a result, and when the client call it delegates to fails, the
    result is a text with [isError: true]; the text is the tool's error
    prefix followed by the message of the error (['Unknown error'] for a
    thrown value that is not an [Error]), and the failure is logged. *)
Theorem tool_failures_are_reported
    (fs : Logger.FileSystem) (plexClient : IPlexClient) (c : tool_call) tr :
  (forall e tr', Logged.handler fs plexClient c tr = (Throw e, tr') ->
     exists tr0, fs tr0 = Throw e) /\
  ((forall tr0, fs tr0 = Ret tt) ->
   (exists res tr', Logged.handler fs plexClient c tr = (Ret res, tr')) /\
   (forall e tr1,
      client_fails plexClient c e (tr ++ [EvLog Info; EvInvoke (client_call_of c)])%list tr1 ->
      exists res tr' msg,
        Logged.handler fs plexClient c tr = (Ret res, tr') /\
        isError res = true /\
        text res = Message msg /\
        (refused c = false ->
           msg = error_prefix c +:+ error_message e /\
           tr' = (tr1 ++ [EvLog Error])%list))).
Proof.
  split; [|intros Hwrites; split].
  - intros e tr' Hrun.
    destruct c; cbn [Logged.handler] in Hrun;
      try (eapply logged_try_report_escapes; exact Hrun).
    unfold Logged.get_libraries in Hrun.
    apply bind_throws_cases in Hrun as [Hwrite | (u & tr1 & _ & Hrun)].
    + exists tr. by eapply write_escapes.
    + eapply logged_try_report_escapes; exact Hrun.
  - destruct c; cbn [Logged.handler];
      try (by apply logged_try_report_returns).
    unfold Logged.get_libraries.
    rewrite (bind_continues _ _ _ _ _ (write_ok fs Hwrites Info tr)).
    by apply logged_try_report_returns.
  - intros e tr1 Hfails.
    destruct c; cbn [Logged.handler client_fails client_call_of refused error_prefix] in *;
      try (eexists _, _, _; split;
           [apply (logged_try_report_throws fs Hwrites),
                  (logged_delegation_throws fs Hwrites); exact Hfails
           | by repeat split]).
    + unfold Logged.get_libraries.
      rewrite (bind_continues _ _ _ _ _ (write_ok fs Hwrites Info tr)).
      eexists _, _, _. split;
        [apply (logged_try_report_throws fs Hwrites), invoke_throws; exact Hfails
        | by repeat split].
    + unfold Logged.search. destruct (query_missing query) eqn:Hmissing.
      * eexists _, _, _. split; [reflexivity|]. by repeat split.
      * eexists _, _, _. split;
          [apply (logged_try_report_throws fs Hwrites),
                 (logged_delegation_throws fs Hwrites); exact Hfails
          | by repeat split].
Qed.

Lemma tool_failures_are_reported_witness :
  exists res,
    Logged.handler Logger.reliable (failing_client (ErrorObj "connect ECONNREFUSED"))
      GetMovies [] =
      (Ret res, [EvLog Info; EvInvoke CallGetMovies; EvLog Error]) /\
    isError res = true /\
    text res = Message "Error getting movies: connect ECONNREFUSED".
Proof.
  destruct (tool_failures_are_reported Logger.reliable
              (failing_client (ErrorObj "connect ECONNREFUSED")) GetMovies [])
    as [_ Hreported].
  destruct (Hreported (fun _ => eq_refl)) as [_ Hfails].
  destruct (Hfails (ErrorObj "connect ECONNREFUSED") [EvLog Info; EvInvoke CallGetMovies]
              eq_refl)
    as (res & tr' & msg & Hrun & Herror & Htext & Hmsg).
  destruct (Hmsg eq_refl) as [-> ->].
  exists res. split; [exact Hrun|]. split; [exact Herror | exact Htext].
Defined.

(** ** The search tool without a query *)

Lemma trim_start_all_whitespace s : all_whitespace s = true -> trim_start s = "".
Proof.
  induction s as [|c s IH]; simpl; [reflexivity|].
  intros [Hc Hs]%andb_prop. rewrite Hc. by apply IH.
Qed.

Lemma trim_all_whitespace s : all_whitespace s = true -> trim s = "".
Proof. intros Hs. unfold trim. by rewrite trim_start_all_whitespace. Qed.

(** Conversely, [trim] leaves something of any string with a character that
    is not white space. *)
Lemma trim_end_empty s : trim_end s = "" -> all_whitespace s = true.
Proof.
  induction s as [|c s IH]; simpl; [reflexivity|].
  destruct (trim_end s) eqn:Hs; [|discriminate].
  destruct (is_whitespace c); [intros _; by apply IH | discriminate].
Qed.

Lemma trim_empty s : trim s = "" -> all_whitespace s = true.
Proof.
  unfold trim. induction s as [|c s IH]; simpl; [reflexivity|].
  destruct (is_whitespace c) eqn:Hc; [exact IH|].
  intros Hend. apply trim_end_empty in Hend. simpl in Hend. by rewrite Hc in Hend.
Qed.

Example trim_example : trim "  The Matrix " = "The Matrix".
Proof. reflexivity. Qed.

(** C5.  For a query that is empty or is white space only, the search tool
    answers with the error result ["Error: Search query is required"],
    flagged [isError], and does nothing else: the trace of events is the one
    it started with, so [plexClient.search] is not called (and nothing is
    logged). *)
Theorem blank_search_is_refused (plexClient : IPlexClient) query tr :
  all_whitespace query = true ->
  search plexClient query tr =
    (Ret {| text := Message "Error: Search query is required"; isError := true |}, tr).
Proof.
  intros Hblank. unfold search, try_catch, query_missing.
  rewrite (trim_all_whitespace _ Hblank). rewrite orb_true_r. reflexivity.
Qed.

Lemma blank_search_is_refused_witness :
  search (MockPlexClient.client 0) (String (ascii_of_nat 9) "  ") [] =
    (Ret {| text := Message "Error: Search query is required"; isError := true |}, []).
Proof.
  apply (blank_search_is_refused (MockPlexClient.client 0) (String (ascii_of_nat 9) "  ") []).
  reflexivity.
Defined.

(** With a query that has another character the client is called. *)
Example search_matrix_calls_the_client :
  snd (search (MockPlexClient.client 0) "matrix" []) =
  [EvLog Info; EvInvoke (CallSearch "matrix"); EvConsole].
Proof. vm_compute. reflexivity. Qed.

(** ** Unknown tags *)

Lemma tagEnum_unknown tag : tag ∉ known_tags -> tagEnum tag = Tag.Newest.
Proof.
  intros Hunknown. unfold tagEnum.
  destruct (String.eqb_spec tag "newest") as [->|_]; [reflexivity|].
  destruct (String.eqb_spec tag "recentlyAdded") as [->|_];
    [exfalso; apply Hunknown; unfold known_tags; set_solver|].
  destruct (String.eqb_spec tag "recentlyViewed") as [->|_];
    [exfalso; apply Hunknown; unfold known_tags; set_solver|].
  destruct (String.eqb_spec tag "onDeck") as [->|_];
    [exfalso; apply Hunknown; unfold known_tags; set_solver|].
  destruct (String.eqb_spec tag "unwatched") as [->|_];
    [exfalso; apply Hunknown; unfold known_tags; set_solver|].
  destruct (String.eqb_spec tag "collection") as [->|_];
    [exfalso; apply Hunknown; unfold known_tags; set_solver|].
  reflexivity.
Qed.

(** C6.  A tag outside the six known names is mapped to [Tag.Newest], and
    get-library-contents then does exactly what it does for ['newest'] (and
    for no tag at all): the same call of the client, the same result, the
    same events; and it returns a result rather than throwing. *)
Theorem unknown_tag_falls_back_to_newest
    (plexClient : IPlexClient) libraryId type tag start size tr :
  tag ∉ known_tags ->
  tagEnum tag = Tag.Newest /\
  get_library_contents plexClient libraryId type (Some tag) start size tr =
    get_library_contents plexClient libraryId type (Some "newest") start size tr /\
  get_library_contents plexClient libraryId type (Some tag) start size tr =
    get_library_contents plexClient libraryId type None start size tr /\
  exists res tr',
    get_library_contents plexClient libraryId type (Some tag) start size tr = (Ret res, tr').
Proof.
  intros Hunknown. pose proof (tagEnum_unknown tag Hunknown) as Htag.
  split; [exact Htag|].
  assert (Hsame : get_library_contents plexClient libraryId type (Some tag) start size tr =
                  get_library_contents plexClient libraryId type (Some "newest") start size tr).
  { unfold get_library_contents. simpl. rewrite Htag. reflexivity. }
  split; [exact Hsame|]. split; [exact Hsame|].
  apply (handler_returns plexClient (GetLibraryContents libraryId type (Some tag) start size)).
Qed.

Lemma unknown_tag_falls_back_to_newest_witness :
  tagEnum "oldest" = Tag.Newest /\
  snd (get_library_contents (MockPlexClient.client 0) "1" None (Some "oldest") None None []) =
  [EvLog Info; EvInvoke (CallGetLibraryContents (VStr "1") 1 Tag.Newest 0 20); EvConsole].
Proof.
  assert (Hunknown : "oldest" ∉ known_tags).
  { unfold known_tags. intros Hin. repeat (apply elem_of_cons in Hin as [Heq|Hin];
      [discriminate Heq|]). by apply elem_of_nil in Hin. }
  destruct (unknown_tag_falls_back_to_newest (MockPlexClient.client 0) "1" None "oldest"
              None None [] Hunknown) as (Htag & Hsame & _ & _).
  split; [exact Htag|]. rewrite Hsame. vm_compute. reflexivity.
Defined.

Example known_tag_is_kept : tagEnum "onDeck" = Tag.OnDeck.
Proof. reflexivity. Qed.

(** ** The watchlist of the mock client *)

Lemma mock_watchlist_available filter tr :
  MockPlexClient.wants_available filter = true ->
  exists available,
    MockPlexClient.getWatchList filter tr = (Ret available, (tr ++ [EvConsole])%list) /\
    rating_keys available = {[ "501"; "503" ]}.
Proof.
  intros Hfilter. unfold MockPlexClient.getWatchList, bind, console_log, emit.
  rewrite Hfilter.
  assert (Hfiltered : exists l,
            filter_outcome MockPlexClient.is_available MockPlexClient.watchlist = Ret l /\
            rating_key_list l = ["501"; "503"]).
  { eexists. split; vm_compute; reflexivity. }
  destruct Hfiltered as (l & -> & Hkeys).
  eexists. split; [reflexivity|]. unfold rating_keys. rewrite Hkeys. set_solver.
Qed.

Lemma mock_watchlist_unfiltered filter tr :
  MockPlexClient.wants_available filter = false ->
  MockPlexClient.getWatchList filter tr =
    (Ret (VArr MockPlexClient.watchlist), (tr ++ [EvConsole])%list) /\
  rating_keys (VArr MockPlexClient.watchlist) = {[ "501"; "502"; "503" ]}.
Proof.
  intros Hfilter. unfold MockPlexClient.getWatchList, bind, console_log, emit.
  rewrite Hfilter. split; [reflexivity|].
  assert (Hkeys : rating_key_list MockPlexClient.watchlist = ["501"; "502"; "503"])
    by (vm_compute; reflexivity).
  unfold rating_keys. rewrite Hkeys. set_solver.
Qed.

(** C7.  On the fixture of the mock client, the rating keys returned with
    the filter ['available'] (in any letter case) are a strict subset of the
    rating keys returned without a filter, and of those returned with the
    filter ['all']: 501 and 503 out of 501, 502 and 503. *)
Theorem available_watchlist_is_strict_subset tr tr0 :
  exists available everything,
    MockPlexClient.getWatchList (Some "available") tr =
      (Ret available, (tr ++ [EvConsole])%list) /\
    MockPlexClient.getWatchList None tr0 = (Ret everything, (tr0 ++ [EvConsole])%list) /\
    MockPlexClient.getWatchList (Some "all") tr0 =
      (Ret everything, (tr0 ++ [EvConsole])%list) /\
    rating_keys available ⊂ rating_keys everything /\
    rating_keys available = {[ "501"; "503" ]} /\
    rating_keys everything = {[ "501"; "502"; "503" ]}.
Proof.
  destruct (mock_watchlist_available (Some "available") tr eq_refl)
    as (available & Hrun & Hkeys).
  destruct (mock_watchlist_unfiltered None tr0 eq_refl) as [Hnone Hall].
  destruct (mock_watchlist_unfiltered (Some "all") tr0 eq_refl) as [Hsome _].
  exists available, (VArr MockPlexClient.watchlist).
  split; [exact Hrun|]. split; [exact Hnone|]. split; [exact Hsome|].
  split; [|split; [exact Hkeys | exact Hall]].
  rewrite Hkeys, Hall. split.
  - intros key. rewrite !elem_of_union, !elem_of_singleton. tauto.
  - intros Hsub. specialize (Hsub "502").
    rewrite !elem_of_union, !elem_of_singleton in Hsub.
    destruct Hsub as [Heq|Heq]; [tauto | discriminate Heq | discriminate Heq].
Qed.

Example available_filter_ignores_case :
  MockPlexClient.wants_available (Some "Available") = true.
Proof. reflexivity. Qed.

(** ** Movies without a movie library *)

Lemma is_movie_false lib : not_a_movie_library lib -> PlexClient.is_movie lib = Ret false.
Proof.
  intros (o & -> & Htype). unfold PlexClient.is_movie. simpl. f_equal.
  apply strict_eq_str_false. intros Heq. apply Htype.
  destruct (o !! "type") as [t|]; simpl in Heq; [by subst | discriminate].
Qed.

Lemma filter_no_movie libs :
  Forall not_a_movie_library libs -> filter_outcome PlexClient.is_movie libs = Ret [].
Proof.
  induction 1 as [|lib libs Hlib _ IH]; simpl; [reflexivity|].
  by rewrite (is_movie_false _ Hlib), IH.
Qed.

(** C8.  When [getLibraries] returns a list of libraries none of which has
    type ['movie'], [getMovies] returns the empty list; it does not throw,
    it requests no library contents, and it logs the warning. *)
Theorem movies_without_movie_library (up : Upstream) tr libraries tr1 :
  PlexClient.getLibraries up tr = (Ret (VArr libraries), tr1) ->
  Forall not_a_movie_library libraries ->
  PlexClient.getMovies up tr = (Ret (VArr []), (tr1 ++ [EvLog Warn])%list).
Proof.
  intros Hlibs Hnone. unfold PlexClient.getMovies, try_catch.
  rewrite (bind_continues _ _ _ _ _ Hlibs).
  unfold bind, lift. simpl. rewrite (filter_no_movie _ Hnone). reflexivity.
Qed.

Lemma movies_without_movie_library_witness :
  PlexClient.getMovies shows_only [] =
    (Ret (VArr []), [EvSdk Sdk.getAllLibraries; EvLog Warn]).
Proof.
  apply (movies_without_movie_library shows_only []
           [VObj {[ "key" := VStr "2"; "title" := VStr "TV Shows"; "type" := VStr "show" ]}]
           [EvSdk Sdk.getAllLibraries]).
  - reflexivity.
  - constructor; [|constructor]. eexists. split; [reflexivity|].
    vm_compute. discriminate.
Defined.

(** With a movie library its contents are requested. *)
Example movies_of_the_mock_libraries :
  snd (PlexClient.getMovies
         {| sdk := fun _ => Ret (VObj {[ "object" := VObj {[ "mediaContainer" :=
                     VObj {[ "directory" := VArr MockPlexClient.libraries ]} ]} ]});
            fetch := fun _ => Throw (ErrorObj "fetch failed") |} []) =
  [EvSdk Sdk.getAllLibraries; EvFetch (FetchLibraryAll (Some 1%Z) 1 0 20);
   EvLog Error; EvLog Error].
Proof. vm_compute. reflexivity. Qed.

(** ** Playback *)











(** C9.  [playMedia] does not look the media item up by its id: it lists
    the library section whose key is the number of the id and takes the
    first item of the list.  On a server with The Matrix (rating key 101)
    in section 1 and an empty section 101, playing ["101"], an item the
    server has, fails with "Media item with ID 101 not found" and no
    playback request; playing ["1"], which is the rating key of no item,
    passes the check on the first item of section 1 and sends the playback
    request for [/library/metadata/1]. *)
Theorem playMedia_looks_up_a_section :
  (items_with_key matrix_and_an_empty_section "101" = [MockPlexClient.the_matrix] /\
   PlexClient.playMedia (library_server matrix_and_an_empty_section) "101" "tv-1" [] =
     (Throw (ErrorObj "Media item with ID 101 not found"),
      [EvSdk Sdk.getDevices; EvSdk (Sdk.getLibraryItems (Some 101%Z) 1 Tag.Newest);
       EvLog Error])) /\
  (items_with_key matrix_and_an_empty_section "1" = [] /\
   PlexClient.playMedia (library_server matrix_and_an_empty_section) "1" "tv-1" [] =
     (Ret tt,
      [EvSdk Sdk.getDevices; EvSdk (Sdk.getLibraryItems (Some 1%Z) 1 Tag.Newest);
       EvFetch (FetchPlayMedia "tv-1" "/library/metadata/1"); EvLog Info])).
Proof. repeat split; vm_compute; reflexivity. Qed.

(** ** A message before the event stream is open *)

Lemma handle_post st body :
  Http.handle st (Http.PostMessages body) =
  (st, [match Http.express_json body with
        | Http.Refused status => Http.RespondError status
        | Http.Body v =>
            match Http.sseTransport st with
            | None => Http.Respond 400 (VObj {[ "error" := VStr "No active SSE connection" ]})
            | Some transport => Http.HandlePostMessage transport v
            end
        end]).
Proof.
  unfold Http.handle. destruct (Http.express_json body); [|reflexivity].
  by destruct (Http.sseTransport st).
Qed.

Lemma serve_cons st req reqs :
  Http.serve st (req :: reqs) =
  let '(st1, done1) := Http.handle st req in
  let '(st2, done2) := Http.serve st1 reqs in
  (st2, (done1 ++ done2)%list).
Proof. reflexivity. Qed.

Lemma serve_without_sse reqs : forall st,
  Http.sseTransport st = None ->
  Forall (fun req => Http.is_get_sse req = false) reqs ->
  exists done,
    Http.serve st reqs = (st, done) /\
    Forall (fun e => Http.is_dispatch e = false) done.
Proof.
  induction reqs as [|req reqs IH]; intros st Hnone Hposts.
  - exists []. by split.
  - apply Forall_cons in Hposts as [Hreq Hposts].
    destruct req as [|body]; [discriminate|].
    rewrite serve_cons, handle_post, Hnone.
    destruct (IH st Hnone Hposts) as (done & -> & Hdone).
    eexists. split; [reflexivity|]. constructor; [|exact Hdone].
    by destruct (Http.express_json body).
Qed.

Lemma serve_app reqs1 : forall st reqs2,
  Http.serve st (reqs1 ++ reqs2) =
  let '(st1, done1) := Http.serve st reqs1 in
  let '(st2, done2) := Http.serve st1 reqs2 in
  (st2, (done1 ++ done2)%list).
Proof.
  induction reqs1 as [|req reqs1 IH]; intros st reqs2; simpl.
  - by destruct (Http.serve st reqs2).
  - destruct (Http.handle st req) as [st1 done1]. rewrite IH.
    destruct (Http.serve st1 reqs1) as [st2 done2].
    destruct (Http.serve st2 reqs2) as [st3 done3]. by rewrite app_assoc.
Qed.

(** C10, as stated, fails: a POST whose body is the JSON text [null] is
    turned down by the JSON middleware, whose answer is an error page, not
    a JSON body. *)
Lemma post_of_null_gets_no_json_answer : ~ post_before_sse_claim.
Proof.
  intros Hclaim.
  destruct (Hclaim [] (Http.Json VNull) (Forall_nil_2 _)) as (done & error & Hrun & _).
  injection Hrun as Hrun.
  destruct done as [|e [|e' done]]; [discriminate | discriminate |].
  injection Hrun as _ Hrun. by destruct done.
Qed.

(** C10, amended.  A POST to [/messages] that arrives when no GET to [/sse]
    has been handled since the server started is answered at once: with
    status 400 and the JSON body [{ error: "No active SSE connection" }]
    when its body gets past the JSON middleware, and by the error page of
    the middleware when it does not; neither it nor any request before it
    is handed to a transport. *)
Theorem post_before_sse_is_rejected (earlier : list Http.request) (body : Http.payload) :
  Forall (fun req => Http.is_get_sse req = false) earlier ->
  exists done,
    Http.serve Http.initial (earlier ++ [Http.PostMessages body]) =
      (Http.initial,
       (done ++ [match Http.express_json body with
                 | Http.Body _ =>
                     Http.Respond 400
                       (VObj {[ "error" := VStr "No active SSE connection" ]})
                 | Http.Refused status => Http.RespondError status
                 end])%list) /\
    Forall (fun e => Http.is_dispatch e = false) done.
Proof.
  intros Hposts.
  destruct (serve_without_sse earlier Http.initial eq_refl Hposts) as (done & Hrun & Hdone).
  exists done. split; [|exact Hdone].
  rewrite serve_app, Hrun, serve_cons, handle_post. simpl.
  by destruct (Http.express_json body).
Qed.

Lemma post_before_sse_is_rejected_witness :
  exists done,
    Http.serve Http.initial
      [Http.PostMessages (Http.Unreadable 400);
       Http.PostMessages (Http.Json (VObj {[ "method" := VStr "ping" ]}))] =
      (Http.initial,
       (done ++ [Http.Respond 400
                   (VObj {[ "error" := VStr "No active SSE connection" ]})])%list) /\
    Forall (fun e => Http.is_dispatch e = false) done.
Proof.
  apply (post_before_sse_is_rejected [Http.PostMessages (Http.Unreadable 400)]
           (Http.Json (VObj {[ "method" := VStr "ping" ]}))).
  repeat constructor.
Defined.

Example two_posts_before_sse :
  Http.serve Http.initial
    [Http.PostMessages (Http.Json (VStr "ping"));
     Http.PostMessages (Http.Json (VObj {[ "method" := VStr "ping" ]}));
     Http.PostMessages Http.NoJson] =
    (Http.initial,
     [Http.RespondError 400;
      Http.Respond 400 (VObj {[ "error" := VStr "No active SSE connection" ]});
      Http.Respond 400 (VObj {[ "error" := VStr "No active SSE connection" ]})]).
Proof. reflexivity. Qed.

(** Once the event stream is open, the message is handed to its transport. *)
Example post_after_sse_is_dispatched :
  snd (Http.serve Http.initial
         [Http.GetSse; Http.PostMessages (Http.Json (VObj {[ "method" := VStr "ping" ]}))]) =
  [Http.Connect 0; Http.HandlePostMessage 0 (VObj {[ "method" := VStr "ping" ]})].
Proof. reflexivity. Qed.

(** * Further properties of the code *)

(** ** Normalisation is idempotent and touches Media only *)

Lemma with_streaming_flag_fixed mediaItem :
  has_streaming_flag mediaItem -> with_streaming_flag mediaItem = Ret mediaItem.
Proof.
  intros (o & flag & -> & Hflag & Hdefined). unfold with_streaming_flag. simpl.
  rewrite Hflag. simpl.
  destruct flag; try (by rewrite insert_id); by destruct Hdefined.
Qed.

Lemma map_outcome_fixed {A} (f : A -> outcome A) l :
  Forall (fun x => f x = Ret x) l -> map_outcome f l = Ret l.
Proof.
  induction 1 as [|x l Hx _ IH]; simpl; [reflexivity|]. by rewrite Hx, IH.
Qed.

(** X1.  Normalising an item that has been normalised changes nothing: the
    callback returns the item it is given. *)
Theorem normalize_item_idempotent item item' :
  normalize_item item = Ret item' -> normalize_item item' = Ret item'.
Proof.
  intros Hnorm.
  destruct (normalize_item_cases _ _ Hnorm)
    as [(l & -> & ->) | (o & -> & [(entries & entries' & Hmedia & Hmap & ->) |
                                   [[Hfalsy ->] | (Htruthy & Hshape & ->)]])].
  - reflexivity.
  - unfold normalize_item. simpl. rewrite lookup_insert_eq. simpl.
    rewrite (map_outcome_fixed with_streaming_flag entries'); simpl.
    + by rewrite insert_insert_eq.
    + apply map_outcome_Forall2 in Hmap.
      apply Forall_forall. intros mediaItem' Hin.
      apply list_elem_of_lookup in Hin as [i Hi].
      destruct (Forall2_lookup_r _ _ _ _ _ Hmap Hi) as (mediaItem & _ & Hflag).
      apply with_streaming_flag_fixed.
      by apply (flagged_has_flag mediaItem), with_streaming_flag_flagged.
  - assert (Hfixed : map_outcome with_streaming_flag
                       [VObj {[ "optimizedForStreaming" := num 1 ]}] =
                     Ret [VObj {[ "optimizedForStreaming" := num 1 ]}]).
    { apply map_outcome_fixed. constructor; [|constructor].
      apply with_streaming_flag_fixed. eexists _, _. split; [reflexivity|].
      split; [apply lookup_singleton_eq | discriminate]. }
    unfold normalize_item. cbn [get_prop obind]. rewrite lookup_insert_eq.
    cbn [default from_option id]. rewrite Hfixed. cbn [obind set_prop].
    by rewrite insert_insert_eq.
  - exact Hnorm.
Qed.

Lemma normalize_item_idempotent_witness :
  normalize_item
    (VObj {[ "ratingKey" := VStr "7";
             "Media" := VArr [VObj {[ "optimizedForStreaming" := num 1 ]}] ]}) =
  Ret (VObj {[ "ratingKey" := VStr "7";
               "Media" := VArr [VObj {[ "optimizedForStreaming" := num 1 ]}] ]}).
Proof.
  apply (normalize_item_idempotent (VObj {[ "ratingKey" := VStr "7" ]})).
  vm_compute. reflexivity.
Defined.

Lemma map_outcome_length {A B} (f : A -> outcome B) l l' :
  map_outcome f l = Ret l' -> length l' = length l.
Proof.
  intros Hmap. apply map_outcome_Forall2 in Hmap.
  symmetry. by eapply Forall2_length.
Qed.

(** X2.  The normalisation of an item object changes its [Media] property
    and nothing else, and a Media array keeps its number of entries, each
    entry keeping its own properties and having [optimizedForStreaming]
    with its own value when that is defined and with 1 otherwise. *)
Theorem normalize_item_touches_media_only (o : gmap string jsval) item' :
  normalize_item (VObj o) = Ret item' ->
  exists o' : gmap string jsval,
    item' = VObj o' /\
    (forall k, k <> "Media" -> o' !! k = o !! k) /\
    (forall entries, o !! "Media" = Some (VArr entries) ->
       exists entries',
         o' !! "Media" = Some (VArr entries') /\
         length entries' = length entries /\
         (forall i mediaItem' k,
            entries' !! i = Some mediaItem' -> k <> "optimizedForStreaming" ->
            exists mediaItem,
              entries !! i = Some mediaItem /\
              get_prop mediaItem' k = Ret (default VUndefined (spread mediaItem !! k))) /\
         (forall i mediaItem',
            entries' !! i = Some mediaItem' ->
            exists mediaItem,
              entries !! i = Some mediaItem /\
              get_prop mediaItem' "optimizedForStreaming" =
                Ret (if is_defined (streaming_flag mediaItem) then streaming_flag mediaItem
                     else num 1))).
Proof.
  intros Hnorm.
  destruct (normalize_item_cases _ _ Hnorm)
    as [(l & [=] & _) | (o0 & [= <-] & [(entries & entries' & Hmedia & Hmap & ->) |
                                        [[Hfalsy ->] | (Htruthy & Hshape & ->)]])].
  - eexists. split; [reflexivity|]. split.
    + intros k Hk. by rewrite lookup_insert_ne.
    + intros entries0 Hentries0. rewrite Hmedia in Hentries0.
      injection Hentries0 as <-. exists entries'.
      split; [apply lookup_insert_eq|]. split; [by eapply map_outcome_length|].
      apply map_outcome_Forall2 in Hmap. split.
      * intros i mediaItem' k Hi Hk.
        destruct (Forall2_lookup_r _ _ _ _ _ Hmap Hi) as (mediaItem & Hmi & Hflag).
        exists mediaItem. split; [exact Hmi|].
        apply with_streaming_flag_flagged in Hflag as (m & -> & _ & Hother).
        simpl. by rewrite (Hother k Hk).
      * intros i mediaItem' Hi.
        destruct (Forall2_lookup_r _ _ _ _ _ Hmap Hi) as (mediaItem & Hmi & Hflag).
        exists mediaItem. split; [exact Hmi|].
        apply with_streaming_flag_flagged in Hflag as (m & -> & Hown & _).
        simpl. by rewrite Hown.
  - eexists. split; [reflexivity|]. split.
    + intros k Hk. by rewrite lookup_insert_ne.
    + intros entries Hentries. unfold prop in Hfalsy. rewrite Hentries in Hfalsy.
      discriminate.
  - exists o. split; [reflexivity|]. split; [done|].
    intros entries Hentries. destruct (Hshape entries). unfold prop.
    by rewrite Hentries.
Qed.

Lemma normalize_item_touches_media_only_witness :
  exists (o' : gmap string jsval) first second,
    normalize_item
      (VObj {[ "title" := VStr "Dune";
               "Media" := VArr [VObj {[ "bitrate" := num 320 ]};
                                VObj {[ "optimizedForStreaming" := VBool false ]}] ]})
      = Ret (VObj o') /\
    o' !! "title" = Some (VStr "Dune") /\
    o' !! "Media" = Some (VArr [first; second]) /\
    get_prop first "bitrate" = Ret (num 320) /\
    get_prop first "optimizedForStreaming" = Ret (num 1) /\
    get_prop second "optimizedForStreaming" = Ret (VBool false).
Proof.
  destruct (normalize_item
              (VObj {[ "title" := VStr "Dune";
                       "Media" := VArr [VObj {[ "bitrate" := num 320 ]};
                                        VObj {[ "optimizedForStreaming" := VBool false ]}] ]}))
    as [item'|e] eqn:Hnorm; [|vm_compute in Hnorm; discriminate].
  destruct (normalize_item_touches_media_only _ _ Hnorm) as (o' & -> & Hother & Hmedia).
  destruct (Hmedia [VObj {[ "bitrate" := num 320 ]};
                    VObj {[ "optimizedForStreaming" := VBool false ]}])
    as (entries' & Hentries' & Hlen & Hkept & Hflag).
  { vm_compute. reflexivity. }
  destruct entries' as [|first [|second [|]]]; try discriminate.
  exists o', first, second. split; [reflexivity|]. split.
  { rewrite Hother by discriminate. vm_compute. reflexivity. }
  split; [exact Hentries'|].
  destruct (Hkept 0 first "bitrate" eq_refl ltac:(discriminate)) as (m0 & [= <-] & ->).
  destruct (Hflag 0 first eq_refl) as (m0 & [= <-] & ->).
  destruct (Hflag 1 second eq_refl) as (m1 & [= <-] & ->).
  split; [vm_compute; reflexivity|]. split; vm_compute; reflexivity.
Defined.

(** ** What the tools answer *)

Lemma reshape_item_returns item :
  nullish item = false -> exists out, reshape_item item = Ret out.
Proof.
  intros Hitem. unfold reshape_item.
  destruct item; try discriminate; simpl;
    repeat match goal with
           | |- context [if ?c then _ else _] => destruct c
           end; by eexists.
Qed.

Lemma reshape_item_throws item :
  nullish item = true -> exists e, reshape_item item = Throw e.
Proof. destruct item; try discriminate; intros _; by eexists. Qed.

Lemma map_outcome_throws {A B} (f : A -> outcome B) l x :
  x ∈ l -> (exists e, f x = Throw e) -> exists e, map_outcome f l = Throw e.
Proof.
  intros Hin [e He]. induction l as [|y l IH]; simpl.
  - by apply elem_of_nil in Hin.
  - apply elem_of_cons in Hin as [<-|Hin].
    + rewrite He. by eexists.
    + destruct (f y); simpl; [|by eexists].
      destruct (IH Hin) as [e' ->]. by eexists.
Qed.

(** A handler body of the shape [log; x <- invoke c op; rest] continues
    with what the client call returns. *)
Lemma delegation_returns {A B} c (op : M A) (rest : A -> M B) tr a tr1 :
  op (tr ++ [EvLog Info; EvInvoke c])%list = (Ret a, tr1) ->
  bind (log Info) (fun _ => bind (invoke c op) rest) tr = rest a tr1.
Proof.
  intros Hop. unfold bind, log, invoke, emit, bind. simpl.
  rewrite <- app_assoc. simpl. rewrite Hop. reflexivity.
Qed.

(** X3.  get-watchlist answers with the reshaped items of the client, in
    the same order and number, when the client returns an array without
    [null] or [undefined] items. *)
Theorem watchlist_is_reshaped (plexClient : IPlexClient) filter tr raws tr1 :
  Interface.getWatchList plexClient filter
    (tr ++ [EvLog Info; EvInvoke (CallGetWatchList filter)])%list
  = (Ret (VArr raws), tr1) ->
  Forall (fun item => nullish item = false) raws ->
  exists outs,
    get_watchlist plexClient filter tr =
      (Ret (success (VObj {[ "watchlist" := VArr outs ]})), tr1) /\
    Forall2 (fun item out => reshape_item item = Ret out) raws outs /\
    length outs = length raws.
Proof.
  intros Hcall Hitems.
  destruct (map_outcome_total reshape_item raws) as [outs Houts].
  { eapply Forall_impl; [exact Hitems|]. apply reshape_item_returns. }
  exists outs. split; [|split].
  - unfold get_watchlist, try_catch. rewrite (delegation_returns _ _ _ _ _ _ Hcall).
    unfold bind, lift, map_items. simpl. rewrite Houts. reflexivity.
  - by apply map_outcome_Forall2.
  - by eapply map_outcome_length.
Qed.

Lemma watchlist_is_reshaped_witness :
  exists outs,
    get_watchlist (MockPlexClient.client 0) (Some "available") [] =
      (Ret (success (VObj {[ "watchlist" := VArr outs ]})),
       [EvLog Info; EvInvoke (CallGetWatchList (Some "available")); EvConsole]) /\
    length outs = 2.
Proof.
  set (raws := match fst (MockPlexClient.getWatchList (Some "available")
                            [EvLog Info; EvInvoke (CallGetWatchList (Some "available"))]) with
               | Ret (VArr l) => l
               | _ => []
               end).
  destruct (watchlist_is_reshaped (MockPlexClient.client 0) (Some "available") [] raws
              [EvLog Info; EvInvoke (CallGetWatchList (Some "available")); EvConsole])
    as (outs & Hrun & _ & Hlen).
  - vm_compute. reflexivity.
  - repeat constructor.
  - exists outs. split; [exact Hrun | exact Hlen].
Defined.

(** X4.  One bad item fails the whole call: when the client's result is
    not an array, or is an array with a [null] or [undefined] item,
    get-watchlist answers with the error result and logs the error. *)
Theorem watchlist_with_bad_item_fails (plexClient : IPlexClient) filter tr v tr1 :
  Interface.getWatchList plexClient filter
    (tr ++ [EvLog Info; EvInvoke (CallGetWatchList filter)])%list
  = (Ret v, tr1) ->
  is_array v = false \/ (exists raws item, v = VArr raws /\ item ∈ raws /\ nullish item = true) ->
  exists msg,
    get_watchlist plexClient filter tr =
      (Ret {| text := Message ("Error getting watchlist: " +:+ msg); isError := true |},
       (tr1 ++ [EvLog Error])%list).
Proof.
  intros Hcall Hbad.
  assert (Hthrows : exists e, map_items reshape_item v = Throw e).
  { destruct Hbad as [Hshape | (raws & item & -> & Hin & Hitem)].
    - destruct v; try discriminate; by eexists.
    - unfold map_items. simpl.
      destruct (map_outcome_throws reshape_item raws item Hin
                  (reshape_item_throws _ Hitem)) as [e ->]. by eexists. }
  destruct Hthrows as [e He]. exists (error_message e).
  unfold get_watchlist. apply try_report_throws.
  rewrite (delegation_returns _ _ _ _ _ _ Hcall).
  unfold bind, lift. by rewrite He.
Qed.

Lemma watchlist_with_bad_item_fails_witness :
  exists msg,
    get_watchlist
      {| Interface.getLibraries := ret (VArr []);
         Interface.getLibraryContents := fun _ _ _ _ _ =>
           ret {| items := VArr []; totalSize := num 0 |};
         Interface.getMovies := ret (VArr []);
         Interface.getSeasons := fun _ => ret (VArr []);
         Interface.getEpisodes := fun _ => ret (VArr []);
         Interface.search := fun _ => ret (VArr []);
         Interface.getWatchList := fun _ => ret (VArr [MockPlexClient.the_matrix; VNull]);
         Interface.getDevices := ret (VArr []) |} None [] =
      (Ret {| text := Message ("Error getting watchlist: " +:+ msg); isError := true |},
       [EvLog Info; EvInvoke (CallGetWatchList None); EvLog Error]).
Proof.
  eapply (watchlist_with_bad_item_fails _ None [] (VArr [MockPlexClient.the_matrix; VNull])
            [EvLog Info; EvInvoke (CallGetWatchList None)]).
  - reflexivity.
  - right. exists [MockPlexClient.the_matrix; VNull], VNull.
    split; [reflexivity|]. split; [|reflexivity].
    apply elem_of_cons. right. apply elem_of_cons. by left.
Defined.

(** The object built by [{ target: raw.source, ... }]. *)
Lemma extend_renames (fields : list (string * string)) (raw : gmap string jsval) :
  forall acc : gmap string jsval,
  NoDup (map fst fields) ->
  let out : gmap string jsval :=
    fold_left (fun acc f => <[fst f := prop raw (snd f)]> acc) fields acc in
  dom out = (list_to_set (map fst fields) : gset string) ∪ dom acc /\
  (forall target source, (target, source) ∈ fields -> out !! target = Some (prop raw source)) /\
  (forall k, k ∉ map fst fields -> out !! k = acc !! k).
Proof.
  induction fields as [|[target source] fields IH]; intros acc Hnodup; simpl in *.
  - split; [by rewrite union_empty_l_L|]. split; [|done].
    intros ? ? Hin. by apply elem_of_nil in Hin.
  - apply NoDup_cons in Hnodup as [Hfresh Hnodup].
    destruct (IH (<[target := prop raw source]> acc) Hnodup) as (Hdom & Hfields & Hother).
    split; [|split].
    + rewrite Hdom, dom_insert_L. apply set_eq. intros k.
      rewrite !elem_of_union. tauto.
    + intros t s Hin. apply elem_of_cons in Hin as [[= -> ->]|Hin].
      * rewrite Hother by exact Hfresh. apply lookup_insert_eq.
      * by apply Hfields.
    + intros k Hk. apply not_elem_of_cons in Hk as [Hne Hk].
      rewrite Hother by exact Hk. by apply lookup_insert_ne.
Qed.

Lemma project_renames fields (raw : gmap string jsval) :
  NoDup (map fst fields) ->
  exists out, project fields (VObj raw) = Ret (VObj out) /\ renamed fields raw out.
Proof.
  intros Hnodup. unfold project. rewrite extend_obj. simpl.
  eexists. split; [reflexivity|].
  destruct (extend_renames fields raw ∅ Hnodup) as (Hdom & Hfields & _).
  split; [|exact Hfields]. by rewrite Hdom, dom_empty_L, union_empty_r_L.
Qed.

Lemma map_project_renames fields raws :
  NoDup (map fst fields) ->
  exists outs,
    map_items (project fields) (VArr (map VObj raws)) = Ret (VArr (map VObj outs)) /\
    Forall2 (renamed fields) raws outs.
Proof.
  intros Hnodup. unfold map_items. simpl.
  induction raws as [|raw raws (outs & Hmap & Hall)]; simpl.
  - exists []. split; [reflexivity | constructor].
  - destruct (project_renames fields raw Hnodup) as (out & -> & Hout). simpl.
    destruct (map_outcome (project fields) (map VObj raws)) as [l|e]; simpl in *;
      [|discriminate].
    injection Hmap as ->. exists (out :: outs). split; [reflexivity|]. by constructor.
Qed.

Lemma renaming_targets_distinct c key fields :
  renaming c = Some (key, fields) -> NoDup (map fst fields).
Proof.
  destruct c; simpl; intros [= <- <-];
    apply (bool_decide_unpack _); vm_compute; reflexivity.
Qed.

(** X5.  get-libraries, get-seasons, get-episodes and get-devices answer
    with one object per item of the client, in order; each object has the
    renamed fields of the tool (for a season: [id] from [ratingKey],
    [seasonNumber] from [index], [episodeCount] from [leafCount], ...) and
    no other property of the raw item. *)
Theorem projection_tools_rename (plexClient : IPlexClient) c key fields tr raws tr1 :
  renaming c = Some (key, fields) ->
  client_returns plexClient c (VArr (map VObj raws)) (tr ++ before_call c)%list tr1 ->
  exists outs tr',
    handler plexClient c tr =
      (Ret (success (VObj {[ key := VArr (map VObj outs) ]})), tr') /\
    Forall2 (renamed fields) raws outs /\
    tr' = (tr1 ++ match c with GetLibraries => [EvLog Info] | _ => [] end)%list.
Proof.
  intros Hrenaming Hcall.
  pose proof (renaming_targets_distinct _ _ _ Hrenaming) as Hnodup.
  destruct (map_project_renames fields raws Hnodup) as (outs & Hmap & Hall).
  exists outs.
  destruct c; simpl in Hrenaming; try discriminate; injection Hrenaming as <- <-;
    simpl in Hcall; eexists; (split; [|split; [exact Hall | reflexivity]]).
  - change (handler plexClient GetLibraries tr) with
      (try_catch
         (libraries <- invoke CallGetLibraries (Interface.getLibraries plexClient) ;;
          log Info ;;;
          mapped <- lift (map_items
            (project [("id", "key"); ("title", "title"); ("type", "type")]) libraries) ;;
          ret (success (VObj {[ "libraries" := mapped ]})))
         (report "Error getting libraries: ") (tr ++ [EvLog Info])%list).
    unfold try_catch, bind, invoke, bind, emit, lift, log, emit.
    rewrite <- app_assoc. simpl. unfold before_call in Hcall. simpl in Hcall.
    rewrite Hcall, Hmap. reflexivity.
  - unfold handler, get_seasons, try_catch.
    rewrite (delegation_returns _ _ _ _ _ _ Hcall). unfold bind, lift.
    rewrite Hmap. by rewrite app_nil_r.
  - unfold handler, get_episodes, try_catch.
    rewrite (delegation_returns _ _ _ _ _ _ Hcall). unfold bind, lift.
    rewrite Hmap. by rewrite app_nil_r.
  - unfold handler, get_devices, try_catch.
    rewrite (delegation_returns _ _ _ _ _ _ Hcall). unfold bind, lift.
    rewrite Hmap. by rewrite app_nil_r.
Qed.

Lemma projection_tools_rename_witness :
  exists outs : list (gmap string jsval),
    handler (MockPlexClient.client 0) (GetSeasons "103") [] =
      (Ret (success (VObj {[ "seasons" := VArr (map VObj outs) ]})),
       [EvLog Info; EvInvoke (CallGetSeasons "103"); EvConsole]) /\
    length outs = 2.
Proof.
  destruct (projection_tools_rename (MockPlexClient.client 0) (GetSeasons "103")
              "seasons"
              [("id", "ratingKey"); ("title", "title"); ("seasonNumber", "index");
               ("episodeCount", "leafCount")] []
              [ {[ "ratingKey" := VStr "201"; "title" := VStr "Season 1";
                   "index" := num 1; "leafCount" := num 10; "type" := VStr "season" ]};
                {[ "ratingKey" := VStr "202"; "title" := VStr "Season 2";
                   "index" := num 2; "leafCount" := num 12; "type" := VStr "season" ]} ]
              [EvLog Info; EvInvoke (CallGetSeasons "103"); EvConsole]
              eq_refl eq_refl)
    as (outs & tr' & Hrun & Hall & ->).
  exists outs. split; [exact Hrun|].
  symmetry. exact (Forall2_length _ _ _ Hall).
Defined.

Example season_is_renamed :
  project [("id", "ratingKey"); ("title", "title"); ("seasonNumber", "index");
           ("episodeCount", "leafCount")] (MockPlexClient.season "201" "Season 1" 1 10) =
  Ret (VObj {[ "id" := VStr "201"; "title" := VStr "Season 1"; "seasonNumber" := num 1;
               "episodeCount" := num 10 ]}).
Proof. vm_compute. reflexivity. Qed.

(** ** PlexClient: errors and missing fields *)

Lemma bind_throws_at {A B} (m : M A) (f : A -> M B) tr e tr' :
  m tr = (Throw e, tr') -> bind m f tr = (Throw e, tr').
Proof. unfold bind. by intros ->. Qed.

Lemma sdk_call_run (up : Upstream) c tr :
  PlexClient.sdk_call up c tr = (sdk up c, (tr ++ [EvSdk c])%list).
Proof. reflexivity. Qed.

Lemma do_fetch_run (up : Upstream) r tr :
  PlexClient.do_fetch up r tr = (fetch up r, (tr ++ [EvFetch r])%list).
Proof. reflexivity. Qed.

Lemma rethrow_run {A} e tr :
  @PlexClient.rethrow A e tr = (Throw e, (tr ++ [EvLog Error])%list).
Proof. reflexivity. Qed.

Lemma try_rethrow_throws {A} (body : M A) tr e tr1 :
  body tr = (Throw e, tr1) ->
  try_catch body PlexClient.rethrow tr = (Throw e, (tr1 ++ [EvLog Error])%list).
Proof. unfold try_catch. intros ->. apply rethrow_run. Qed.

Lemma try_rethrow_returns {A} (body : M A) tr a tr1 :
  body tr = (Ret a, tr1) -> try_catch body PlexClient.rethrow tr = (Ret a, tr1).
Proof. unfold try_catch. by intros ->. Qed.

(** A method of the shape [try { r = await sdk(c); rest } catch { log; throw }]. *)
Lemma sdk_method_throws {A} (up : Upstream) c (rest : jsval -> M A) e tr :
  sdk up c = Throw e ->
  try_catch (bind (PlexClient.sdk_call up c) rest) PlexClient.rethrow tr =
  (Throw e, (tr ++ [EvSdk c; EvLog Error])%list).
Proof.
  intros Hsdk. unfold try_catch, bind. rewrite sdk_call_run, Hsdk, rethrow_run.
  by rewrite <- app_assoc.
Qed.

Lemma sdk_method_returns {A} (up : Upstream) c (rest : jsval -> outcome A) response a tr :
  sdk up c = Ret response -> rest response = Ret a ->
  try_catch (bind (PlexClient.sdk_call up c) (fun r => lift (rest r))) PlexClient.rethrow tr =
  (Ret a, (tr ++ [EvSdk c])%list).
Proof.
  intros Hsdk Hrest. unfold try_catch, bind, lift. by rewrite sdk_call_run, Hsdk, Hrest.
Qed.

(** X6.  A failure of the SDK call of a method is thrown on unchanged, after
    one error line in the log; [getMovies] and [playMedia], which start
    with [getLibraries] and [getDevices], throw the same error after a
    second line, and make no further request. *)
Theorem sdk_failure_is_thrown_on (up : Upstream) e tr :
  (sdk up Sdk.getAllLibraries = Throw e ->
     PlexClient.getLibraries up tr =
       (Throw e, (tr ++ [EvSdk Sdk.getAllLibraries; EvLog Error])%list) /\
     PlexClient.getMovies up tr =
       (Throw e, (tr ++ [EvSdk Sdk.getAllLibraries; EvLog Error; EvLog Error])%list)) /\
  (forall id, sdk up (Sdk.getMetadataChildren (parseInt_string id)) = Throw e ->
     PlexClient.getSeasons up id tr =
       (Throw e, (tr ++ [EvSdk (Sdk.getMetadataChildren (parseInt_string id));
                         EvLog Error])%list) /\
     PlexClient.getEpisodes up id tr =
       (Throw e, (tr ++ [EvSdk (Sdk.getMetadataChildren (parseInt_string id));
                         EvLog Error])%list)) /\
  (forall query, sdk up (Sdk.getSearchResults query) = Throw e ->
     PlexClient.search up query tr =
       (Throw e, (tr ++ [EvSdk (Sdk.getSearchResults query); EvLog Error])%list)) /\
  (forall filter, sdk up (Sdk.getWatchList filter) = Throw e ->
     PlexClient.getWatchList up filter tr =
       (Throw e, (tr ++ [EvLog Info; EvSdk (Sdk.getWatchList filter); EvLog Error])%list)) /\
  (sdk up Sdk.getDevices = Throw e ->
     PlexClient.getDevices up tr =
       (Throw e, (tr ++ [EvSdk Sdk.getDevices; EvLog Error])%list) /\
     forall mediaId deviceId,
       PlexClient.playMedia up mediaId deviceId tr =
         (Throw e, (tr ++ [EvSdk Sdk.getDevices; EvLog Error; EvLog Error])%list)).
Proof.
  split; [|split; [|split; [|split]]].
  - intros Hsdk.
    assert (Hlibraries : PlexClient.getLibraries up tr =
              (Throw e, (tr ++ [EvSdk Sdk.getAllLibraries; EvLog Error])%list))
      by by apply sdk_method_throws.
    split; [exact Hlibraries|].
    unfold PlexClient.getMovies.
    rewrite (try_rethrow_throws _ _ _ _ (bind_throws_at _ _ _ _ _ Hlibraries)).
    by rewrite <- app_assoc.
  - intros id Hsdk. split; by apply sdk_method_throws.
  - intros query Hsdk. by apply sdk_method_throws.
  - intros filter Hsdk. unfold PlexClient.getWatchList.
    rewrite (bind_continues _ _ _ tt (tr ++ [EvLog Info])%list) by reflexivity.
    unfold try_catch, bind. rewrite sdk_call_run, Hsdk, rethrow_run.
    by rewrite <- !app_assoc.
  - intros Hsdk.
    assert (Hdevices : PlexClient.getDevices up tr =
              (Throw e, (tr ++ [EvSdk Sdk.getDevices; EvLog Error])%list))
      by by apply sdk_method_throws.
    split; [exact Hdevices|].
    intros mediaId deviceId. unfold PlexClient.playMedia.
    rewrite (try_rethrow_throws _ _ _ _ (bind_throws_at _ _ _ _ _ Hdevices)).
    by rewrite <- app_assoc.
Qed.

Lemma sdk_failure_is_thrown_on_witness :
  PlexClient.getMovies (unreachable_server (ErrorObj "connect ECONNREFUSED")) [] =
    (Throw (ErrorObj "connect ECONNREFUSED"),
     [EvSdk Sdk.getAllLibraries; EvLog Error; EvLog Error]) /\
  PlexClient.getWatchList (unreachable_server (ErrorObj "connect ECONNREFUSED"))
    (Some "all") [] =
    (Throw (ErrorObj "connect ECONNREFUSED"),
     [EvLog Info; EvSdk (Sdk.getWatchList (Some "all")); EvLog Error]).
Proof.
  destruct (sdk_failure_is_thrown_on
              (unreachable_server (ErrorObj "connect ECONNREFUSED"))
              (ErrorObj "connect ECONNREFUSED") [])
    as (Hlibraries & _ & _ & Hwatchlist & _).
  split.
  - exact (proj2 (Hlibraries eq_refl)).
  - exact (Hwatchlist (Some "all") eq_refl).
Defined.

Lemma container_list_without response field :
  without_list response field -> PlexClient.container_list response field = Ret (VArr []).
Proof.
  intros (r & -> & Hcases). unfold PlexClient.container_list. simpl.
  fold (prop r "object").
  destruct Hcases as [Hobject | (object & Hobject & Hcases)].
  - unfold opt_chain. rewrite Hobject. reflexivity.
  - rewrite Hobject. simpl. fold (prop object "mediaContainer").
    destruct Hcases as [Hcontainer | (container & Hcontainer & Hlist)].
    + unfold opt_chain at 1. simpl.
      destruct (prop object "mediaContainer"); try discriminate; reflexivity.
    + rewrite Hcontainer. simpl. fold (prop container field).
      unfold js_or. by rewrite Hlist.
Qed.

(** X7.  [getSeasons], [getEpisodes], [search] and [getDevices] return the
    empty list, without an error, when the response of the SDK has no
    [object], no [mediaContainer] in it, or no list in the container. *)
Theorem missing_list_defaults_to_empty (up : Upstream) tr :
  (forall id response,
     sdk up (Sdk.getMetadataChildren (parseInt_string id)) = Ret response ->
     without_list response "metadata" ->
     PlexClient.getSeasons up id tr =
       (Ret (VArr []), (tr ++ [EvSdk (Sdk.getMetadataChildren (parseInt_string id))])%list) /\
     PlexClient.getEpisodes up id tr =
       (Ret (VArr []), (tr ++ [EvSdk (Sdk.getMetadataChildren (parseInt_string id))])%list)) /\
  (forall query response,
     sdk up (Sdk.getSearchResults query) = Ret response ->
     without_list response "metadata" ->
     PlexClient.search up query tr =
       (Ret (VArr []), (tr ++ [EvSdk (Sdk.getSearchResults query)])%list)) /\
  (forall response,
     sdk up Sdk.getDevices = Ret response ->
     without_list response "device" ->
     PlexClient.getDevices up tr = (Ret (VArr []), (tr ++ [EvSdk Sdk.getDevices])%list)).
Proof.
  split; [|split].
  - intros id response Hsdk Hwithout.
    split; eapply sdk_method_returns; eauto using container_list_without.
  - intros query response Hsdk Hwithout.
    eapply sdk_method_returns; eauto using container_list_without.
  - intros response Hsdk Hwithout.
    eapply sdk_method_returns; eauto using container_list_without.
Qed.

Lemma missing_list_defaults_to_empty_witness :
  PlexClient.getSeasons (answering (VObj {[ "object" := VObj ∅ ]})) "12" [] =
    (Ret (VArr []), [EvSdk (Sdk.getMetadataChildren (Some 12%Z))]) /\
  PlexClient.getDevices (answering (VObj ∅)) [] =
    (Ret (VArr []), [EvSdk Sdk.getDevices]).
Proof.
  destruct (missing_list_defaults_to_empty (answering (VObj {[ "object" := VObj ∅ ]})) [])
    as (Hchildren & _ & _).
  destruct (missing_list_defaults_to_empty (answering (VObj ∅)) []) as (_ & _ & Hdevices).
  split.
  - apply (Hchildren "12" _ eq_refl). eexists. split; [reflexivity|]. right.
    exists ∅. split; [vm_compute; reflexivity|]. by left.
  - apply (Hdevices _ eq_refl). eexists. split; [reflexivity|]. by left.
Defined.

(** X8.  [getLibraries] returns the [directory] of the container, and the
    empty list when the response has no [object]; but when the [object] is
    there without a [mediaContainer] it throws a [TypeError] (logged), where
    the other methods return the empty list. *)
Theorem libraries_need_a_container (up : Upstream) tr (r : gmap string jsval) :
  sdk up Sdk.getAllLibraries = Ret (VObj r) ->
  (nullish (prop r "object") = true ->
     PlexClient.getLibraries up tr =
       (Ret (VArr []), (tr ++ [EvSdk Sdk.getAllLibraries])%list)) /\
  (forall object : gmap string jsval,
     prop r "object" = VObj object ->
     nullish (prop object "mediaContainer") = true ->
     exists message,
       PlexClient.getLibraries up tr =
         (Throw (ErrorObj message),
          (tr ++ [EvSdk Sdk.getAllLibraries; EvLog Error])%list)) /\
  (forall object container : gmap string jsval,
     prop r "object" = VObj object ->
     prop object "mediaContainer" = VObj container ->
     PlexClient.getLibraries up tr =
       (Ret (js_or (prop container "directory") (VArr [])),
        (tr ++ [EvSdk Sdk.getAllLibraries])%list)).
Proof.
  intros Hsdk.
  assert (Hrun : PlexClient.getLibraries up tr =
            try_catch
              (directory <- lift (if nullish (prop r "object") then Ret VUndefined
                                  else obind (get_prop (prop r "object") "mediaContainer")
                                         (fun mc => get_prop mc "directory")) ;;
               ret (js_or directory (VArr [])))
              PlexClient.rethrow (tr ++ [EvSdk Sdk.getAllLibraries])%list).
  { unfold PlexClient.getLibraries, try_catch, bind. rewrite sdk_call_run, Hsdk.
    reflexivity. }
  rewrite Hrun. clear Hrun. split; [|split].
  - intros Hobject. rewrite Hobject. reflexivity.
  - intros object Hobject Hcontainer. rewrite Hobject. simpl.
    fold (prop object "mediaContainer").
    destruct (prop object "mediaContainer"); try discriminate; simpl;
      eexists; unfold try_catch, bind, lift; simpl; rewrite rethrow_run;
      rewrite <- app_assoc; reflexivity.
  - intros object container Hobject Hcontainer. rewrite Hobject. simpl.
    fold (prop object "mediaContainer"). rewrite Hcontainer. reflexivity.
Qed.

Lemma libraries_need_a_container_witness :
  (exists message,
     PlexClient.getLibraries (answering (VObj {[ "object" := VObj ∅ ]})) [] =
       (Throw (ErrorObj message), [EvSdk Sdk.getAllLibraries; EvLog Error])) /\
  PlexClient.getLibraries (answering (VObj ∅)) [] =
    (Ret (VArr []), [EvSdk Sdk.getAllLibraries]).
Proof.
  split.
  - destruct (libraries_need_a_container (answering (VObj {[ "object" := VObj ∅ ]})) []
                {[ "object" := VObj ∅ ]} eq_refl) as (_ & Hthrows & _).
    apply (Hthrows ∅); reflexivity.
  - destruct (libraries_need_a_container (answering (VObj ∅)) [] ∅ eq_refl)
      as (Hempty & _).
    apply Hempty. reflexivity.
Defined.

(** X9.  [getWatchList] returns the [metadata] found directly in the
    [object] of the response (the empty list when the response has no
    [object] or the object no [metadata]); a list nested in a
    [mediaContainer] is not looked at.  It writes two info lines. *)
Theorem watchlist_reads_object_metadata (up : Upstream) filter tr (r : gmap string jsval) :
  sdk up (Sdk.getWatchList filter) = Ret (VObj r) ->
  (truthy (prop r "object") = false ->
     PlexClient.getWatchList up filter tr =
       (Ret (VArr []),
        (tr ++ [EvLog Info; EvSdk (Sdk.getWatchList filter); EvLog Info])%list)) /\
  (forall object : gmap string jsval,
     prop r "object" = VObj object ->
     PlexClient.getWatchList up filter tr =
       (Ret (js_or (prop object "metadata") (VArr [])),
        (tr ++ [EvLog Info; EvSdk (Sdk.getWatchList filter); EvLog Info])%list) /\
     (object !! "metadata" = None ->
      PlexClient.getWatchList up filter tr =
        (Ret (VArr []),
         (tr ++ [EvLog Info; EvSdk (Sdk.getWatchList filter); EvLog Info])%list))).
Proof.
  intros Hsdk.
  assert (Hrun : PlexClient.getWatchList up filter tr =
            try_catch
              (responseObj <- lift (Ret (prop r "object")) ;;
               if negb (truthy responseObj) then ret (VArr [])
               else
                 metadata <- lift (get_prop responseObj "metadata") ;;
                 ret (js_or metadata (VArr [])))
              PlexClient.rethrow
              (tr ++ [EvLog Info; EvSdk (Sdk.getWatchList filter); EvLog Info])%list).
  { unfold PlexClient.getWatchList.
    rewrite (bind_continues _ _ _ tt (tr ++ [EvLog Info])%list) by reflexivity.
    unfold try_catch, bind. rewrite sdk_call_run, Hsdk. unfold log, emit.
    rewrite <- !app_assoc. reflexivity. }
  rewrite Hrun. clear Hrun. split.
  - intros Hobject. unfold try_catch, bind, lift. by rewrite Hobject.
  - intros object Hobject.
    assert (Hresult : try_catch
              (responseObj <- lift (Ret (prop r "object")) ;;
               if negb (truthy responseObj) then ret (VArr [])
               else
                 metadata <- lift (get_prop responseObj "metadata") ;;
                 ret (js_or metadata (VArr [])))
              PlexClient.rethrow
              (tr ++ [EvLog Info; EvSdk (Sdk.getWatchList filter); EvLog Info])%list =
            (Ret (js_or (prop object "metadata") (VArr [])),
             (tr ++ [EvLog Info; EvSdk (Sdk.getWatchList filter); EvLog Info])%list)).
    { unfold try_catch, bind, lift. by rewrite Hobject. }
    split; [exact Hresult|].
    intros Hnone. rewrite Hresult. unfold prop. by rewrite Hnone.
Qed.

Lemma watchlist_reads_object_metadata_witness :
  PlexClient.getWatchList
    (answering (VObj {[ "object" := VObj {[ "mediaContainer" :=
       VObj {[ "metadata" := VArr [MockPlexClient.the_matrix] ]} ]} ]}))
    (Some "all") [] =
  (Ret (VArr []), [EvLog Info; EvSdk (Sdk.getWatchList (Some "all")); EvLog Info]).
Proof.
  destruct (watchlist_reads_object_metadata
              (answering (VObj {[ "object" := VObj {[ "mediaContainer" :=
                 VObj {[ "metadata" := VArr [MockPlexClient.the_matrix] ]} ]} ]}))
              (Some "all") []
              {[ "object" := VObj {[ "mediaContainer" :=
                   VObj {[ "metadata" := VArr [MockPlexClient.the_matrix] ]} ]} ]}
              eq_refl) as [_ Hobject].
  destruct (Hobject {[ "mediaContainer" :=
                         VObj {[ "metadata" := VArr [MockPlexClient.the_matrix] ]} ]}
              eq_refl) as [_ Hnone].
  apply Hnone. vm_compute. reflexivity.
Defined.

(** ** PlexClient: the request for library contents *)

(** The run of [getLibraryContents] from any history: one request, then the
    outcome the answer determines, with one error line when it throws. *)
Lemma getLibraryContents_run (up : Upstream) libraryId type tag start size :
  exists o,
    forall tr,
      PlexClient.getLibraryContents up libraryId type tag start size tr =
        (o, (tr ++ EvFetch (FetchLibraryAll (parseInt libraryId) type start size) ::
                   match o with Ret _ => [] | Throw _ => [EvLog Error] end)%list).
Proof.
  unfold PlexClient.getLibraryContents, try_catch, bind. 
  setoid_rewrite do_fetch_run.
  destruct (fetch up (FetchLibraryAll (parseInt libraryId) type start size))
    as [response|e].
  2: { exists (Throw e). intros tr. rewrite rethrow_run, <- app_assoc. reflexivity. }
  destruct (ok response); simpl.
  2: { exists (Throw (ErrorObj ("Failed to fetch library contents: " +:+
                                  statusText response))).
       intros tr. unfold throw. rewrite rethrow_run, <- app_assoc. reflexivity. }
  unfold lift.
  destruct (json response) as [data|e].
  2: { exists (Throw e). intros tr. rewrite rethrow_run, <- app_assoc. reflexivity. }
  destruct (get_prop data "MediaContainer") as [container|e].
  2: { exists (Throw e). intros tr. rewrite rethrow_run, <- app_assoc. reflexivity. }
  destruct (opt_chain container "Metadata") as [metadata|e].
  2: { exists (Throw e). intros tr. rewrite rethrow_run, <- app_assoc. reflexivity. }
  destruct (opt_chain container "totalSize") as [reported|e].
  2: { exists (Throw e). intros tr. rewrite rethrow_run, <- app_assoc. reflexivity. }
  destruct (if truthy reported then Ret reported
            else get_prop (js_or metadata (VArr [])) "length") as [total|e].
  2: { exists (Throw e). intros tr. rewrite rethrow_run, <- app_assoc. reflexivity. }
  exists (Ret {| items := js_or metadata (VArr []); totalSize := total |}).
  intros tr. reflexivity.
Qed.

(** X10.  Whatever the server answers, [getLibraryContents] makes exactly
    one request (no retry), writes one error line exactly when it throws,
    and its outcome does not depend on what happened before the call nor
    on the tag. *)
Theorem library_contents_one_request (up : Upstream) libraryId type tag start size tr :
  exists o,
    PlexClient.getLibraryContents up libraryId type tag start size tr =
      (o, (tr ++ EvFetch (FetchLibraryAll (parseInt libraryId) type start size) ::
                 match o with Ret _ => [] | Throw _ => [EvLog Error] end)%list) /\
    forall tag' tr',
      fst (PlexClient.getLibraryContents up libraryId type tag' start size tr') = o.
Proof.
  destruct (getLibraryContents_run up libraryId type tag start size) as [o Hrun].
  exists o. split; [apply Hrun|].
  intros tag' tr'. change (PlexClient.getLibraryContents up libraryId type tag' start size tr')
    with (PlexClient.getLibraryContents up libraryId type tag start size tr').
  by rewrite Hrun.
Qed.

(** The answer of get-library-contents is determined by the outcome of the
    client call. *)
Lemma library_contents_answer (o : outcome LibraryContents) :
  exists res extra,
    forall (plexClient : IPlexClient) libraryId type tag start size tr tr1,
      Interface.getLibraryContents plexClient (VStr libraryId) (default 1%Z type)
        (tagEnum (default "newest" tag)) (default 0%Z start) (default 20%Z size)
        (tr ++ before_call (GetLibraryContents libraryId type tag start size))%list
      = (o, tr1) ->
      get_library_contents plexClient libraryId type tag start size tr =
        (Ret res, (tr1 ++ extra)%list).
Proof.
  destruct o as [result|e].
  - destruct (map_items reshape_item (items result)) as [mediaItems|e] eqn:Hmedia.
    + destruct (map_items normalize_item (items result)) as [metadata|e] eqn:Hmeta.
      * eexists _, []. intros. unfold get_library_contents, try_catch.
        rewrite (delegation_returns _ _ _ _ _ _ H). unfold bind, lift.
        rewrite Hmedia, Hmeta. by rewrite app_nil_r.
      * eexists _, [EvLog Error]. intros. unfold get_library_contents.
        apply try_report_throws. rewrite (delegation_returns _ _ _ _ _ _ H).
        unfold bind, lift. by rewrite Hmedia, Hmeta.
    + eexists _, [EvLog Error]. intros. unfold get_library_contents.
      apply try_report_throws. rewrite (delegation_returns _ _ _ _ _ _ H).
      unfold bind, lift. by rewrite Hmedia.
  - eexists _, [EvLog Error]. intros. unfold get_library_contents.
    apply try_report_throws. by apply delegation_throws.
Qed.

(** X11.  With [PlexClient] as the client, an HTTP error status of the
    server reaches the caller of get-library-contents as the error result
    "Error getting library contents: Failed to fetch library contents:
    <status text>"; the failure is logged by the client and by the tool. *)
Theorem http_error_reaches_the_tool (up : Upstream) libraryId type tag start size tr response :
  fetch up (FetchLibraryAll (parseInt_string libraryId) (default 1%Z type)
              (default 0%Z start) (default 20%Z size)) = Ret response ->
  ok response = false ->
  get_library_contents (PlexClient.client up) libraryId type tag start size tr =
    (Ret {| text := Message ("Error getting library contents: " +:+
                             "Failed to fetch library contents: " +:+ statusText response);
            isError := true |},
     (tr ++ [EvLog Info;
             EvInvoke (client_call_of (GetLibraryContents libraryId type tag start size));
             EvFetch (FetchLibraryAll (parseInt_string libraryId) (default 1%Z type)
                        (default 0%Z start) (default 20%Z size));
             EvLog Error; EvLog Error])%list).
Proof.
  intros Hfetch Hok. unfold get_library_contents.
  rewrite (try_report_throws _ _ _
             (ErrorObj ("Failed to fetch library contents: " +:+ statusText response))
             (tr ++ [EvLog Info;
                     EvInvoke (client_call_of (GetLibraryContents libraryId type tag start size));
                     EvFetch (FetchLibraryAll (parseInt_string libraryId) (default 1%Z type)
                                (default 0%Z start) (default 20%Z size));
                     EvLog Error])%list).
  - rewrite <- app_assoc. reflexivity.
  - apply delegation_throws. simpl.
    unfold PlexClient.getLibraryContents, try_catch, bind. rewrite do_fetch_run. simpl.
    rewrite Hfetch, Hok. simpl. unfold throw. rewrite rethrow_run.
    rewrite <- !app_assoc. reflexivity.
Qed.

Lemma http_error_reaches_the_tool_witness :
  get_library_contents
    (PlexClient.client
       {| sdk := fun _ => Throw (ErrorObj "not used");
          fetch := fun _ => Ret {| ok := false; statusText := "Not Found";
                                   json := Ret VNull |} |})
    "9" None None None None [] =
  (Ret {| text := Message "Error getting library contents: Failed to fetch library contents: Not Found";
          isError := true |},
   [EvLog Info; EvInvoke (CallGetLibraryContents (VStr "9") 1 Tag.Newest 0 20);
    EvFetch (FetchLibraryAll (Some 9%Z) 1 0 20); EvLog Error; EvLog Error]).
Proof.
  apply (http_error_reaches_the_tool
           {| sdk := fun _ => Throw (ErrorObj "not used");
              fetch := fun _ => Ret {| ok := false; statusText := "Not Found";
                                       json := Ret VNull |} |}
           "9" None None None None []
           {| ok := false; statusText := "Not Found"; json := Ret VNull |});
    reflexivity.
Defined.

(** X12.  With [PlexClient] as the client, the tag given to
    get-library-contents has no effect on the request sent to the server
    nor on the answer of the tool: for all tags the answer is the same, and
    so are the events after the call of the client. *)
Theorem tag_has_no_effect_on_the_server (up : Upstream) libraryId type start size tr :
  exists res rest,
    forall tag,
      get_library_contents (PlexClient.client up) libraryId type tag start size tr =
        (Ret res,
         (tr ++ [EvLog Info;
                 EvInvoke (client_call_of (GetLibraryContents libraryId type tag start size));
                 EvFetch (FetchLibraryAll (parseInt_string libraryId) (default 1%Z type)
                            (default 0%Z start) (default 20%Z size))] ++ rest)%list).
Proof.
  destruct (getLibraryContents_run up (VStr libraryId) (default 1%Z type) Tag.Newest
              (default 0%Z start) (default 20%Z size)) as [o Hrun].
  destruct (library_contents_answer o) as (res & extra & Hanswer).
  exists res, (match o with Ret _ => [] | Throw _ => [EvLog Error] end ++ extra)%list.
  intros tag.
  rewrite (Hanswer (PlexClient.client up) libraryId type tag start size tr
             ((tr ++ before_call (GetLibraryContents libraryId type tag start size)) ++
              EvFetch (FetchLibraryAll (parseInt_string libraryId) (default 1%Z type)
                         (default 0%Z start) (default 20%Z size)) ::
              match o with Ret _ => [] | Throw _ => [EvLog Error] end)%list).
  - unfold before_call. rewrite <- !app_assoc. reflexivity.
  - apply Hrun.
Qed.

(** ** PlexClient: movies *)

Lemma filter_outcome_kept {A} (p : A -> outcome bool) l l' :
  filter_outcome p l = Ret l' -> Forall (fun x => p x = Ret true) l'.
Proof.
  revert l'. induction l as [|x l IH]; simpl; intros l'.
  - intros [= <-]. constructor.
  - destruct (p x) as [b|e] eqn:Hx; simpl; [|discriminate].
    destruct (filter_outcome p l) as [ys|e]; simpl; [|discriminate].
    intros [= <-]. destruct b; [constructor|]; auto.
Qed.

Lemma is_movie_true item :
  PlexClient.is_movie item = Ret true -> get_prop item "type" = Ret (VStr "movie").
Proof.
  unfold PlexClient.is_movie. destruct (get_prop item "type") as [t|e]; simpl; [|discriminate].
  intros [= Heq]. apply strict_eq_str_true in Heq. by subst.
Qed.

Lemma try_rethrow_returned {A} (body : M A) tr a tr' :
  try_catch body PlexClient.rethrow tr = (Ret a, tr') -> body tr = (Ret a, tr').
Proof.
  unfold try_catch. destruct (body tr) as [[a0|e] tr1]; [done|].
  rewrite rethrow_run. discriminate.
Qed.

(** X13.  Whatever the libraries hold, every item [getMovies] returns has
    the type ['movie']. *)
Theorem getMovies_returns_movies_only (up : Upstream) tr v tr' :
  PlexClient.getMovies up tr = (Ret v, tr') ->
  exists movies,
    v = VArr movies /\
    Forall (fun item => get_prop item "type" = Ret (VStr "movie")) movies.
Proof.
  unfold PlexClient.getMovies. intros Hrun. apply try_rethrow_returned in Hrun.
  step_bind Hrun. step_bind Hrun. step_bind Hrun.
  destruct (length a1 =? 0)%nat.
  - step_bind Hrun. injection Hrun as <- _. exists []. split; [reflexivity | constructor].
  - step_bind Hrun. step_bind Hrun. step_bind Hrun. injection Hrun as <- _.
    apply lift_returns in Hstep4 as [Hfilter _].
    eexists. split; [reflexivity|].
    eapply Forall_impl; [exact (filter_outcome_kept _ _ _ Hfilter)|].
    apply is_movie_true.
Qed.

Lemma getMovies_returns_movies_only_witness :
  exists movies,
    fst (PlexClient.getMovies home_server []) = Ret (VArr movies) /\
    length movies = 6 /\
    Forall (fun item => get_prop item "type" = Ret (VStr "movie")) movies.
Proof.
  set (run := PlexClient.getMovies home_server []).
  set (v := match fst run with Ret v => v | Throw _ => VNull end).
  assert (Hrun : run = (Ret v, snd run)) by (vm_compute; reflexivity).
  destruct (getMovies_returns_movies_only home_server [] v (snd run) Hrun)
    as (movies & Hv & Hall).
  exists movies. split; [by rewrite Hrun, Hv|]. split; [|exact Hall].
  assert (Hlen : match v with VArr l => length l | _ => 0 end = 6)
    by (vm_compute; reflexivity).
  by rewrite Hv in Hlen.
Defined.

(** ** PlexClient: playback *)

Lemma getDevices_returned (up : Upstream) tr devices tr' :
  PlexClient.getDevices up tr = (Ret devices, tr') ->
  tr' = (tr ++ [EvSdk Sdk.getDevices])%list.
Proof.
  unfold PlexClient.getDevices. intros Hrun. apply try_rethrow_returned in Hrun.
  step_bind Hrun. rewrite sdk_call_run in Hstep. injection Hstep as _ <-.
  by apply lift_returns in Hrun as [_ ->].
Qed.

(** X14.  [playMedia] returns only when the server has a device with the
    identifier, the media lookup gave a first item and the playback request
    was answered with [ok]; it has then made exactly these three calls, in
    this order, and logged one information line. *)
Theorem playMedia_returns_after_playback (up : Upstream) mediaId deviceId tr tr' :
  PlexClient.playMedia up mediaId deviceId tr = (Ret tt, tr') ->
  exists devices device found first playResponse,
    PlexClient.getDevices up tr = (Ret (VArr devices), (tr ++ [EvSdk Sdk.getDevices])%list) /\
    find_outcome (PlexClient.has_client_identifier deviceId) devices = Ret device /\
    truthy device = true /\
    sdk up (Sdk.getLibraryItems (parseInt_string mediaId) 1 Tag.Newest) = Ret found /\
    PlexClient.first_metadata found = Ret first /\
    truthy first = true /\
    fetch up (FetchPlayMedia deviceId ("/library/metadata/" +:+ mediaId)) = Ret playResponse /\
    ok playResponse = true /\
    tr' = (tr ++ [EvSdk Sdk.getDevices;
                  EvSdk (Sdk.getLibraryItems (parseInt_string mediaId) 1 Tag.Newest);
                  EvFetch (FetchPlayMedia deviceId ("/library/metadata/" +:+ mediaId));
                  EvLog Info])%list.
Proof.
  unfold PlexClient.playMedia. intros Hrun. apply try_rethrow_returned in Hrun.
  step_bind Hrun. pose proof (getDevices_returned _ _ _ _ Hstep) as ->.
  step_bind Hrun. apply lift_returns in Hstep0 as [Hdevs ->].
  step_bind Hrun. apply lift_returns in Hstep0 as [Hfind ->].
  destruct (truthy a1) eqn:Hdevice; simpl in Hrun; [|discriminate].
  step_bind Hrun. rewrite sdk_call_run in Hstep0. injection Hstep0 as Hfound <-.
  step_bind Hrun. apply lift_returns in Hstep0 as [Hfirst ->].
  destruct (truthy a3) eqn:Hitem; simpl in Hrun; [|discriminate].
  step_bind Hrun. rewrite do_fetch_run in Hstep0. injection Hstep0 as Hplay <-.
  destruct (ok a4) eqn:Hok; simpl in Hrun; [|discriminate].
  apply emit_returns in Hrun as ->.
  destruct a; try discriminate. injection Hdevs as <-.
  exists l, a1, a2, a3, a4. rewrite <- !app_assoc. auto 10.
Qed.

Lemma playMedia_returns_after_playback_witness :
  exists devices device found first playResponse,
    PlexClient.getDevices home_server [] = (Ret (VArr devices), [EvSdk Sdk.getDevices]) /\
    find_outcome (PlexClient.has_client_identifier "tv-1") devices = Ret device /\
    truthy device = true /\
    sdk home_server (Sdk.getLibraryItems (parseInt_string "101") 1 Tag.Newest) = Ret found /\
    PlexClient.first_metadata found = Ret first /\
    truthy first = true /\
    fetch home_server (FetchPlayMedia "tv-1" "/library/metadata/101") = Ret playResponse /\
    ok playResponse = true /\
    snd (PlexClient.playMedia home_server "101" "tv-1" []) =
      [EvSdk Sdk.getDevices; EvSdk (Sdk.getLibraryItems (Some 101%Z) 1 Tag.Newest);
       EvFetch (FetchPlayMedia "tv-1" "/library/metadata/101"); EvLog Info].
Proof.
  set (run := PlexClient.playMedia home_server "101" "tv-1" []).
  assert (Hrun : run = (Ret tt, snd run)) by (vm_compute; reflexivity).
  destruct (playMedia_returns_after_playback home_server "101" "tv-1" [] (snd run) Hrun)
    as (devices & device & found & first & playResponse & H1 & H2 & H3 & H4 & H5 & H6 &
        H7 & H8 & H9).
  exists devices, device, found, first, playResponse. auto 10.
Defined.

(** ** PlexClient: the requests of [getMovies] *)

Lemma requests_app evs evs' :
  requests (evs ++ evs') = (requests evs ++ requests evs')%list.
Proof. apply omap_app. Qed.

Lemma is_movie_obj lib : PlexClient.is_movie (VObj lib) = Ret (movie_library lib).
Proof. unfold PlexClient.is_movie. by rewrite get_prop_obj. Qed.

Lemma filter_movie_libraries (libs : list (gmap string jsval)) :
  filter_outcome PlexClient.is_movie (VObj <$> libs) =
  Ret (VObj <$> List.filter movie_library libs).
Proof.
  induction libs as [|lib libs IH]; [reflexivity|].
  rewrite fmap_cons. cbn [filter_outcome List.filter].
  rewrite is_movie_obj, IH. simpl. by destruct (movie_library lib).
Qed.

Lemma keys_of_libraries (libs : list (gmap string jsval)) :
  map_outcome (fun lib => get_prop lib "key") (VObj <$> libs) =
  Ret ((fun lib => prop lib "key") <$> libs).
Proof.
  induction libs as [|lib libs IH]; [reflexivity|].
  rewrite !fmap_cons. cbn [map_outcome]. by rewrite get_prop_obj, IH.
Qed.

(** The requests of [Promise.all] over library contents: one per key, in
    the order of the keys, whatever the answers. *)
Lemma promise_all_library_contents (up : Upstream) (keys : list jsval) tr :
  exists o evs,
    promise_all (map (fun key => PlexClient.getLibraryContents up key 1 Tag.Newest 0 20) keys) tr
    = (o, (tr ++ evs)%list) /\
    requests evs = map (fun key => FetchLibraryAll (parseInt key) 1 0 20) keys.
Proof.
  revert tr. induction keys as [|key keys IH]; intros tr.
  - exists (Ret []), []. by rewrite app_nil_r.
  - destruct (getLibraryContents_run up key 1 Tag.Newest 0 20) as [o Hrun].
    simpl. rewrite Hrun.
    match goal with |- context [promise_all _ ?t] => destruct (IH t) as (os & evs & -> & Hevs) end.
    eexists _, _. rewrite <- app_assoc. split; [reflexivity|].
    simpl. rewrite requests_app, Hevs. by destruct o.
Qed.

(** X15.  When the libraries are objects, [getMovies] requests the contents
    of each library of type ['movie'], in the order of the libraries, with
    type 1, start 0 and size 20 under the number [parseInt(lib.key, 10)],
    and makes no other HTTP request, whatever the answers are. *)
Theorem getMovies_requests_movie_libraries (up : Upstream)
    (libs : list (gmap string jsval)) tr tr1 :
  PlexClient.getLibraries up tr = (Ret (VArr (VObj <$> libs)), tr1) ->
  exists o evs,
    PlexClient.getMovies up tr = (o, (tr1 ++ evs)%list) /\
    requests evs =
      map (fun lib => FetchLibraryAll (parseInt (prop lib "key")) 1 0 20)
          (List.filter movie_library libs).
Proof.
  intros Hlibs. unfold PlexClient.getMovies, try_catch.
  rewrite (bind_continues _ _ _ _ _ Hlibs).
  unfold bind at 1. unfold lift at 1. simpl array_receiver. cbv iota beta.
  unfold bind at 1. unfold lift at 1. rewrite filter_movie_libraries. cbv iota beta.
  rewrite length_fmap.
  destruct (List.filter movie_library libs) as [|lib movieLibraries] eqn:Hfilter.
  - simpl. eexists _, [EvLog Warn]. split; reflexivity.
  - rewrite <- Hfilter. replace (length _ =? 0)%nat with false by (by rewrite Hfilter).
    unfold bind at 1. unfold lift at 1. rewrite keys_of_libraries. cbv iota beta.
    destruct (promise_all_library_contents up
                ((fun lib => prop lib "key") <$> List.filter movie_library libs) tr1)
      as (o & evs & Hall & Hevs).
    rewrite map_map in Hevs.
    unfold bind at 1. rewrite Hall. destruct o as [movieResults|e].
    + unfold bind, lift.
      destruct (filter_outcome _ _) as [allMovies|e].
      * eexists _, evs. split; [reflexivity | exact Hevs].
      * rewrite rethrow_run, <- app_assoc. eexists _, _. split; [reflexivity|].
        rewrite requests_app, Hevs. apply app_nil_r.
    + rewrite rethrow_run, <- app_assoc. eexists _, _. split; [reflexivity|].
      rewrite requests_app, Hevs. apply app_nil_r.
Qed.

Lemma getMovies_requests_movie_libraries_witness :
  exists o evs,
    PlexClient.getMovies home_server [] = (o, (EvSdk Sdk.getAllLibraries :: evs)%list) /\
    requests evs = [FetchLibraryAll (Some 1%Z) 1 0 20].
Proof.
  destruct (getMovies_requests_movie_libraries home_server
              [movies_library; shows_library] [] [EvSdk Sdk.getAllLibraries])
    as (o & evs & Hrun & Hevs).
  - vm_compute. reflexivity.
  - exists o, evs. split; [exact Hrun|].
    rewrite Hevs. vm_compute. reflexivity.
Defined.

(** ** MockPlexClient: pages *)

Lemma slice_nonneg {A} (l : list A) start n :
  (0 <= start)%Z -> (0 <= n)%Z ->
  slice l start (start + n) = take (Z.to_nat n) (drop (Z.to_nat start) l).
Proof.
  intros Hstart Hn. unfold slice, relative_index.
  destruct (Z.ltb_spec start 0) as [|_]; [lia|].
  destruct (Z.ltb_spec (start + n) 0) as [|_]; [lia|].
  destruct (Z_le_gt_dec start (Z.of_nat (length l))) as [Hin|Hout].
  - rewrite (Z.min_l start) by lia.
    destruct (Z_le_gt_dec (start + n) (Z.of_nat (length l))) as [Hfull|Hshort].
    + rewrite Z.min_l by lia. f_equal. lia.
    + rewrite Z.min_r by lia. rewrite !take_ge; [reflexivity | |]; rewrite length_drop; lia.
  - rewrite !drop_ge by lia. by rewrite !take_nil.
Qed.

Lemma mock_page libraryId type tag start size tr :
  MockPlexClient.getLibraryContents libraryId type tag start size tr =
  (Ret {| items := VArr (slice MockPlexClient.contents start (start + size));
          totalSize := num_of_nat 7 |}, (tr ++ [EvConsole])%list).
Proof. reflexivity. Qed.

(** X16.  The mock client's pages fit together: with a start and sizes that
    are not negative, the page of size [n] at [start] followed by the page
    of size [m] at [start + n] is the page of size [n + m] at [start]. *)
Theorem mock_pages_fit_together libraryId type tag start n m tr :
  (0 <= start)%Z -> (0 <= n)%Z -> (0 <= m)%Z ->
  exists first second,
    let page l := (Ret {| items := VArr l; totalSize := num_of_nat 7 |},
                   (tr ++ [EvConsole])%list) in
    MockPlexClient.getLibraryContents libraryId type tag start n tr = page first /\
    MockPlexClient.getLibraryContents libraryId type tag (start + n) m tr = page second /\
    MockPlexClient.getLibraryContents libraryId type tag start (n + m) tr =
      page (first ++ second)%list.
Proof.
  intros Hstart Hn Hm. rewrite !mock_page. eexists _, _.
  split; [reflexivity|]. split; [reflexivity|]. simpl. do 3 f_equal.
  rewrite !slice_nonneg by lia.
  rewrite Z2Nat.inj_add by lia. rewrite <- take_take_drop, drop_drop.
  by rewrite (Z2Nat.inj_add start n) by lia.
Qed.

Lemma mock_pages_fit_together_witness :
  exists first second,
    MockPlexClient.getLibraryContents (VStr "1") 1 Tag.Newest 2 3 [] =
      (Ret {| items := VArr first; totalSize := num_of_nat 7 |}, [EvConsole]) /\
    MockPlexClient.getLibraryContents (VStr "1") 1 Tag.Newest 5 4 [] =
      (Ret {| items := VArr second; totalSize := num_of_nat 7 |}, [EvConsole]) /\
    MockPlexClient.getLibraryContents (VStr "1") 1 Tag.Newest 2 7 [] =
      (Ret {| items := VArr (first ++ second)%list; totalSize := num_of_nat 7 |},
       [EvConsole]) /\
    length first = 3 /\ length second = 2.
Proof.
  destruct (mock_pages_fit_together (VStr "1") 1 Tag.Newest 2 3 4 [])
    as (first & second & H1 & H2 & H3); [lia | lia | lia |].
  exists first, second. split; [exact H1|]. split; [exact H2|]. split; [exact H3|].
  rewrite mock_page in H1, H2. injection H1 as <-. injection H2 as <-.
  split; reflexivity.
Defined.

(** X17.  With a start and a size that are not negative, the mock client's
    page has exactly [min(size, 7 - start)] items, and none when the start
    is 7 or more. *)
Theorem mock_page_size libraryId type tag start size tr result tr' :
  (0 <= start)%Z -> (0 <= size)%Z ->
  MockPlexClient.getLibraryContents libraryId type tag start size tr = (Ret result, tr') ->
  exists page,
    items result = VArr page /\
    Z.of_nat (length page) = Z.max 0 (Z.min size (7 - start)).
Proof.
  intros Hstart Hsize. rewrite mock_page. intros [= <- _]. eexists. split; [reflexivity|].
  rewrite slice_nonneg by lia. rewrite length_take, length_drop.
  change (length MockPlexClient.contents) with 7. lia.
Qed.

Lemma mock_page_size_witness :
  exists page,
    fst (MockPlexClient.getLibraryContents (VStr "1") 1 Tag.Newest 5 20 []) =
      Ret {| items := VArr page; totalSize := num_of_nat 7 |} /\
    Z.of_nat (length page) = 2%Z.
Proof.
  destruct (mock_page_size (VStr "1") 1 Tag.Newest 5 20 [] _ _ ltac:(lia) ltac:(lia)
              (mock_page (VStr "1") 1 Tag.Newest 5 20 []))
    as (page & Hitems & Hlen).
  exists page. split; [|exact Hlen].
  rewrite mock_page. simpl in *. by rewrite Hitems.
Defined.

(** ** MockPlexClient: search *)

Lemma toLowerCase_empty s : String.eqb (toLowerCase s) "" = String.eqb s "".
Proof. by destruct s. Qed.

(** X18.  The mock client's search is blind to the case of the query: two
    queries with the same lower-case form are answered alike. *)
Theorem mock_search_ignores_case query query' tr :
  toLowerCase query = toLowerCase query' ->
  MockPlexClient.search query tr = MockPlexClient.search query' tr.
Proof.
  intros Hlower. unfold MockPlexClient.search, MockPlexClient.title_includes.
  rewrite <- (toLowerCase_empty query), <- (toLowerCase_empty query'), Hlower.
  reflexivity.
Qed.

Lemma mock_search_ignores_case_witness :
  MockPlexClient.search "LETHAL weapon" [] = MockPlexClient.search "lethal Weapon" [] /\
  exists found, fst (MockPlexClient.search "LETHAL weapon" []) = Ret (VArr found) /\
                length found = 2.
Proof.
  split.
  - apply (mock_search_ignores_case "LETHAL weapon" "lethal Weapon" []). reflexivity.
  - eexists. split; [vm_compute; reflexivity | reflexivity].
Defined.

(** ** The HTTP endpoints after a connection *)

Lemma serve_posts_keep_state reqs : forall st,
  Forall (fun req => Http.is_get_sse req = false) reqs ->
  fst (Http.serve st reqs) = st.
Proof.
  induction reqs as [|req reqs IH]; intros st Hposts; [reflexivity|].
  apply Forall_cons in Hposts as [Hreq Hposts].
  destruct req as [|body]; [discriminate|].
  rewrite serve_cons, handle_post.
  specialize (IH st Hposts).
  destruct (Http.serve st reqs); exact IH.
Qed.

Lemma serve_created reqs : forall st,
  Http.created (fst (Http.serve st reqs)) =
  Http.created st + length (List.filter Http.is_get_sse reqs).
Proof.
  induction reqs as [|req reqs IH]; intros st; [simpl; lia|].
  destruct req as [|body].
  - specialize (IH {| Http.sseTransport := Some (Http.created st);
                      Http.created := S (Http.created st) |}).
    simpl. destruct (Http.serve _ reqs). simpl in *. lia.
  - rewrite serve_cons, handle_post. specialize (IH st).
    simpl. destruct (Http.serve st reqs); exact IH.
Qed.

(** X19.  Once a GET to [/sse] has been handled, a POST to [/messages]
    whose body gets past the JSON middleware is handed, with the parsed
    body, to the transport of the latest such GET (transports are numbered
    in the order of their creation) and is not answered by the endpoint
    itself, whatever came before that GET; a POST the middleware turns
    down is answered by the middleware and handed to no transport. *)
Theorem post_goes_to_latest_connection (before between : list Http.request) body :
  Forall (fun req => Http.is_get_sse req = false) between ->
  exists st done,
    Http.serve Http.initial
      (before ++ Http.GetSse :: between ++ [Http.PostMessages body]) =
      (st, (done ++ [match Http.express_json body with
                     | Http.Body v =>
                         Http.HandlePostMessage
                           (length (List.filter Http.is_get_sse before)) v
                     | Http.Refused status => Http.RespondError status
                     end])%list) /\
    Http.sseTransport st = Some (length (List.filter Http.is_get_sse before)).
Proof.
  intros Hposts.
  rewrite serve_app.
  pose proof (serve_created before Http.initial) as Hcreated.
  destruct (Http.serve Http.initial before) as [st0 done0]. simpl in Hcreated.
  set (connected := {| Http.sseTransport := Some (Http.created st0);
                       Http.created := S (Http.created st0) |}).
  change (Http.serve st0 (Http.GetSse :: between ++ [Http.PostMessages body])) with
    (let '(st2, done2) := Http.serve connected (between ++ [Http.PostMessages body]) in
     (st2, ([Http.Connect (Http.created st0)] ++ done2)%list)).
  rewrite serve_app.
  pose proof (serve_posts_keep_state between connected Hposts) as Hkeep.
  destruct (Http.serve connected between) as [st1 done1]. simpl in Hkeep.
  subst st1. rewrite serve_cons, handle_post. simpl. rewrite <- Hcreated.
  exists connected, (done0 ++ Http.Connect (Http.created st0) :: done1)%list.
  split; [|reflexivity].
  f_equal. rewrite <- !app_assoc. simpl. by destruct (Http.express_json body).
Qed.

Lemma post_goes_to_latest_connection_witness :
  exists st done,
    Http.serve Http.initial
      [Http.PostMessages Http.NoJson; Http.GetSse; Http.GetSse;
       Http.PostMessages (Http.Json VNull);
       Http.PostMessages (Http.Json (VObj {[ "method" := VStr "ping" ]}))] =
      (st, (done ++ [Http.HandlePostMessage 1 (VObj {[ "method" := VStr "ping" ]})])%list) /\
    Http.sseTransport st = Some 1 /\
    done = [Http.Respond 400 (VObj {[ "error" := VStr "No active SSE connection" ]});
            Http.Connect 0; Http.Connect 1; Http.RespondError 400].
Proof.
  destruct (post_goes_to_latest_connection [Http.PostMessages Http.NoJson; Http.GetSse]
              [Http.PostMessages (Http.Json VNull)]
              (Http.Json (VObj {[ "method" := VStr "ping" ]})))
    as (st & done & Hrun & Hst).
  { constructor; [reflexivity | constructor]. }
  exists st, done. split; [exact Hrun|]. split; [exact Hst|].
  injection Hrun as _ Hrun.
  apply (app_inj_tail
           [Http.Respond 400 (VObj {[ "error" := VStr "No active SSE connection" ]});
            Http.Connect 0; Http.Connect 1; Http.RespondError 400]) in Hrun as [Hdone _].
  by symmetry.
Defined.

(** ** Start-up *)

Lemma or_else_missing a b : missing a -> or_else a b = b.
Proof. by intros [-> | ->]. Qed.

Lemma or_else_set s b : s <> "" -> or_else (Some s) b = s.
Proof. intros Hs. simpl. by apply String.eqb_neq in Hs as ->. Qed.

Lemma missing_or_set (a : option string) :
  missing a \/ exists s, a = Some s /\ s <> "".
Proof.
  destruct a as [s|]; [|left; by left].
  destruct (String.eqb_spec s ""); [left; right; by subst | right; eauto].
Qed.

(** X20.  [new PlexClient(options)] holds a token that is not empty: the
    token of the options or, when that is unset or empty, [PLEX_TOKEN]; it
    throws "Plex token is required..." exactly when both are unset or
    empty.  The URL follows the same order, ending at
    [http://localhost:32400]. *)
Theorem constructor_needs_a_token (options : ClientOptions) (env : Env) :
  match new_PlexClient options env with
  | Ret config =>
      accessToken config <> "" /\
      (token options = Some (accessToken config) \/
       missing (token options) /\ PLEX_TOKEN env = Some (accessToken config)) /\
      serverUrl config =
        or_else (baseUrl options) (or_else (PLEX_URL env) "http://localhost:32400")
  | Throw e =>
      e = token_required /\ missing (token options) /\ missing (PLEX_TOKEN env)
  end.
Proof.
  unfold new_PlexClient.
  destruct (missing_or_set (token options)) as [Hoption | (s & Hoption & Hs)].
  - rewrite (or_else_missing _ _ Hoption).
    destruct (missing_or_set (PLEX_TOKEN env)) as [Henv | (s & Henv & Hs)].
    + rewrite (or_else_missing _ _ Henv). simpl. by repeat split.
    + rewrite Henv, (or_else_set _ _ Hs).
      apply String.eqb_neq in Hs as Heq. rewrite Heq. simpl. auto.
  - rewrite Hoption, (or_else_set _ _ Hs).
    apply String.eqb_neq in Hs as Heq. rewrite Heq. simpl. auto.
Qed.

(** X21.  The start-up uses the mock client exactly when [USE_MOCK_PLEX] is
    the string ['true'], whatever the token; otherwise it builds a
    [PlexClient] from [PLEX_TOKEN] and [PLEX_URL], and without a token it
    throws the constructor's error on, with nothing logged and no fall-back
    to the mock client. *)
Theorem start_up_selects_the_client (env : Env) tr :
  (USE_MOCK_PLEX env = Some "true" ->
   select_client env tr = (Ret UseMockPlexClient, (tr ++ [EvLog Info])%list)) /\
  (USE_MOCK_PLEX env <> Some "true" -> missing (PLEX_TOKEN env) ->
   select_client env tr = (Throw token_required, tr)) /\
  (USE_MOCK_PLEX env <> Some "true" ->
   forall s, PLEX_TOKEN env = Some s -> s <> "" ->
   select_client env tr =
     (Ret (UsePlexClient
             {| accessToken := s;
                serverUrl := or_else (PLEX_URL env) "http://localhost:32400" |}),
      (tr ++ [EvLog Info])%list)).
Proof.
  assert (Hreal : USE_MOCK_PLEX env <> Some "true" ->
    match USE_MOCK_PLEX env with Some v => String.eqb v "true" | None => false end = false).
  { destruct (USE_MOCK_PLEX env) as [v|]; [|done].
    intros Hv. apply String.eqb_neq. congruence. }
  unfold select_client. split; [|split].
  - intros ->. reflexivity.
  - intros Hmock Htoken. rewrite (Hreal Hmock).
    unfold try_catch, bind, lift, new_PlexClient. cbn [token baseUrl].
    by rewrite !(or_else_missing _ _ Htoken).
  - intros Hmock s Htoken Hs. rewrite (Hreal Hmock).
    unfold try_catch, bind, lift, new_PlexClient. cbn [token baseUrl].
    rewrite Htoken, (or_else_set _ _ Hs).
    apply String.eqb_neq in Hs as ->.
    destruct (missing_or_set (PLEX_URL env)) as [Hurl | (u & Hurl & Hu)].
    + by rewrite !(or_else_missing _ _ Hurl).
    + rewrite Hurl, !(or_else_set _ _ Hu). reflexivity.
Qed.

(** ** The MCPServer of the test support *)

(** X22.  [testEndpoint] does not throw, whatever the handler does, and its
    response is truthy; without a handler for the path the response is
    status 404 with [{ error: 'Endpoint not found' }] and nothing has run. *)
Theorem testEndpoint_always_answers (server : MCPServer.t) path options tr :
  exists response tr',
    MCPServer.testEndpoint server path options tr = (Ret response, tr') /\
    truthy response = true /\
    (MCPServer.handlers server !! path = None ->
     response = MCPServer.res 404 (VObj {[ "error" := VStr "Endpoint not found" ]}) /\
     tr' = tr).
Proof.
  unfold MCPServer.testEndpoint.
  destruct (MCPServer.handlers server !! path) as [handler|].
  - unfold try_catch, bind.
    destruct (handler _ _ tr) as [[result|e] tr1].
    + eexists _, _. split; [reflexivity|]. split; [|discriminate].
      unfold js_or. by destruct (truthy result) eqn:Hresult.
    + eexists _, _. split; [reflexivity|]. split; [reflexivity | discriminate].
  - eexists _, _. split; [reflexivity|]. split; [reflexivity|]. intros _. by split.
Qed.


(** ** The answers of get-movies and search *)

Lemma query_missing_blank query : query_missing query = all_whitespace query.
Proof.
  unfold query_missing. destruct (all_whitespace query) eqn:Hblank.
  - rewrite (trim_all_whitespace _ Hblank). apply orb_true_r.
  - apply orb_false_intro.
    + destruct query; [discriminate | reflexivity].
    + apply String.eqb_neq. intros Htrim. apply trim_empty in Htrim. congruence.
Qed.

Lemma map_normalize_returns raws :
  Forall media_entries_defined raws ->
  exists metadata,
    map_items normalize_item (VArr (map VObj raws)) = Ret (VArr metadata) /\
    Forall2 (fun raw item' => normalize_item (VObj raw) = Ret item') raws metadata.
Proof.
  intros Hraws. unfold map_items. simpl.
  induction Hraws as [|raw raws Hraw _ (metadata & Hmap & Hall)]; simpl.
  - exists []. split; [reflexivity | constructor].
  - destruct (normalize_item_returns raw Hraw) as (item' & Hitem). rewrite Hitem. simpl.
    destruct (map_outcome normalize_item (map VObj raws)) as [l|e]; simpl in *;
      [|discriminate].
    injection Hmap as ->. exists (VObj item' :: metadata). split; [reflexivity|].
    by constructor.
Qed.

Lemma listing_targets_distinct c key label fields :
  listing c = Some (key, label, fields) -> NoDup (map fst fields).
Proof.
  destruct c; simpl; try discriminate.
  - intros [= <- <- <-]. apply (bool_decide_unpack _); vm_compute; reflexivity.
  - destruct (all_whitespace query); [discriminate|].
    intros [= <- <- <-]. apply (bool_decide_unpack _); vm_compute; reflexivity.
Qed.

(** X24.  get-movies, and search for a query that is not blank, call the
    client (search with the query as given, not trimmed) and answer with
    one renamed object per item, in order, next to
    [object.MediaContainer] with the [content] label of the tool and the
    normalised items as [Metadata]; the items are objects whose Media
    entries are neither [null] nor [undefined]. *)
Theorem listing_tools_answer (plexClient : IPlexClient) c key label fields tr raws tr1 :
  listing c = Some (key, label, fields) ->
  Forall media_entries_defined raws ->
  client_returns plexClient c (VArr (map VObj raws)) (tr ++ before_call c)%list tr1 ->
  exists outs metadata,
    handler plexClient c tr =
      (Ret (success (VObj
         {[ key := VArr (map VObj outs);
            "object" := VObj {[ "MediaContainer" :=
              VObj {[ "content" := VStr label; "Metadata" := VArr metadata ]} ]} ]})),
       tr1) /\
    Forall2 (renamed fields) raws outs /\
    Forall2 (fun raw item' => normalize_item (VObj raw) = Ret item') raws metadata.
Proof.
  intros Hlisting Hraws Hcall.
  pose proof (listing_targets_distinct _ _ _ _ Hlisting) as Hnodup.
  destruct (map_project_renames fields raws Hnodup) as (outs & Hmap & Hall).
  destruct (map_normalize_returns raws Hraws) as (metadata & Hmeta & Hnormal).
  exists outs, metadata. split; [|split; [exact Hall | exact Hnormal]].
  destruct c; simpl in Hlisting; try discriminate.
  - injection Hlisting as <- <- <-. simpl in Hcall.
    unfold handler, get_movies, try_catch.
    rewrite (delegation_returns _ _ _ _ _ _ Hcall). unfold bind, lift.
    rewrite Hmap, Hmeta. reflexivity.
  - destruct (all_whitespace query) eqn:Hblank; [discriminate|].
    injection Hlisting as <- <- <-. simpl in Hcall.
    unfold handler, search, try_catch. rewrite query_missing_blank, Hblank.
    rewrite (delegation_returns _ _ _ _ _ _ Hcall). unfold bind, lift.
    rewrite Hmeta, Hmap. reflexivity.
Qed.

Lemma listing_tools_answer_witness :
  exists outs metadata,
    handler (MockPlexClient.client 0) (Search "MATRIX") [] =
      (Ret (success (VObj
         {[ "results" := VArr (map VObj outs);
            "object" := VObj {[ "MediaContainer" :=
              VObj {[ "content" := VStr "search results";
                      "Metadata" := VArr metadata ]} ]} ]})),
       [EvLog Info; EvInvoke (CallSearch "MATRIX"); EvConsole]) /\
    length outs = 1 /\ length metadata = 1.
Proof.
  destruct (listing_tools_answer (MockPlexClient.client 0) (Search "MATRIX")
              "results" "search results"
              [("id", "ratingKey"); ("title", "title"); ("type", "type"); ("year", "year")]
              []
              [ {[ "ratingKey" := VStr "101"; "title" := VStr "The Matrix";
                   "year" := num 1999; "type" := VStr "movie";
                   "Media" := MockPlexClient.optimized;
                   "originallyAvailableAt" := VStr "1999-03-31" ]} ]
              [EvLog Info; EvInvoke (CallSearch "MATRIX"); EvConsole]
              eq_refl)
    as (outs & metadata & Hrun & Hall & Hnormal).
  - constructor; [|constructor]. intros entries Hmedia.
    vm_compute in Hmedia. injection Hmedia as <-. constructor; [reflexivity | constructor].
  - vm_compute. reflexivity.
  - exists outs, metadata. split; [exact Hrun|].
    apply Forall2_length in Hall, Hnormal. by split.
Defined.

(** ** From the media server to the answer of a tool *)

Lemma client_failure_is_reported (plexClient : IPlexClient) c e tr tr1 :
  refused c = false ->
  client_fails plexClient c e (tr ++ before_call c)%list tr1 ->
  handler plexClient c tr =
    (Ret (failure (error_prefix c +:+ error_message e)), (tr1 ++ [EvLog Error])%list).
Proof.
  intros Hasked Hfails. unfold before_call in Hfails.
  destruct c; cbn [handler client_fails client_call_of refused error_prefix] in *;
    try (apply try_report_throws, delegation_throws; exact Hfails).
  unfold search. rewrite Hasked.
  apply try_report_throws, delegation_throws; exact Hfails.
Qed.

Lemma unreachable_client_fails e c tr :
  exists evs,
    client_fails (PlexClient.client (unreachable_server e)) c e tr (tr ++ evs)%list /\
    requests evs =
      match c with
      | GetLibraryContents libraryId type tag start size =>
          [FetchLibraryAll (parseInt_string libraryId) (default 1%Z type)
             (default 0%Z start) (default 20%Z size)]
      | _ => []
      end.
Proof.
  destruct c; cbn [client_fails PlexClient.client Interface.getLibraries
    Interface.getLibraryContents Interface.getMovies Interface.getSeasons
    Interface.getEpisodes Interface.search Interface.getWatchList Interface.getDevices].
  - eexists. split; [by apply sdk_method_throws | reflexivity].
  - exists [EvFetch (FetchLibraryAll (parseInt_string libraryId) (default 1%Z type)
                       (default 0%Z start) (default 20%Z size)); EvLog Error].
    split; [|reflexivity].
    unfold PlexClient.getLibraryContents.
    rewrite (try_rethrow_throws _ _ e
               (tr ++ [EvFetch (FetchLibraryAll (parseInt_string libraryId) (default 1%Z type)
                                  (default 0%Z start) (default 20%Z size))])%list).
    + by rewrite <- app_assoc.
    + apply bind_throws_at. reflexivity.
  - exists [EvSdk Sdk.getAllLibraries; EvLog Error; EvLog Error]. split; [|reflexivity].
    unfold PlexClient.getMovies.
    rewrite (try_rethrow_throws _ _ e (tr ++ [EvSdk Sdk.getAllLibraries; EvLog Error])%list).
    + by rewrite <- app_assoc.
    + apply bind_throws_at. by apply sdk_method_throws.
  - eexists. split; [by apply sdk_method_throws | reflexivity].
  - eexists. split; [by apply sdk_method_throws | reflexivity].
  - eexists. split; [by apply sdk_method_throws | reflexivity].
  - exists [EvLog Info; EvSdk (Sdk.getWatchList filter); EvLog Error].
    split; [|reflexivity].
    unfold PlexClient.getWatchList.
    rewrite (bind_continues _ _ _ tt (tr ++ [EvLog Info])%list) by reflexivity.
    rewrite (sdk_method_throws _ _ _ e) by reflexivity. by rewrite <- app_assoc.
  - eexists. split; [by apply sdk_method_throws | reflexivity].
Qed.

(** X25.  With a media server that cannot be reached, every tool over
    [PlexClient] (search: with a query that is not blank) answers with the
    error result made of its prefix and the message of the connection
    error; apart from the one request of get-library-contents, no HTTP
    request is made. *)
Theorem unreachable_server_is_reported e c tr :
  refused c = false ->
  exists evs,
    handler (PlexClient.client (unreachable_server e)) c tr =
      (Ret (failure (error_prefix c +:+ error_message e)), (tr ++ evs)%list) /\
    requests evs =
      match c with
      | GetLibraryContents libraryId type tag start size =>
          [FetchLibraryAll (parseInt_string libraryId) (default 1%Z type)
             (default 0%Z start) (default 20%Z size)]
      | _ => []
      end.
Proof.
  intros Hasked.
  destruct (unreachable_client_fails e c (tr ++ before_call c)%list)
    as (evs & Hfails & Hreq).
  exists (before_call c ++ evs ++ [EvLog Error])%list. split.
  - rewrite (client_failure_is_reported _ _ _ _ _ Hasked Hfails).
    by rewrite <- !app_assoc.
  - unfold before_call. rewrite !requests_app, Hreq. simpl. apply app_nil_r.
Qed.

Lemma unreachable_server_is_reported_witness :
  exists evs,
    handler (PlexClient.client (unreachable_server (ErrorObj "connect ECONNREFUSED")))
      (Search "matrix") [] =
      (Ret {| text := Message "Error searching: connect ECONNREFUSED"; isError := true |},
       evs) /\
    requests evs = [].
Proof.
  apply (unreachable_server_is_reported (ErrorObj "connect ECONNREFUSED")
           (Search "matrix") []).
  reflexivity.
Defined.

(** * The reshaped items in the answers *)

Lemma map_reshape_reshapes raws :
  exists outs,
    map_items reshape_item (VArr (map VObj raws)) = Ret (VArr (map VObj outs)) /\
    Forall2 reshaped raws outs.
Proof.
  unfold map_items. simpl.
  induction raws as [|raw raws (outs & Hmap & Hall)]; simpl.
  - exists []. split; [reflexivity | constructor].
  - destruct (reshape_item_reshapes raw) as (out & -> & Hout). simpl.
    destruct (map_outcome reshape_item (map VObj raws)) as [l|e]; simpl in *;
      [|discriminate].
    injection Hmap as ->. exists (out :: outs). split; [reflexivity|]. by constructor.
Qed.

(** C1.  get-library-contents answers with one reshaped object per item of
    the client, in order, as [media]: the object has [id] equal to the
    item's [ratingKey] and the item's [title] and [year] (and [type]); it
    has [duration], [rating] and [summary], read from the item, exactly when
    the type is ['movie'], it has [seasons], read from [childCount], and
    [summary] exactly when the type is ['show'], and for any other type it
    has the four base fields and nothing else.  The items are objects whose
    Media entries are neither [null] nor [undefined] (with such an entry
    the tool answers with the error result instead).  get-watchlist
    reshapes its items in the same way. *)
Theorem media_is_reshaped_by_type (plexClient : IPlexClient) tr :
  (forall libraryId type tag start size raws total tr1,
     Interface.getLibraryContents plexClient (VStr libraryId) (default 1%Z type)
       (tagEnum (default "newest" tag)) (default 0%Z start) (default 20%Z size)
       (tr ++ before_call (GetLibraryContents libraryId type tag start size))%list
     = (Ret {| items := VArr (map VObj raws); totalSize := total |}, tr1) ->
     Forall media_entries_defined raws ->
     exists outs metadata,
       get_library_contents plexClient libraryId type tag start size tr =
         (Ret (success (VObj
            {[ "media" := VArr (map VObj outs);
               "totalSize" := total;
               "object" := VObj {[ "MediaContainer" :=
                  VObj {[ "content" := VStr "library items";
                          "totalSize" := total;
                          "Metadata" := VArr metadata ]} ]} ]})), tr1) /\
       Forall2 reshaped raws outs) /\
  (forall filter raws tr1,
     Interface.getWatchList plexClient filter
       (tr ++ before_call (GetWatchlist filter))%list
     = (Ret (VArr (map VObj raws)), tr1) ->
     exists outs,
       get_watchlist plexClient filter tr =
         (Ret (success (VObj {[ "watchlist" := VArr (map VObj outs) ]})), tr1) /\
       Forall2 reshaped raws outs).
Proof.
  split.
  - intros libraryId type tag start size raws total tr1 Hcall Hraws.
    destruct (map_reshape_reshapes raws) as (outs & Hmap & Hall).
    destruct (map_normalize_returns raws Hraws) as (metadata & Hmeta & _).
    exists outs, metadata. split; [|exact Hall].
    unfold get_library_contents, try_catch.
    rewrite (delegation_returns _ _ _ _ _ _ Hcall). unfold bind, lift.
    cbn [items totalSize]. rewrite Hmap, Hmeta. reflexivity.
  - intros filter raws tr1 Hcall.
    destruct (map_reshape_reshapes raws) as (outs & Hmap & Hall).
    exists outs. split; [|exact Hall].
    unfold get_watchlist, try_catch.
    rewrite (delegation_returns _ _ _ _ _ _ Hcall). unfold bind, lift.
    rewrite Hmap. reflexivity.
Qed.

Lemma media_is_reshaped_by_type_witness :
  exists (outs : list (gmap string jsval)) metadata,
    get_library_contents (MockPlexClient.client 0) "1" None None (Some 1%Z) (Some 2%Z) [] =
      (Ret (success (VObj
         {[ "media" := VArr (map VObj outs);
            "totalSize" := num 7;
            "object" := VObj {[ "MediaContainer" :=
               VObj {[ "content" := VStr "library items";
                       "totalSize" := num 7;
                       "Metadata" := VArr metadata ]} ]} ]})),
       [EvLog Info;
        EvInvoke (CallGetLibraryContents (VStr "1") 1 Tag.Newest 1 2);
        EvConsole]) /\
    Forall2 reshaped
      (objects [MockPlexClient.inception; MockPlexClient.breaking_bad]) outs.
Proof.
  destruct (media_is_reshaped_by_type (MockPlexClient.client 0) []) as [Hcontents _].
  apply (Hcontents "1" None None (Some 1%Z) (Some 2%Z)
           (objects [MockPlexClient.inception; MockPlexClient.breaking_bad]) (num 7)).
  - vm_compute. reflexivity.
  - constructor; [|constructor; [|constructor]]; intros entries Hmedia;
      vm_compute in Hmedia; injection Hmedia as <-;
      (constructor; [reflexivity | constructor]).
Defined.
